(** * ORACLE_MCP: the tool dispatcher of [src/main.ts], embedded in Rocq

    The server is a set of request handlers over the node-oracledb driver.
    The handlers are embedded as programs of a state-and-exception monad
    whose state is the world behind the driver together with the ordered
    list of driver calls and [console.error] lines issued so far.  The
    driver itself (pool, connections, the database behind them) is external
    to the repository and is a parameter of the development.

    Conventions of the embedding:
    - JS numbers are integers ([Z]); floating point is not modelled;
    - JS strings are [string]; [String.prototype.toUpperCase] is a built-in
      of the runtime and is taken from it as it is;
    - an argument the caller may omit is an [option] ([None] is
      [undefined]): the [as string] / [as number] casts of the source are
      erased at run time and check nothing;
    - [text] of a content item is the JSON document that the source
      serialises with [JSON.stringify(_, null, 2)], kept as a tree;
    - [await] is sequencing: one handler invocation is modelled on its own. *)

From Stdlib Require Import ZArith List String Ascii Bool Lia DecimalString.
Import ListNotations.
Local Open Scope string_scope.
Local Open Scope Z_scope.

Set Warnings "-register-all".

(** ** JavaScript values used by the handlers *)

Module Js.

(** A thrown value: an [Error] with its [message] and, for driver
    errors, the numeric [errorNum]. *)
Record JsError : Type := mkError {
  message : string;
  errorNum : option Z
}.

Definition Error (msg : string) : JsError := mkError msg None.

(** The [TypeError] of a property access on [undefined]. *)
Definition TypeError_undefined (prop : string) : JsError :=
  mkError ("Cannot read properties of undefined (reading '" ++ prop ++ "')") None.

(** The [TypeError] of [for (... of x)] for an undefined [x]; the message
    names the expression iterated over, as it is written in the source. *)
Definition TypeError_not_iterable (expression : string) : JsError :=
  mkError (expression ++ " is not iterable") None.

(** Completion of an evaluation: a value or a thrown error. *)
Inductive Outcome (A : Type) : Type :=
| Ret (a : A)
| Throw (e : JsError).
Arguments Ret {A} a.
Arguments Throw {A} e.

Definition is_lower (c : ascii) : bool :=
  let n := nat_of_ascii c in ((97 <=? n) && (n <=? 122))%nat.

Definition upper_ascii (c : ascii) : ascii :=
  if is_lower c then ascii_of_nat (nat_of_ascii c - 32) else c.

(** The lower-case form, to undo [upper_ascii] on a letter. *)
Definition lower_ascii (c : ascii) : ascii :=
  let n := nat_of_ascii c in
  if ((65 <=? n) && (n <=? 90))%nat then ascii_of_nat (n + 32) else c.

(** Upper-casing of the ASCII letters, the upper-casing of the runtime of
    the sample runs. *)
Fixpoint ascii_toUpperCase (s : string) : string :=
  match s with
  | EmptyString => EmptyString
  | String c s' => String (upper_ascii c) (ascii_toUpperCase s')
  end.

(** Two characters that are equal or are the two cases of one ASCII
    letter. *)
Definition same_letter (c1 c2 : ascii) : bool :=
  Ascii.eqb c1 c2
  || (is_lower c1 && Ascii.eqb (upper_ascii c1) c2)
  || (is_lower c2 && Ascii.eqb c1 (upper_ascii c2)).

(** Two strings that differ in the case of ASCII letters at most. *)
Fixpoint differ_only_in_case (s1 s2 : string) : bool :=
  match s1, s2 with
  | EmptyString, EmptyString => true
  | String c1 r1, String c2 r2 => same_letter c1 c2 && differ_only_in_case r1 r2
  | _, _ => false
  end.

(** [String(n)] for an integer [n]. *)
Definition number_to_string (n : Z) : string :=
  NilZero.string_of_int (Z.to_int n).

(** [`${x}`] for a possibly undefined string. *)
Definition template (x : option string) : string :=
  match x with
  | Some s => s
  | None => "undefined"
  end.

(** [x || dflt] for a possibly undefined string: the empty string is
    falsy as well. *)
Definition or_default_string (x : option string) (dflt : string) : string :=
  match x with
  | Some s => if String.eqb s "" then dflt else s
  | None => dflt
  end.

(** [x || dflt] for a possibly undefined number: [0] is falsy as well. *)
Definition or_default_number (x : option Z) (dflt : Z) : Z :=
  match x with
  | Some n => if n =? 0 then dflt else n
  | None => dflt
  end.

(** JSON documents.  [JSON.stringify] drops the members of an object
    whose value is [undefined]; [obj] builds an object from members that
    may be undefined accordingly. *)
Inductive Json : Type :=
| JNull
| JBool (b : bool)
| JNum (n : Z)
| JStr (s : string)
| JArr (items : list Json)
| JObj (members : list (string * Json)).

Fixpoint defined_members (ms : list (string * option Json)) : list (string * Json) :=
  match ms with
  | [] => []
  | (k, Some v) :: ms' => (k, v) :: defined_members ms'
  | (_, None) :: ms' => defined_members ms'
  end.

Definition obj (members : list (string * option Json)) : Json :=
  JObj (defined_members members).

End Js.
Export Js.

(** ** The driver and the monad of handlers *)

(** A pooled connection handle. *)
Definition Conn : Type := nat.

(** A cell of a fetched row: NUMBER, character data, or NULL. *)
Inductive Cell : Type :=
| CNum (n : Z)
| CStr (s : string)
| CNull.

(** A row in [OUT_FORMAT_OBJECT]: column name to cell. *)
Definition Row : Type := list (string * Cell).

Fixpoint row_get (r : Row) (column : string) : option Cell :=
  match r with
  | [] => None
  | (k, v) :: r' => if String.eqb k column then Some v else row_get r' column
  end.

(** What [connection.execute] resolves to: [rows] is present for queries,
    [rowsAffected] for DML. *)
Record ExecResult : Type := mkResult {
  rows : option (list Row);
  rowsAffected : option Z
}.

(** A positional bind value. *)
Inductive Bind : Type :=
| BStr (s : string)
| BNum (n : Z).

(** The options object of [connection.execute]; an absent member is
    [None] / [false]. *)
Record ExecOpts : Type := mkOpts {
  maxRows : option Z;
  autoCommit : bool
}.

Definition no_opts : ExecOpts := mkOpts None false.

(** The driver over a world [W] (pool and database).  Each call may
    change the world and either resolves or rejects.  The statement text is
    optional because the handlers pass an omitted [sql] argument on as it
    is. *)
Record Driver (W : Type) : Type := mkDriver {
  pool_getConnection : W -> Outcome Conn * W;
  connection_execute :
    Conn -> option string -> list Bind -> ExecOpts -> W -> Outcome ExecResult * W;
  connection_close : Conn -> W -> Outcome unit * W
}.
Arguments pool_getConnection {W} _ _.
Arguments connection_execute {W} _ _ _ _ _ _.
Arguments connection_close {W} _ _ _.

(** What a handler does to the outside, in order. *)
Inductive Event : Type :=
| EGetConnection (r : Outcome Conn)
| EExecute (c : Conn) (sql : option string) (binds : list Bind) (opts : ExecOpts)
           (r : Outcome ExecResult)
| EClose (c : Conn) (r : Outcome unit)
| EConsoleError (label : string) (err : JsError).

Record St (W : Type) : Type := mkSt {
  world : W;
  events : list Event
}.
Arguments mkSt {W} _ _.
Arguments world {W} _.
Arguments events {W} _.

(** Handlers: state passing with exceptions; the state survives a throw. *)
Definition M (W A : Type) : Type := St W -> Outcome A * St W.

Definition ret {W A} (a : A) : M W A := fun s => (Ret a, s).

Definition throw {W A} (e : JsError) : M W A := fun s => (Throw e, s).

Definition bind {W A B} (m : M W A) (k : A -> M W B) : M W B :=
  fun s =>
    match m s with
    | (Ret a, s1) => k a s1
    | (Throw e, s1) => (Throw e, s1)
    end.

Declare Scope js_scope.
Delimit Scope js_scope with js.
Notation "x <- m ;; k" := (bind m (fun x => k))
  (at level 61, m at next level, right associativity) : js_scope.
Notation "m ;; k" := (bind m (fun _ => k))
  (at level 61, right associativity) : js_scope.
Local Open Scope js_scope.

(** [try { body } catch (err) { handler }] *)
Definition try_catch {W A} (body : M W A) (handler : JsError -> M W A) : M W A :=
  fun s =>
    match body s with
    | (Ret a, s1) => (Ret a, s1)
    | (Throw err, s1) => handler err s1
    end.

(** [try { body } finally { fin }]: the completion of [body] stands unless
    [fin] itself throws. *)
Definition try_finally {W A} (body : M W A) (fin : M W unit) : M W A :=
  fun s =>
    match body s with
    | (r, s1) =>
        match fin s1 with
        | (Ret _, s2) => (r, s2)
        | (Throw err, s2) => (Throw err, s2)
        end
    end.

(** Lifts a pure evaluation that may throw. *)
Definition eval {W A} (o : Outcome A) : M W A := fun s => (o, s).

Definition emit {W} (e : Event) (s : St W) : St W :=
  mkSt (world s) (events s ++ [e]).

Definition console_error {W} (label : string) (err : JsError) : M W unit :=
  fun s => (Ret tt, emit (EConsoleError label err) s).

Section DriverCalls.

Context {W : Type} (drv : Driver W).

(** [await pool.getConnection()] *)
Definition getConnection : M W Conn :=
  fun s =>
    match pool_getConnection drv (world s) with
    | (r, w) => (r, mkSt w (events s ++ [EGetConnection r]))
    end.

(** [await connection.execute(sql, binds, opts)] *)
Definition execute (connection : Conn) (sql : option string) (binds : list Bind)
           (opts : ExecOpts) : M W ExecResult :=
  fun s =>
    match connection_execute drv connection sql binds opts (world s) with
    | (r, w) => (r, mkSt w (events s ++ [EExecute connection sql binds opts r]))
    end.

(** [await connection.close()] *)
Definition close (connection : Conn) : M W unit :=
  fun s =>
    match connection_close drv connection (world s) with
    | (r, w) => (r, mkSt w (events s ++ [EClose connection r]))
    end.

(** [withConnection], main.ts 103-120.  The local [connection] is still
    undefined in [finally] exactly when [pool.getConnection()] rejected,
    which is the first branch. *)
Definition withConnection {A} (callback : Conn -> M W A) : M W A :=
  fun s =>
    match getConnection s with
    | (Throw err, s1) =>
        (console_error "Database operation error:" err ;; throw err) s1
    | (Ret connection, s1) =>
        try_finally
          (try_catch (callback connection)
             (fun err => console_error "Database operation error:" err ;; throw err))
          (try_catch (close connection)
             (fun err => console_error "Error closing connection:" err))
          s1
    end.

End DriverCalls.

(** ** Start-up: the connection string (main.ts 43-61) *)

(** What the handlers need from the JavaScript runtime and cannot be read
    off the repository: the relational comparison of a string with [0]
    (through [ToNumber]), the WHATWG [URL] constructor, which yields
    the [href] of the parsed URL or throws a [TypeError], and
    [String.prototype.toUpperCase] with the case mapping of the runtime. *)
Record JsRuntime : Type := mkRuntime {
  string_gt_zero : string -> bool;
  URL_href : string -> option string -> Outcome string;
  toUpperCase : string -> string
}.

Module ConnectionString.

(** The regular expression [/^(.+)\/(.+)@(.+):(\d+)\/(.+)$/] as a list of
    atoms; every [+] atom is a capture group. *)
Inductive Atom : Type :=
| Lit (c : ascii)
| DotPlus
| DigitPlus.

(** [.] matches everything but a line terminator (LF and CR among the
    8-bit characters). *)
Definition is_dot (c : ascii) : bool :=
  negb (Ascii.eqb c (ascii_of_nat 10) || Ascii.eqb c (ascii_of_nat 13)).

Definition is_digit (c : ascii) : bool :=
  let n := nat_of_ascii c in ((48 <=? n) && (n <=? 57))%nat.

(** A greedy [+]: the longest run is tried first, then the matcher backs
    off one character at a time; [k] matches the rest of the pattern. *)
Fixpoint plus_greedy (cls : ascii -> bool) (k : string -> option (list string))
         (taken : string) (s : string) : option (list string) :=
  match s with
  | EmptyString => None
  | String c s' =>
      if cls c then
        let taken' := taken ++ String c EmptyString in
        match plus_greedy cls k taken' s' with
        | Some caps => Some caps
        | None =>
            match k s' with
            | Some caps => Some (taken' :: caps)
            | None => None
            end
        end
      else None
  end.

Fixpoint regex_match (p : list Atom) (s : string) : option (list string) :=
  match p with
  | [] => match s with EmptyString => Some [] | String _ _ => None end
  | Lit c :: p' =>
      match s with
      | String x s' => if Ascii.eqb x c then regex_match p' s' else None
      | EmptyString => None
      end
  | DotPlus :: p' => plus_greedy is_dot (regex_match p') EmptyString s
  | DigitPlus :: p' => plus_greedy is_digit (regex_match p') EmptyString s
  end.

Definition pattern : list Atom :=
  [DotPlus; Lit "/"; DotPlus; Lit "@"; DotPlus; Lit ":"; DigitPlus; Lit "/"; DotPlus].

(** [connectionString.match(...)], without the whole-match entry. *)
Definition connectionParts (connectionString : string) : option (list string) :=
  regex_match pattern connectionString.

End ConnectionString.

(** The module-level constants fixed at start-up. *)
Record Config : Type := mkConfig {
  user : string;
  password : string;
  host : string;
  port : string;
  serviceName : string;
  resourceBaseUrl : string
}.

(** Lines 43-61: [None] is [process.exit(1)] or the uncaught [TypeError]
    of [new URL]; the password goes to the pool only. *)
Definition startup (rt : JsRuntime) (args : list string) : option Config :=
  match args with
  | [] => None
  | connectionString :: _ =>
      match ConnectionString.connectionParts connectionString with
      | Some [user; password; host; port; serviceName] =>
          match URL_href rt
                  ("oracle://" ++ user ++ "@" ++ host ++ ":" ++ port ++ "/" ++ serviceName)
                  None with
          | Ret href => Some (mkConfig user password host port serviceName href)
          | Throw _ => None
          end
      | _ => None
      end
  end.

(** ** Requests and responses *)

(** [request.params.arguments] of a tool call; an absent arguments object
    is the record of [None]s. *)
Record Args : Type := mkArgs {
  arg_sql : option string;
  arg_username : option string;
  arg_password : option string;
  arg_tablespace : option string;
  arg_tempTablespace : option string;
  arg_privileges : option (list string);
  arg_tableName : option string;
  arg_limit : option Z
}.

Definition no_args : Args := mkArgs None None None None None None None None.

Record ContentItem : Type := mkItem {
  type_ : string;
  text : option Json
}.

(** The envelope of a tool result. *)
Record Envelope : Type := mkEnvelope {
  content : list ContentItem;
  isError : bool
}.

Definition text_content (doc : option Json) : list ContentItem :=
  [mkItem "text" doc].

Record Resource : Type := mkResource {
  uri : string;
  mimeType : string;
  name : string
}.

Record GrantResult : Type := mkGrant {
  privilege : string;
  granted : bool;
  error : option string
}.

Definition nl : string := String (ascii_of_nat 10) EmptyString.

Definition cell_json (v : Cell) : Json :=
  match v with
  | CNum n => JNum n
  | CStr s => JStr s
  | CNull => JNull
  end.

Definition row_json (r : Row) : Json :=
  JObj (map (fun kv => (fst kv, cell_json (snd kv))) r).

Definition rows_json (rs : list Row) : Json := JArr (map row_json rs).

Definition grant_json (g : GrantResult) : Json :=
  obj [("privilege", Some (JStr (privilege g)));
       ("granted", Some (JBool (granted g)));
       ("error", option_map JStr (error g))].

(** [`${v}`] for a row member. *)
Definition cell_template (v : option Cell) : string :=
  match v with
  | Some (CNum n) => number_to_string n
  | Some (CStr s) => s
  | Some CNull => "null"
  | None => "undefined"
  end.

(** [v > 0] *)
Definition cell_gt_zero (rt : JsRuntime) (v : option Cell) : bool :=
  match v with
  | Some (CNum n) => 0 <? n
  | Some (CStr s) => string_gt_zero rt s
  | Some CNull => false
  | None => false
  end.

(** [v === 0] *)
Definition cell_is_zero (v : option Cell) : bool :=
  match v with
  | Some (CNum n) => n =? 0
  | _ => false
  end.

(** [v === s] for a string [s] *)
Definition cell_is_string (v : option Cell) (s : string) : bool :=
  match v with
  | Some (CStr t) => String.eqb t s
  | _ => false
  end.

(** [x.toUpperCase()] for a possibly undefined [x]. *)
Definition js_toUpperCase (rt : JsRuntime) (x : option string) : Outcome string :=
  match x with
  | Some s => Ret (toUpperCase rt s)
  | None => Throw (TypeError_undefined "toUpperCase")
  end.

(** [result.rows] where a property of it is read next. *)
Definition rows_of (result : ExecResult) (prop : string) : Outcome (list Row) :=
  match rows result with
  | Some rs => Ret rs
  | None => Throw (TypeError_undefined prop)
  end.

(** [result.rows[0]] where a property of it is read next. *)
Definition first_row (result : ExecResult) (prop : string) : Outcome Row :=
  match rows result with
  | Some (r :: _) => Ret r
  | Some [] => Throw (TypeError_undefined prop)
  | None => Throw (TypeError_undefined "0")
  end.

(** [handleNonQueryResult], main.ts 129-137. *)
Definition handleNonQueryResult (result : ExecResult) : Json :=
  match rowsAffected result with
  | Some n =>
      obj [("message",
            Some (JStr ("Operation completed successfully. Rows affected: "
                        ++ number_to_string n)));
           ("rowsAffected", Some (JNum n))]
  | None => obj [("message", Some (JStr "Operation completed successfully"))]
  end.

(** The catch blocks of the tool handlers: message, driver code when there
    is one, and a fixed suggestion. *)
Definition error_envelope (error : JsError) (suggestion : string) : Envelope :=
  mkEnvelope
    (text_content
       (Some (obj [("error", Some (JStr (message error)));
                   ("errorCode", option_map JNum (errorNum error));
                   ("suggestion", Some (JStr suggestion))])))
    true.

Fixpoint map_outcome {A B} (f : A -> Outcome B) (l : list A) : Outcome (list B) :=
  match l with
  | [] => Ret []
  | a :: l' =>
      match f a with
      | Ret b =>
          match map_outcome f l' with
          | Ret bs => Ret (b :: bs)
          | Throw e => Throw e
          end
      | Throw e => Throw e
      end
  end.

(** ** The request handlers *)

Section Server.

Context {W : Type} (drv : Driver W) (rt : JsRuntime) (cfg : Config).

Definition SCHEMA_PATH : string := "schema".

Definition list_tables_sql : string :=
  "SELECT table_name " ++ nl ++
  "       FROM user_tables " ++ nl ++
  "       UNION ALL " ++ nl ++
  "       SELECT table_name " ++ nl ++
  "       FROM all_tables " ++ nl ++
  "       WHERE owner != USER " ++ nl ++
  "       AND (owner, table_name) IN (" ++ nl ++
  "         SELECT table_owner, table_name " ++ nl ++
  "         FROM user_tab_privs " ++ nl ++
  "         WHERE privilege IN ('SELECT', 'INSERT', 'UPDATE', 'DELETE', 'ALTER', 'ALL')" ++ nl ++
  "       )" ++ nl ++
  "       ORDER BY table_name".

(** One entry of the resource list, main.ts 167-171. *)
Definition resource_of_row (row : Row) : Outcome Resource :=
  let TABLE_NAME := cell_template (row_get row "TABLE_NAME") in
  match URL_href rt (TABLE_NAME ++ "/" ++ SCHEMA_PATH) (Some (resourceBaseUrl cfg)) with
  | Ret href =>
      Ret (mkResource href "application/json"
             (String (ascii_of_nat 34) TABLE_NAME ++ String (ascii_of_nat 34) " database schema"))
  | Throw e => Throw e
  end.

(** The [ListResourcesRequestSchema] handler, main.ts 146-174. *)
Definition ListResources : M W (list Resource) :=
  withConnection drv (fun connection =>
    result <- execute drv connection (Some list_tables_sql) [] no_opts ;;
    table_rows <- eval (rows_of result "map") ;;
    eval (map_outcome resource_of_row table_rows)).

Definition rollback_logged (connection : Conn) : M W unit :=
  try_catch
    (_ <- execute drv connection (Some "ROLLBACK") [] no_opts ;; ret tt)
    (fun err => console_error "Error during rollback:" err).

(** [query], main.ts 383-416. *)
Definition tool_query (arguments : Args) : M W Envelope :=
  let sql := arg_sql arguments in
  withConnection drv (fun connection =>
    try_finally
      (_ <- execute drv connection (Some "SET TRANSACTION READ ONLY") [] no_opts ;;
       result <- execute drv connection sql [] (mkOpts (Some 1000) false) ;;
       ret (mkEnvelope (text_content (option_map rows_json (rows result))) false))
      (rollback_logged connection)).

(** [execute], main.ts 418-453. *)
Definition tool_execute (arguments : Args) : M W Envelope :=
  let sql := arg_sql arguments in
  withConnection drv (fun connection =>
    try_catch
      (result <- execute drv connection sql [] (mkOpts None true) ;;
       ret (mkEnvelope (text_content (Some (handleNonQueryResult result))) false))
      (fun error =>
         ret (error_envelope error "Verifique la sintaxis SQL y los permisos"))).

Definition user_count_sql : string :=
  "SELECT COUNT(*) AS EXIST_COUNT FROM dba_users WHERE username = :username".

(** [check_user_exists], main.ts 455-481. *)
Definition tool_check_user_exists (arguments : Args) : M W Envelope :=
  username <- eval (js_toUpperCase rt (arg_username arguments)) ;;
  withConnection drv (fun connection =>
    result <- execute drv connection (Some user_count_sql) [BStr username] no_opts ;;
    row <- eval (first_row result "EXIST_COUNT") ;;
    let exists_ := cell_gt_zero rt (row_get row "EXIST_COUNT") in
    ret (mkEnvelope
           (text_content
              (Some (obj [("username", Some (JStr username));
                          ("exists", Some (JBool exists_))])))
           false)).

Definition create_user_sql (username : string) (password : option string) : string :=
  "CREATE USER " ++ username ++ " IDENTIFIED BY " ++ String (ascii_of_nat 34) (template password)
    ++ String (ascii_of_nat 34) EmptyString.

Definition alter_user_sql (username tablespace tempTablespace : string) : string :=
  "ALTER USER " ++ username ++ " DEFAULT TABLESPACE " ++ tablespace ++ " " ++ nl ++
  "           TEMPORARY TABLESPACE " ++ tempTablespace ++ " " ++ nl ++
  "           QUOTA UNLIMITED ON " ++ tablespace.

Definition already_exists_envelope (username : string) : Envelope :=
  mkEnvelope
    (text_content
       (Some (obj [("error", Some (JStr ("User " ++ username ++ " already exists")));
                   ("suggestion",
                    Some (JStr "Use a different username or drop the existing user first"))])))
    true.

(** [create_user], main.ts 483-555. *)
Definition tool_create_user (arguments : Args) : M W Envelope :=
  username <- eval (js_toUpperCase rt (arg_username arguments)) ;;
  let password := arg_password arguments in
  let tablespace := or_default_string (arg_tablespace arguments) "USERS" in
  let tempTablespace := or_default_string (arg_tempTablespace arguments) "TEMP" in
  withConnection drv (fun connection =>
    try_catch
      (checkResult <- execute drv connection (Some user_count_sql) [BStr username] no_opts ;;
       row <- eval (first_row checkResult "EXIST_COUNT") ;;
       if cell_gt_zero rt (row_get row "EXIST_COUNT") then
         ret (already_exists_envelope username)
       else
         _ <- execute drv connection (Some (create_user_sql username password)) []
                (mkOpts None true) ;;
         _ <- execute drv connection
                (Some (alter_user_sql username tablespace tempTablespace)) []
                (mkOpts None true) ;;
         ret (mkEnvelope
                (text_content
                   (Some (obj [("message",
                                Some (JStr ("User " ++ username ++ " created successfully")));
                               ("nextStep",
                                Some (JStr "Use grant_privileges tool to assign permissions to the user"))])))
                false))
      (fun error =>
         ret (error_envelope error
                "Verifique la sintaxis y los permisos para crear usuarios"))).

Definition grant_sql (privilege username : string) : string :=
  "GRANT " ++ privilege ++ " TO " ++ username.

(** The body of [for (const privilege of privileges)], main.ts 590-605:
    [results] is the array built so far. *)
Fixpoint grant_each (connection : Conn) (username : string) (privileges : list string)
         (results : list GrantResult) : M W (list GrantResult) :=
  match privileges with
  | [] => ret results
  | privilege :: rest =>
      results' <-
        try_catch
          (_ <- execute drv connection (Some (grant_sql privilege username)) []
                 (mkOpts None true) ;;
           ret (results ++ [mkGrant privilege true None])%list)
          (fun error =>
             ret (results ++ [mkGrant privilege false (Some (message error))])%list) ;;
      grant_each connection username rest results'
  end.

Definition no_such_user_envelope (username : string) : Envelope :=
  mkEnvelope
    (text_content
       (Some (obj [("error", Some (JStr ("User " ++ username ++ " does not exist")));
                   ("suggestion", Some (JStr "Create the user first using create_user tool"))])))
    true.

Definition grants_envelope (username : string) (results : list GrantResult) : Envelope :=
  mkEnvelope
    (text_content
       (Some (obj [("message", Some (JStr ("Privileges processed for user " ++ username)));
                   ("results", Some (JArr (map grant_json results)))])))
    false.

(** [grant_privileges], main.ts 557-632. *)
Definition tool_grant_privileges (arguments : Args) : M W Envelope :=
  username <- eval (js_toUpperCase rt (arg_username arguments)) ;;
  let privileges := arg_privileges arguments in
  withConnection drv (fun connection =>
    try_catch
      (checkResult <- execute drv connection (Some user_count_sql) [BStr username] no_opts ;;
       row <- eval (first_row checkResult "EXIST_COUNT") ;;
       if cell_is_zero (row_get row "EXIST_COUNT") then
         ret (no_such_user_envelope username)
       else
         match privileges with
         | None => throw (TypeError_not_iterable "privileges")
         | Some requested =>
             results <- grant_each connection username requested [] ;;
             ret (grants_envelope username results)
         end)
      (fun error =>
         ret (error_envelope error
                "Verifique los permisos y la sintaxis de los privilegios"))).

Definition owner_sql : string :=
  "SELECT owner FROM all_tables WHERE table_name = :tableName".

Definition table_data_sql (fullTableName : string) : string :=
  "SELECT * FROM " ++ fullTableName ++ " WHERE ROWNUM <= :limit".

(** [fullTableName], main.ts 668-670. *)
Definition fullTableName (owner : option Cell) (TABLE : string) : string :=
  if cell_is_string owner (toUpperCase rt (user cfg)) then TABLE
  else cell_template owner ++ "." ++ TABLE.

Definition no_such_table_envelope (tableName : option string) : Envelope :=
  mkEnvelope
    (text_content
       (Some (obj [("error",
                    Some (JStr ("Table " ++ template tableName
                                ++ " does not exist or you don't have access to it")))])))
    true.

Definition table_data_envelope (TABLE : string) (owner : option Cell)
           (data : list Row) : Envelope :=
  mkEnvelope
    (text_content
       (Some (obj [("tableName", Some (JStr TABLE));
                   ("owner", option_map cell_json owner);
                   ("rowCount", Some (JNum (Z.of_nat (List.length data))));
                   ("data", Some (rows_json data))])))
    false.

(** [get_table_data], main.ts 634-713. *)
Definition tool_get_table_data (arguments : Args) : M W Envelope :=
  let tableName := arg_tableName arguments in
  let limit := or_default_number (arg_limit arguments) 10 in
  withConnection drv (fun connection =>
    try_finally
      (try_catch
         (_ <- execute drv connection (Some "SET TRANSACTION READ ONLY") [] no_opts ;;
          TABLE <- eval (js_toUpperCase rt tableName) ;;
          tableCheck <- execute drv connection (Some owner_sql) [BStr TABLE] no_opts ;;
          owners <- eval (rows_of tableCheck "length") ;;
          match owners with
          | [] => ret (no_such_table_envelope tableName)
          | row :: _ =>
              let owner := row_get row "OWNER" in
              result <- execute drv connection
                          (Some (table_data_sql (fullTableName owner TABLE)))
                          [BNum limit] (mkOpts (Some limit) false) ;;
              data <- eval (rows_of result "length") ;;
              ret (table_data_envelope TABLE owner data)
          end)
         (fun error =>
            ret (error_envelope error
                   "Verifique el nombre de la tabla y sus permisos de acceso")))
      (rollback_logged connection)).

(** The [CallToolRequestSchema] handler, main.ts 380-719. *)
Definition CallTool (toolName : string) (arguments : Args) : M W Envelope :=
  if String.eqb toolName "query" then tool_query arguments
  else if String.eqb toolName "execute" then tool_execute arguments
  else if String.eqb toolName "check_user_exists" then tool_check_user_exists arguments
  else if String.eqb toolName "create_user" then tool_create_user arguments
  else if String.eqb toolName "grant_privileges" then tool_grant_privileges arguments
  else if String.eqb toolName "get_table_data" then tool_get_table_data arguments
  else throw (Error ("Unknown tool: " ++ toolName)).

End Server.

(** ** Observations on runs *)

(** The statements sent to the driver, in order. *)
Fixpoint statements (evs : list Event) : list (option string) :=
  match evs with
  | [] => []
  | EExecute _ sql _ _ _ :: evs' => sql :: statements evs'
  | _ :: evs' => statements evs'
  end.

(** How often connection [c] was handed back to the pool. *)
Fixpoint closes (c : Conn) (evs : list Event) : nat :=
  match evs with
  | [] => 0%nat
  | EClose c' _ :: evs' => ((if Nat.eqb c c' then 1 else 0) + closes c evs')%nat
  | _ :: evs' => closes c evs'
  end.

(** Whether the pool was asked for a connection. *)
Fixpoint borrowed (evs : list Event) : bool :=
  match evs with
  | [] => false
  | EGetConnection _ :: _ => true
  | _ :: evs' => borrowed evs'
  end.

(** The line [console.error] prints when a logged call rejected. *)
Definition logged {A} (label : string) (r : Outcome A) : list Event :=
  match r with
  | Ret _ => []
  | Throw err => [EConsoleError label err]
  end.

(** The per-item entry the loop of [grant_privileges] records for the
    outcome [r] of the GRANT of [p]. *)
Definition grant_result (p : string) (r : Outcome ExecResult) : GrantResult :=
  match r with
  | Ret _ => mkGrant p true None
  | Throw err => mkGrant p false (Some (message err))
  end.

Definition grant_event (c : Conn) (username : string) (p : string)
           (r : Outcome ExecResult) : Event :=
  EExecute c (Some (grant_sql p username)) [] (mkOpts None true) r.

(** The catalogue of tools. *)
Definition known_tool (toolName : string) : bool :=
  existsb (String.eqb toolName)
    ["query"; "execute"; "check_user_exists"; "create_user"; "grant_privileges";
     "get_table_data"].

(** The tools that read [username.toUpperCase()] before borrowing. *)
Definition takes_username (toolName : string) : bool :=
  existsb (String.eqb toolName) ["check_user_exists"; "create_user"; "grant_privileges"].

(** The tools whose callback is wrapped in a [catch] that builds an error
    envelope. *)
Definition catches_errors (toolName : string) : bool :=
  existsb (String.eqb toolName)
    ["execute"; "create_user"; "grant_privileges"; "get_table_data"].

Definition present {A} (x : option A) : bool :=
  match x with
  | Some _ => true
  | None => false
  end.

(** Whether the arguments that the tool catalogue (main.ts 296-370) lists
    under [required] are present. *)
Definition required_present (toolName : string) (a : Args) : bool :=
  if String.eqb toolName "query" then present (arg_sql a)
  else if String.eqb toolName "execute" then present (arg_sql a)
  else if String.eqb toolName "check_user_exists" then present (arg_username a)
  else if String.eqb toolName "create_user" then
    present (arg_username a) && present (arg_password a)
  else if String.eqb toolName "grant_privileges" then
    present (arg_username a) && present (arg_privileges a)
  else if String.eqb toolName "get_table_data" then present (arg_tableName a)
  else true.

Definition with_username (a : Args) (u : string) : Args :=
  mkArgs (arg_sql a) (Some u) (arg_password a) (arg_tablespace a)
    (arg_tempTablespace a) (arg_privileges a) (arg_tableName a) (arg_limit a).

(** ** Contracts of the driver *)

(** [maxRows]: a positive value caps the rows fetched ([0] means no cap;
    the driver rejects a negative value, so no result exists for one). *)
Definition respects_maxRows {W} (drv : Driver W) : Prop :=
  forall c sql binds opts w result w' m rs,
    maxRows opts = Some m ->
    m <> 0 ->
    connection_execute drv c sql binds opts w = (Ret result, w') ->
    rows result = Some rs ->
    Z.of_nat (List.length rs) <= m.

(** Read-only transactions: [committed] is the durable content of the
    database, [read_only c] says that the session of [c] is inside a
    read-only transaction, and [transactional sql] that the database runs
    the statement [sql] inside the transaction in progress instead of
    committing it on its own.  Borrowing, releasing, SET TRANSACTION and
    ROLLBACK never touch the durable content, and no transactional
    statement run without [autoCommit] inside a read-only transaction
    does. *)
Record ReadOnlyContract {W D} (drv : Driver W) (committed : W -> D)
       (read_only : Conn -> W -> bool) (transactional : option string -> Prop)
  : Prop := mkReadOnly {
  ro_borrow : forall w r w',
    pool_getConnection drv w = (r, w') -> committed w' = committed w;
  ro_release : forall c w r w',
    connection_close drv c w = (r, w') -> committed w' = committed w;
  ro_begin : forall c w r w',
    connection_execute drv c (Some "SET TRANSACTION READ ONLY") [] no_opts w = (r, w') ->
    committed w' = committed w /\
    (forall result, r = Ret result -> read_only c w' = true);
  ro_statement : forall c sql binds opts w r w',
    transactional sql ->
    read_only c w = true ->
    autoCommit opts = false ->
    connection_execute drv c sql binds opts w = (r, w') ->
    committed w' = committed w;
  ro_rollback : forall c w r w',
    connection_execute drv c (Some "ROLLBACK") [] no_opts w = (r, w') ->
    committed w' = committed w
}.

(** ** A small in-memory database for concrete runs *)

Module TestDb.

Record Table : Type := mkTable {
  t_owner : string;
  t_name : string;
  t_rows : list Row
}.

(** One pool, one session at a time.  [users] and [tables] are the
    durable content; [failing] lists statements the database rejects. *)
Record World : Type := mkWorld {
  free : nat;
  next : Conn;
  users : list string;
  tables : list Table;
  in_read_only : bool;
  failing : list string;
  close_rejects : bool
}.

Definition session_user : string := "SCOTT".

Definition known_privileges : list string :=
  ["CREATE SESSION"; "CREATE TABLE"; "CREATE VIEW"].

Definition ora (n : Z) (msg : string) : JsError := mkError msg (Some n).

Definition set_read_only (b : bool) (w : World) : World :=
  mkWorld (free w) (next w) (users w) (tables w) b (failing w) (close_rejects w).

Definition add_user (u : string) (w : World) : World :=
  mkWorld (free w) (next w) (u :: users w) (tables w) (in_read_only w) (failing w)
    (close_rejects w).

Definition getConnection (w : World) : Outcome Conn * World :=
  match free w with
  | O => (Throw (mkError "NJS-040: connection request timeout" None), w)
  | S n =>
      (Ret (next w),
       mkWorld n (S (next w)) (users w) (tables w) false (failing w) (close_rejects w))
  end.

Definition close (c : Conn) (w : World) : Outcome unit * World :=
  if close_rejects w then (Throw (mkError "NJS-003: invalid connection" None), w)
  else
    (Ret tt,
     mkWorld (S (free w)) (next w) (users w) (tables w) false (failing w) (close_rejects w)).

(** The effect of [maxRows] on a result set. *)
Definition cap (m : option Z) (rs : list Row) : list Row :=
  match m with
  | Some m => if 0 <? m then firstn (Z.to_nat m) rs else rs
  | None => rs
  end.

Definition fetched (opts : ExecOpts) (rs : list Row) : ExecResult :=
  mkResult (Some (cap (maxRows opts) rs)) None.

Definition done : ExecResult := mkResult None (Some 0).

Fixpoint until_space (s : string) : string :=
  match s with
  | EmptyString => EmptyString
  | String c s' => if Ascii.eqb c " " then EmptyString else String c (until_space s')
  end.

(** The identifier that follows the keyword prefix [kw] in [q]. *)
Definition identifier_after (kw q : string) : string :=
  until_space (substring (String.length kw) (String.length q) q).

Definition names_table (q : string) (t : Table) : bool :=
  String.eqb q (table_data_sql (t_owner t ++ "." ++ t_name t))
  || (String.eqb (t_owner t) session_user && String.eqb q (table_data_sql (t_name t))).

Definition selects_all (q : string) (t : Table) : bool :=
  String.eqb q ("SELECT * FROM " ++ t_owner t ++ "." ++ t_name t)
  || (String.eqb (t_owner t) session_user && String.eqb q ("SELECT * FROM " ++ t_name t)).

Definition is_grant (w : World) (q : string) : bool :=
  existsb (fun p => existsb (fun u => String.eqb q (grant_sql p u)) (users w))
    known_privileges.

Definition run (q : string) (binds : list Bind) (opts : ExecOpts) (w : World)
  : Outcome ExecResult * World :=
  if existsb (String.eqb q) (failing w) then
    (Throw (ora 942 "ORA-00942: table or view does not exist"), w)
  else if String.eqb q "SET TRANSACTION READ ONLY" then (Ret done, set_read_only true w)
  else if String.eqb q "ROLLBACK" then (Ret done, set_read_only false w)
  else if String.eqb q user_count_sql then
    match binds with
    | [BStr u] =>
        let n := List.length (filter (String.eqb u) (users w)) in
        (Ret (fetched opts [[("EXIST_COUNT", CNum (Z.of_nat n))]]), w)
    | _ => (Throw (ora 1008 "ORA-01008: not all variables bound"), w)
    end
  else if String.eqb q owner_sql then
    match binds with
    | [BStr t] =>
        (Ret (fetched opts
                (map (fun tb => [("OWNER", CStr (t_owner tb))])
                   (filter (fun tb => String.eqb (t_name tb) t) (tables w)))), w)
    | _ => (Throw (ora 1008 "ORA-01008: not all variables bound"), w)
    end
  else if String.eqb q list_tables_sql then
    (Ret (fetched opts (map (fun tb => [("TABLE_NAME", CStr (t_name tb))]) (tables w))), w)
  else
    match find (selects_all q) (tables w) with
    | Some tb => (Ret (fetched opts (t_rows tb)), w)
    | None =>
        match find (names_table q) (tables w), binds with
        | Some tb, [BNum n] => (Ret (fetched opts (firstn (Z.to_nat n) (t_rows tb))), w)
        | Some _, _ => (Throw (ora 1008 "ORA-01008: not all variables bound"), w)
        | None, _ =>
            if prefix "CREATE USER " q || prefix "ALTER USER " q || is_grant w q then
              if in_read_only w then
                (Throw (ora 1456 "ORA-01456: may not perform insert/delete/update operation inside a READ ONLY transaction"), w)
              else if prefix "CREATE USER " q then
                let u := identifier_after "CREATE USER " q in
                if existsb (String.eqb u) (users w) then
                  (Throw (ora 1920 "ORA-01920: user name conflicts with another user or role name"), w)
                else (Ret done, add_user u w)
              else if prefix "ALTER USER " q then
                if existsb (String.eqb (identifier_after "ALTER USER " q)) (users w) then
                  (Ret done, w)
                else (Throw (ora 1918 "ORA-01918: user does not exist"), w)
              else (Ret done, w)
            else (Throw (ora 900 "ORA-00900: invalid SQL statement"), w)
        end
    end.

Definition execute (c : Conn) (sql : option string) (binds : list Bind)
           (opts : ExecOpts) (w : World) : Outcome ExecResult * World :=
  match sql with
  | None => (Throw (mkError "NJS-005: invalid value for parameter 1" None), w)
  | Some q =>
      match maxRows opts with
      | Some m =>
          if m <? 0 then (Throw (mkError "NJS-007: invalid value for maxRows" None), w)
          else run q binds opts w
      | None => run q binds opts w
      end
  end.

Definition driver : Driver World := mkDriver World getConnection execute close.

Definition committed (w : World) : list string * list Table := (users w, tables w).

Definition read_only (c : Conn) (w : World) : bool := in_read_only w.

Fixpoint has_slash (s : string) : bool :=
  match s with
  | EmptyString => false
  | String c s' => Ascii.eqb c "/" || has_slash s'
  end.

(** The base URL up to its last slash. *)
Fixpoint directory (s : string) : string :=
  match s with
  | EmptyString => EmptyString
  | String c s' =>
      if has_slash s' then String c (directory s')
      else if Ascii.eqb c "/" then String c EmptyString
      else EmptyString
  end.

Fixpoint all_digits (s : string) : bool :=
  match s with
  | EmptyString => true
  | String c s' => ConnectionString.is_digit c && all_digits s'
  end.

Fixpoint positive_numeral (s : string) : bool :=
  match s with
  | EmptyString => false
  | String c s' =>
      ConnectionString.is_digit c
      && (negb (Ascii.eqb c "0") && all_digits s' || positive_numeral s')
  end.

(** A runtime for the runs: relative references replace the last path
    segment of the base, a string is above zero when it is a numeral of
    digits with a nonzero digit, and upper-casing acts on the ASCII
    letters. *)
Definition runtime : JsRuntime :=
  mkRuntime positive_numeral
    (fun input base =>
       match base with
       | None => Ret input
       | Some b => Ret (directory b ++ input)
       end)
    ascii_toUpperCase.

Definition emp : Table :=
  mkTable "SCOTT" "EMP"
    [[("ENAME", CStr "KING")]; [("ENAME", CStr "BLAKE")]; [("ENAME", CStr "CLARK")]].

Definition dept : Table :=
  mkTable "HR" "DEPT" [[("DNAME", CStr "SALES")]; [("DNAME", CStr "RESEARCH")]].

Definition db : World :=
  mkWorld 5%nat 1%nat ["SYS"; "SCOTT"] [emp; dept] false [] false.

(** The pool with every connection lent out. *)
Definition exhausted : World :=
  mkWorld 0%nat 6%nat ["SYS"; "SCOTT"] [emp; dept] false [] false.

Definition cfg : Config :=
  mkConfig "scott" "tiger" "localhost" "1521" "XE" "oracle://scott@localhost:1521/XE".

Definition start (w : World) : St World := mkSt w [].

Definition call (toolName : string) (a : Args) : M World Envelope :=
  CallTool driver runtime cfg toolName a.

End TestDb.

(** Arguments and states of the concrete runs. *)
Module Runs.

Import TestDb.

Definition sql_args (q : string) : Args :=
  mkArgs (Some q) None None None None None None None.

Definition user_args (u : string) : Args :=
  mkArgs None (Some u) (Some "secret") None None None None None.

Definition grant_args (u : string) (ps : list string) : Args :=
  mkArgs None (Some u) None None None (Some ps) None None.

Definition table_args (t : string) (limit : option Z) : Args :=
  mkArgs None None None None None None (Some t) limit.

Definition pool_timeout : JsError := mkError "NJS-040: connection request timeout" None.

(** The database after [create_user] has created ALICE. *)
Definition with_alice : St World :=
  snd (call "create_user" (user_args "alice") (start db)).

End Runs.

(** ** The resource URI read back (main.ts 180-189) *)

Module ResourceUri.

(** [pathname.split("/")]: [current] is the component being read. *)
Fixpoint split_from (current : string) (s : string) : list string :=
  match s with
  | EmptyString => [current]
  | String c s' =>
      if Ascii.eqb c "/" then current :: split_from EmptyString s'
      else split_from (current ++ String c EmptyString) s'
  end.

Definition split (pathname : string) : list string := split_from EmptyString pathname.

(** [array.pop()]: the last element, [undefined] on an empty array, and
    the array that is left. *)
Definition pop (components : list string) : option string * list string :=
  match rev components with
  | [] => (None, [])
  | last :: before => (Some last, rev before)
  end.

(** The first lines of the read-resource handler, up to the check of the
    last path component: the table name the handler goes on with, or the
    error it throws before it asks for a connection. *)
Definition target (pathname : string) : Outcome (option string) :=
  let pathComponents := split pathname in
  let (schema, pathComponents1) := pop pathComponents in
  let (tableName, _) := pop pathComponents1 in
  match schema with
  | Some last => if String.eqb last SCHEMA_PATH then Ret tableName
                 else Throw (Error "Invalid resource URI")
  | None => Throw (Error "Invalid resource URI")
  end.

(** [tableName?.toUpperCase() || ""], the bind of the owner query. *)
Definition owner_bind (rt : JsRuntime) (tableName : option string) : string :=
  or_default_string (option_map (toUpperCase rt) tableName) "".

(** [(tableName ?? "").toUpperCase()], the bind of the other queries. *)
Definition table_bind (rt : JsRuntime) (tableName : option string) : string :=
  toUpperCase rt (match tableName with Some t => t | None => "" end).

Fixpoint has_slash (s : string) : bool :=
  match s with
  | EmptyString => false
  | String c s' => Ascii.eqb c "/" || has_slash s'
  end.

End ResourceUri.

(** ** Further observations on runs *)

(** The events a callback may add while it holds connection [c]:
    statements on [c] and [console.error] lines. *)
Definition uses_only (c : Conn) (e : Event) : Prop :=
  match e with
  | EExecute c' _ _ _ _ => c' = c
  | EConsoleError _ _ => True
  | _ => False
  end.

(** A statement sent without [autoCommit], or a [console.error] line. *)
Definition without_autoCommit (e : Event) : Prop :=
  match e with
  | EExecute _ _ _ opts _ => autoCommit opts = false
  | EConsoleError _ _ => True
  | _ => False
  end.

(** What the user tools may send for the user [U]: the count query bound
    to [U], or a CREATE USER, ALTER USER or GRANT statement whose text
    names [U]. *)
Definition names_user (U : string) (e : Event) : Prop :=
  match e with
  | EExecute _ sql binds _ _ =>
      (sql = Some user_count_sql /\ binds = [BStr U])
      \/ (exists rest, sql = Some ("CREATE USER " ++ U ++ " IDENTIFIED BY " ++ rest))
      \/ (exists rest, sql = Some ("ALTER USER " ++ U ++ " DEFAULT TABLESPACE " ++ rest))
      \/ (exists privilege, sql = Some ("GRANT " ++ privilege ++ " TO " ++ U))
  | _ => True
  end.

(** [m] only appends events, and what it appends satisfies [P]. *)
Definition appends {W A} (P : list Event -> Prop) (m : M W A) : Prop :=
  forall s r s',
    m s = (r, s') -> exists new, events s' = (events s ++ new)%list /\ P new.

(** One use of the pool: either the pool rejected, or connection [c] was
    handed out, used by statements on [c] only, and closed last. *)
Definition one_session (new : list Event) : Prop :=
  (exists e,
      new = [EGetConnection (Throw e); EConsoleError "Database operation error:" e])
  \/ (exists c mid rc,
         new = (EGetConnection (Ret c) :: mid
                ++ EClose c rc :: logged "Error closing connection:" rc)%list
         /\ Forall (uses_only c) mid).

(** All characters of [s] satisfy [f]. *)
Fixpoint all_chars (f : ascii -> bool) (s : string) : bool :=
  match s with
  | EmptyString => true
  | String c s' => f c && all_chars f s'
  end.

(** A character other than [c]. *)
Definition is_not (c : ascii) (x : ascii) : bool := negb (Ascii.eqb x c).

(** A character that is no line terminator and none of [excluded]. *)
Definition dot_without (excluded : list ascii) (x : ascii) : bool :=
  ConnectionString.is_dot x && forallb (fun c => is_not c x) excluded.

Definition nonempty (s : string) : bool :=
  match s with
  | EmptyString => false
  | String _ _ => true
  end.

(** The class of characters a [+] atom repeats. *)
Definition atom_class (a : ConnectionString.Atom) : ascii -> bool :=
  match a with
  | ConnectionString.Lit c => Ascii.eqb c
  | ConnectionString.DotPlus => ConnectionString.is_dot
  | ConnectionString.DigitPlus => ConnectionString.is_digit
  end.

(** The text a pattern matches with the given captures, when the captures
    fit the pattern. *)
Fixpoint rebuild (p : list ConnectionString.Atom) (caps : list string) : option string :=
  match p with
  | [] => match caps with [] => Some EmptyString | _ :: _ => None end
  | ConnectionString.Lit c :: p' => option_map (String c) (rebuild p' caps)
  | a :: p' =>
      match caps with
      | cap :: caps' =>
          if nonempty cap && all_chars (atom_class a) cap
          then option_map (append cap) (rebuild p' caps')
          else None
      | [] => None
      end
  end.

Definition with_tablespaces (a : Args) (tablespace tempTablespace : option string) : Args :=
  mkArgs (arg_sql a) (arg_username a) (arg_password a) tablespace tempTablespace
    (arg_privileges a) (arg_tableName a) (arg_limit a).

Definition with_limit (a : Args) (limit : option Z) : Args :=
  mkArgs (arg_sql a) (arg_username a) (arg_password a) (arg_tablespace a)
    (arg_tempTablespace a) (arg_privileges a) (arg_tableName a) limit.

(** ** The tool catalogue (main.ts 293-373) *)

Module Catalogue.

Definition string_property : Json := JObj [("type", JStr "string")].

Definition input_schema (properties : list (string * Json)) (required : list string) : Json :=
  JObj [("type", JStr "object");
        ("properties", JObj properties);
        ("required", JArr (map JStr required))].

Definition tool (name description : string) (inputSchema : Json) : Json :=
  JObj [("name", JStr name); ("description", JStr description);
        ("inputSchema", inputSchema)].

(** What the [ListToolsRequestSchema] handler returns. *)
Definition ListTools : Json :=
  JObj
    [("tools",
      JArr
        [tool "query" "Run a read-only SQL query on Oracle database"
           (input_schema [("sql", string_property)] ["sql"]);
         tool "execute"
           "Execute DDL/DML statements (CREATE, INSERT, UPDATE, etc.) on Oracle database"
           (input_schema [("sql", string_property)] ["sql"]);
         tool "check_user_exists" "Check if a user already exists in Oracle"
           (input_schema [("username", string_property)] ["username"]);
         tool "create_user" "Create a new Oracle user with basic permissions"
           (input_schema
              [("username", string_property);
               ("password", string_property);
               ("tablespace", JObj [("type", JStr "string"); ("default", JStr "USERS")]);
               ("tempTablespace", JObj [("type", JStr "string"); ("default", JStr "TEMP")])]
              ["username"; "password"]);
         tool "grant_privileges" "Grant privileges to a user"
           (input_schema
              [("username", string_property);
               ("privileges",
                JObj [("type", JStr "array");
                      ("items", JObj [("type", JStr "string")]);
                      ("description",
                       JStr "List of privileges to grant (e.g. CREATE SESSION, CREATE TABLE)")])]
              ["username"; "privileges"]);
         tool "get_table_data" "Get sample data from a table"
           (input_schema
              [("tableName", string_property);
               ("limit", JObj [("type", JStr "number"); ("default", JNum 10)])]
              ["tableName"])])].

Fixpoint lookup (k : string) (members : list (string * Json)) : option Json :=
  match members with
  | [] => None
  | (k', v) :: rest => if String.eqb k' k then Some v else lookup k rest
  end.

(** [j.k] of a JSON object. *)
Definition member (k : string) (j : Json) : option Json :=
  match j with
  | JObj members => lookup k members
  | _ => None
  end.

Definition tools_of (listing : Json) : list Json :=
  match member "tools" listing with
  | Some (JArr tools) => tools
  | _ => []
  end.

Definition name_of (t : Json) : option string :=
  match member "name" t with
  | Some (JStr n) => Some n
  | _ => None
  end.

(** The names a client sees in the catalogue. *)
Definition advertised (listing : Json) : list string :=
  flat_map (fun t => match name_of t with Some n => [n] | None => [] end)
    (tools_of listing).

(** The default the catalogue declares for [property] of [toolName]. *)
Definition declared_default (listing : Json) (toolName property : string) : option Json :=
  match find (fun t => match name_of t with
                       | Some n => String.eqb n toolName
                       | None => false
                       end) (tools_of listing) with
  | Some t =>
      match member "inputSchema" t with
      | Some schema =>
          match member "properties" schema with
          | Some properties =>
              match member property properties with
              | Some declaration => member "default" declaration
              | None => None
              end
          | None => None
          end
      | None => None
      end
  | None => None
  end.

Definition as_string (j : option Json) : option string :=
  match j with
  | Some (JStr s') => Some s'
  | _ => None
  end.

Definition as_number (j : option Json) : option Z :=
  match j with
  | Some (JNum n) => Some n
  | _ => None
  end.

End Catalogue.

(** More states of the sample database. *)
Module MoreRuns.

Import TestDb.

Definition rejecting (statements : list string) : World :=
  mkWorld 5%nat 1%nat ["SYS"; "SCOTT"] [emp; dept] false statements false.

(** ALTER USER for ALICE is rejected. *)
Definition alter_rejected : World :=
  rejecting [alter_user_sql "ALICE" "USERS" "TEMP"].

(** CREATE USER for ALICE is rejected. *)
Definition create_rejected : World :=
  rejecting [create_user_sql "ALICE" (Some "secret")].

(** The count query is rejected. *)
Definition count_rejected : World := rejecting [user_count_sql].

End MoreRuns.

(** ** A database whose DDL is not transactional *)

(** The sample database refuses CREATE USER inside a read-only transaction.
    A database whose DDL is not transactional does otherwise: a DDL
    statement ends the transaction in progress, read-only or not, and takes
    effect at once, out of reach of a later ROLLBACK.  This variant of the
    sample database treats CREATE USER, ALTER USER and GRANT so; all else is
    as in the sample database. *)
Module AutonomousDdl.

Import TestDb.

Definition is_ddl (q : string) : bool :=
  prefix "CREATE USER " q || prefix "ALTER USER " q || prefix "GRANT " q.

Definition execute (c : Conn) (sql : option string) (binds : list Bind)
           (opts : ExecOpts) (w : World) : Outcome ExecResult * World :=
  match sql with
  | Some q =>
      if is_ddl q then TestDb.execute c sql binds opts (set_read_only false w)
      else TestDb.execute c sql binds opts w
  | None => TestDb.execute c sql binds opts w
  end.

Definition driver : Driver World :=
  mkDriver World TestDb.getConnection execute TestDb.close.

(** The statements that run inside the transaction in progress. *)
Definition transactional (sql : option string) : Prop :=
  match sql with
  | Some q => is_ddl q = false
  | None => True
  end.

End AutonomousDdl.

(** ** Basic facts *)

Lemma statements_app (xs ys : list Event) :
  statements (xs ++ ys)%list = (statements xs ++ statements ys)%list.
Proof.
  induction xs as [|e xs IH]; simpl; [reflexivity|].
  destruct e; simpl; rewrite IH; reflexivity.
Qed.

Lemma closes_app (c : Conn) (xs ys : list Event) :
  closes c (xs ++ ys)%list = (closes c xs + closes c ys)%nat.
Proof.
  induction xs as [|e xs IH]; simpl; [reflexivity|].
  destruct e; simpl; rewrite IH; lia.
Qed.

Lemma closes_logged {A} (c : Conn) (label : string) (r : Outcome A) :
  closes c (logged label r) = 0%nat.
Proof. destruct r; reflexivity. Qed.

Lemma statements_logged {A} (label : string) (r : Outcome A) :
  statements (logged label r) = [].
Proof. destruct r; reflexivity. Qed.

Lemma borrowed_app (xs ys : list Event) :
  borrowed (xs ++ ys)%list = borrowed xs || borrowed ys.
Proof.
  induction xs as [|e xs IH]; simpl; [reflexivity|].
  destruct e; simpl; auto.
Qed.

Lemma upper_ascii_idempotent (c : ascii) : upper_ascii (upper_ascii c) = upper_ascii c.
Proof. destruct c as [[] [] [] [] [] [] [] []]; reflexivity. Qed.

Lemma upper_ascii_not_lower (c : ascii) : is_lower c = false -> upper_ascii c = c.
Proof. unfold upper_ascii. now intros ->. Qed.

Lemma lower_upper_ascii (c : ascii) : is_lower c = true -> lower_ascii (upper_ascii c) = c.
Proof. destruct c as [[] [] [] [] [] [] [] []]; intros H; try discriminate H; reflexivity. Qed.

Lemma same_letter_spec (c1 c2 : ascii) :
  same_letter c1 c2 = true <-> upper_ascii c1 = upper_ascii c2.
Proof.
  unfold same_letter. rewrite !orb_true_iff, !andb_true_iff, !Ascii.eqb_eq. split.
  - intros [[->| [_ <-]]|[_ ->]]; now rewrite ?upper_ascii_idempotent.
  - intros H.
    destruct (is_lower c1) eqn:L1, (is_lower c2) eqn:L2.
    + left; left.
      rewrite <- (lower_upper_ascii c1 L1), <- (lower_upper_ascii c2 L2). now rewrite H.
    + left; right. split; [reflexivity|]. now rewrite H, (upper_ascii_not_lower c2 L2).
    + right. split; [reflexivity|]. now rewrite <- H, (upper_ascii_not_lower c1 L1).
    + left; left.
      now rewrite <- (upper_ascii_not_lower c1 L1), <- (upper_ascii_not_lower c2 L2).
Qed.

(** On ASCII text, two strings have the same upper-case form exactly when
    they differ in letter case at most. *)
Lemma differ_only_in_case_spec (s1 s2 : string) :
  differ_only_in_case s1 s2 = true <-> ascii_toUpperCase s1 = ascii_toUpperCase s2.
Proof.
  revert s2. induction s1 as [|c1 r1 IH]; intros [|c2 r2]; cbn;
    try (split; [discriminate|discriminate]); [tauto|].
  rewrite andb_true_iff, same_letter_spec, IH. split.
  - intros [-> ->]. reflexivity.
  - intros H. injection H. auto.
Qed.

(** Unfolds the combinators of the monad down to the driver calls. *)
Ltac run :=
  cbv [withConnection rollback_logged try_finally try_catch bind ret throw eval
       getConnection execute close console_error emit];
  cbn [world events fst snd].

(** Case analysis on the next driver call of the goal. *)
Ltac driver_call :=
  match goal with
  | |- context [pool_getConnection ?d ?w] =>
      let E := fresh "Hborrow" in
      destruct (pool_getConnection d w) as [[?|?] ?] eqn:E
  | |- context [connection_execute ?d ?c ?q ?b ?o ?w] =>
      let E := fresh "Hexec" in
      destruct (connection_execute d c q b o w) as [[?|?] ?] eqn:E
  | |- context [connection_close ?d ?c ?w] =>
      let E := fresh "Hclose" in
      destruct (connection_close d c w) as [[?|?] ?] eqn:E
  end; cbn [world events fst snd].

(** ** The scoped borrower *)

(** What [withConnection] does once the pool has handed out [c]: the
    callback runs, a throw is logged, [c] is closed, a failing close is
    logged, and the completion of the callback is handed on. *)
Lemma withConnection_borrowed {W} (drv : Driver W) {A} (callback : Conn -> M W A)
      (s : St W) (c : Conn) (w1 : W) :
  pool_getConnection drv (world s) = (Ret c, w1) ->
  forall r s2 rc w3,
    callback c (mkSt w1 (events s ++ [EGetConnection (Ret c)])) = (r, s2) ->
    connection_close drv c (world s2) = (rc, w3) ->
    withConnection drv callback s =
      (r, mkSt w3 (events s2 ++ logged "Database operation error:" r
                     ++ [EClose c rc] ++ logged "Error closing connection:" rc)).
Proof.
  intros Hget r s2 rc w3 Hcb Hclose.
  run. rewrite Hget. cbn [world events]. rewrite Hcb.
  destruct r as [a|err]; cbn [world events]; rewrite Hclose;
    destruct rc as [[]|cerr]; cbn [logged world events];
    rewrite <- ?app_assoc; cbn [app]; rewrite ?app_nil_r; reflexivity.
Qed.

(** When the pool rejects, the error is logged and rethrown. *)
Lemma withConnection_rejected {W} (drv : Driver W) {A} (callback : Conn -> M W A)
      (s : St W) (err : JsError) (w1 : W) :
  pool_getConnection drv (world s) = (Throw err, w1) ->
  withConnection drv callback s =
    (Throw err,
     mkSt w1 (events s ++ [EGetConnection (Throw err);
                           EConsoleError "Database operation error:" err])).
Proof.
  intros Hget. run. rewrite Hget. cbn [world events].
  rewrite <- app_assoc. reflexivity.
Qed.

(** C3. Whatever the callback of [withConnection] does with the borrowed
    connection, return a value or throw, [withConnection] closes the
    connection exactly once after the callback has completed; a close that
    fails is logged, and the completion handed on (value or error) is the
    callback's own. *)
Theorem withConnection_releases_exactly_once :
  forall {W} (drv : Driver W) {A} (callback : Conn -> M W A) (s : St W) (c : Conn) (w1 : W),
    pool_getConnection drv (world s) = (Ret c, w1) ->
    exists r s2 rc w3,
      callback c (mkSt w1 (events s ++ [EGetConnection (Ret c)])) = (r, s2) /\
      connection_close drv c (world s2) = (rc, w3) /\
      withConnection drv callback s =
        (r, mkSt w3 (events s2 ++ logged "Database operation error:" r
                       ++ [EClose c rc] ++ logged "Error closing connection:" rc)) /\
      closes c (events (snd (withConnection drv callback s))) = S (closes c (events s2)).
Proof.
  intros W drv A callback s c w1 Hget.
  destruct (callback c (mkSt w1 (events s ++ [EGetConnection (Ret c)]))) as [r s2] eqn:Hcb.
  destruct (connection_close drv c (world s2)) as [rc w3] eqn:Hclose.
  exists r, s2, rc, w3.
  rewrite (withConnection_borrowed drv callback s c w1 Hget r s2 rc w3 Hcb Hclose).
  split; [reflexivity|]. split; [exact Hclose|]. split; [reflexivity|].
  cbn [snd events].
  rewrite !closes_app, !closes_logged. cbn [closes].
  rewrite Nat.eqb_refl. lia.
Qed.

(** ** The dispatcher *)

Section Dispatch.

Context {W : Type} (drv : Driver W) (rt : JsRuntime) (cfg : Config).

Lemma CallTool_query a : CallTool drv rt cfg "query" a = tool_query drv a.
Proof. reflexivity. Qed.

Lemma CallTool_execute a : CallTool drv rt cfg "execute" a = tool_execute drv a.
Proof. reflexivity. Qed.

Lemma CallTool_check_user_exists a :
  CallTool drv rt cfg "check_user_exists" a = tool_check_user_exists drv rt a.
Proof. reflexivity. Qed.

Lemma CallTool_create_user a :
  CallTool drv rt cfg "create_user" a = tool_create_user drv rt a.
Proof. reflexivity. Qed.

Lemma CallTool_grant_privileges a :
  CallTool drv rt cfg "grant_privileges" a = tool_grant_privileges drv rt a.
Proof. reflexivity. Qed.

Lemma CallTool_get_table_data a :
  CallTool drv rt cfg "get_table_data" a = tool_get_table_data drv rt cfg a.
Proof. reflexivity. Qed.

(** The members of a list of tool names, one case each. *)
Lemma existsb_names (toolName : string) (names : list string) :
  existsb (String.eqb toolName) names = true -> In toolName names.
Proof.
  intros H. apply existsb_exists in H as [x [Hin Heq]].
  apply String.eqb_eq in Heq. now subst.
Qed.

End Dispatch.

(** ** [query]: the read-only policy *)

(** The three ways a run of [query] can go, with the driver calls made:
    the pool rejects; SET TRANSACTION READ ONLY rejects; or the caller's SQL
    is executed.  ROLLBACK and the close follow in the last two. *)
Lemma tool_query_runs {W} (drv : Driver W) (a : Args) (s : St W)
      (r : Outcome Envelope) (s' : St W) :
  tool_query drv a s = (r, s') ->
  (exists e w1,
      pool_getConnection drv (world s) = (Throw e, w1) /\
      r = Throw e /\
      s' = mkSt w1 (events s ++ [EGetConnection (Throw e);
                                 EConsoleError "Database operation error:" e]))
  \/ (exists c w1 e w2 rb w3 rc w4,
         pool_getConnection drv (world s) = (Ret c, w1) /\
         connection_execute drv c (Some "SET TRANSACTION READ ONLY") [] no_opts w1
         = (Throw e, w2) /\
         connection_execute drv c (Some "ROLLBACK") [] no_opts w2 = (rb, w3) /\
         connection_close drv c w3 = (rc, w4) /\
         r = Throw e /\
         s' = mkSt w4
                (events s
                 ++ EGetConnection (Ret c)
                 :: EExecute c (Some "SET TRANSACTION READ ONLY") [] no_opts (Throw e)
                 :: EExecute c (Some "ROLLBACK") [] no_opts rb
                 :: logged "Error during rollback:" rb
                 ++ EConsoleError "Database operation error:" e
                 :: EClose c rc
                 :: logged "Error closing connection:" rc))
  \/ (exists c w1 began w2 rq w3 rb w4 rc w5,
         pool_getConnection drv (world s) = (Ret c, w1) /\
         connection_execute drv c (Some "SET TRANSACTION READ ONLY") [] no_opts w1
         = (Ret began, w2) /\
         connection_execute drv c (arg_sql a) [] (mkOpts (Some 1000) false) w2
         = (rq, w3) /\
         connection_execute drv c (Some "ROLLBACK") [] no_opts w3 = (rb, w4) /\
         connection_close drv c w4 = (rc, w5) /\
         r = match rq with
             | Ret result =>
                 Ret (mkEnvelope (text_content (option_map rows_json (rows result))) false)
             | Throw e => Throw e
             end /\
         s' = mkSt w5
                (events s
                 ++ EGetConnection (Ret c)
                 :: EExecute c (Some "SET TRANSACTION READ ONLY") [] no_opts (Ret began)
                 :: EExecute c (arg_sql a) [] (mkOpts (Some 1000) false) rq
                 :: EExecute c (Some "ROLLBACK") [] no_opts rb
                 :: logged "Error during rollback:" rb
                 ++ logged "Database operation error:" rq
                 ++ EClose c rc
                 :: logged "Error closing connection:" rc)).
Proof.
  unfold tool_query. run.
  destruct (pool_getConnection drv (world s)) as [[c|e] w1] eqn:Hborrow;
    cbn [world events].
  2:{ intros Hrun; inversion Hrun; subst; clear Hrun.
      left. exists e, w1. rewrite <- app_assoc. auto. }
  destruct (connection_execute drv c (Some "SET TRANSACTION READ ONLY") [] no_opts w1)
    as [[began|e] w2] eqn:Hset; cbn [world events].
  2:{ destruct (connection_execute drv c (Some "ROLLBACK") [] no_opts w2)
        as [rb w3] eqn:Hrb.
      destruct (connection_close drv c w3) as [rc w4] eqn:Hclose.
      intros Hrun. right; left. exists c, w1, e, w2, rb, w3, rc, w4.
      repeat (split; [first [reflexivity | eassumption]|]).
      revert Hrun.
      destruct rb as [?|eb]; cbn [world events]; rewrite Hclose;
        destruct rc as [[]|ec]; cbn [world events logged];
        intros Hrun; inversion Hrun; subst; clear Hrun;
        rewrite <- !app_assoc; split; reflexivity. }
  destruct (connection_execute drv c (arg_sql a) [] (mkOpts (Some 1000) false) w2)
    as [rq w3] eqn:Hsql.
  destruct (connection_execute drv c (Some "ROLLBACK") [] no_opts w3)
    as [rb w4] eqn:Hrb.
  destruct (connection_close drv c w4) as [rc w5] eqn:Hclose.
  intros Hrun. right; right. exists c, w1, began, w2, rq, w3, rb, w4, rc, w5.
  repeat (split; [first [reflexivity | eassumption]|]).
  revert Hrun.
  destruct rq as [result|eq]; cbn [world events]; rewrite Hrb;
    destruct rb as [?|eb]; cbn [world events]; rewrite Hclose;
    destruct rc as [[]|ec]; cbn [world events logged];
    intros Hrun; inversion Hrun; subst; clear Hrun;
    rewrite <- !app_assoc; split; reflexivity.
Qed.

(** C4, as the code has it. Every run of [query] that obtains a
    connection first executes SET TRANSACTION READ ONLY; the caller's SQL is executed only after that
    statement succeeded, and with [maxRows] only (no [autoCommit]); ROLLBACK is
    executed last on every path, whether SET TRANSACTION or the SQL failed
    or succeeded; a failing ROLLBACK is logged and the completion of the
    body stands.  Consequently, over a database that honours read-only
    transactions the durable content of the database is the same after
    the run as before, for every statement that the database runs inside
    the transaction.  The handler does nothing about a statement that the
    database commits on its own. *)
Theorem query_is_read_only_and_rolled_back :
  forall {W} (drv : Driver W) (rt : JsRuntime) (cfg : Config) (a : Args) (s : St W)
         (r : Outcome Envelope) (s' : St W),
    CallTool drv rt cfg "query" a s = (r, s') ->
    (exists new,
        events s' = (events s ++ new)%list /\
        ((exists e,
             r = Throw e /\
             new = [EGetConnection (Throw e);
                    EConsoleError "Database operation error:" e])
         \/ (exists c e rb rc,
                r = Throw e /\
                new = (EGetConnection (Ret c)
                       :: EExecute c (Some "SET TRANSACTION READ ONLY") [] no_opts (Throw e)
                       :: EExecute c (Some "ROLLBACK") [] no_opts rb
                       :: logged "Error during rollback:" rb
                       ++ EConsoleError "Database operation error:" e
                       :: EClose c rc
                       :: logged "Error closing connection:" rc)%list)
         \/ (exists c began rq rb rc,
                r = match rq with
                    | Ret result =>
                        Ret (mkEnvelope
                               (text_content (option_map rows_json (rows result))) false)
                    | Throw e => Throw e
                    end /\
                new = (EGetConnection (Ret c)
                       :: EExecute c (Some "SET TRANSACTION READ ONLY") [] no_opts (Ret began)
                       :: EExecute c (arg_sql a) [] (mkOpts (Some 1000) false) rq
                       :: EExecute c (Some "ROLLBACK") [] no_opts rb
                       :: logged "Error during rollback:" rb
                       ++ logged "Database operation error:" rq
                       ++ EClose c rc
                       :: logged "Error closing connection:" rc)%list)))
    /\ (forall D (committed : W -> D) (read_only : Conn -> W -> bool)
               (transactional : option string -> Prop),
           ReadOnlyContract drv committed read_only transactional ->
           transactional (arg_sql a) ->
           committed (world s') = committed (world s)).
Proof.
  intros W drv rt cfg a s r s' Hrun.
  rewrite CallTool_query in Hrun.
  destruct (tool_query_runs drv a s r s' Hrun)
    as [(e & w1 & Hborrow & -> & ->)
       |[(c & w1 & e & w2 & rb & w3 & rc & w4 & Hborrow & Hset & Hrb & Hclose & -> & ->)
        |(c & w1 & began & w2 & rq & w3 & rb & w4 & rc & w5
          & Hborrow & Hset & Hsql & Hrb & Hclose & -> & ->)]];
    cbn [world events]; split.
  - eexists; split; [reflexivity|]. left. exists e. auto.
  - intros D committed read_only transactional C _. eapply ro_borrow; eauto.
  - eexists; split; [reflexivity|]. right; left. exists c, e, rb, rc. auto.
  - intros D committed read_only transactional C _.
    rewrite (ro_release _ _ _ _ C _ _ _ _ Hclose), (ro_rollback _ _ _ _ C _ _ _ _ Hrb).
    destruct (ro_begin _ _ _ _ C _ _ _ _ Hset) as [-> _].
    eapply ro_borrow; eauto.
  - eexists; split; [reflexivity|]. right; right. exists c, began, rq, rb, rc. auto.
  - intros D committed read_only transactional C Hsql_in.
    rewrite (ro_release _ _ _ _ C _ _ _ _ Hclose), (ro_rollback _ _ _ _ C _ _ _ _ Hrb).
    destruct (ro_begin _ _ _ _ C _ _ _ _ Hset) as [Hc Hro].
    rewrite (ro_statement _ _ _ _ C c (arg_sql a) [] (mkOpts (Some 1000) false) w2 rq w3
               Hsql_in (Hro _ eq_refl) eq_refl Hsql), Hc.
    eapply ro_borrow; eauto.
Qed.

(** C8. Over a driver that honours [maxRows], the row set that [query]
    puts into its response has at most 1000 rows, whatever SQL was
    submitted. *)
Theorem query_returns_at_most_1000_rows :
  forall {W} (drv : Driver W) (rt : JsRuntime) (cfg : Config) (a : Args) (s : St W)
         (envelope : Envelope) (s' : St W),
    respects_maxRows drv ->
    CallTool drv rt cfg "query" a s = (Ret envelope, s') ->
    exists fetched : option (list Row),
      envelope = mkEnvelope (text_content (option_map rows_json fetched)) false /\
      (forall rs, fetched = Some rs -> (List.length rs <= 1000)%nat) /\
      (forall items,
          content envelope = text_content (Some (JArr items)) ->
          (List.length items <= 1000)%nat).
Proof.
  intros W drv rt cfg a s envelope s' Hmax Hrun.
  rewrite CallTool_query in Hrun.
  destruct (tool_query_runs drv a s _ s' Hrun)
    as [(e & w1 & _ & Hr & _)
       |[(c & w1 & e & w2 & rb & w3 & rc & w4 & _ & _ & _ & _ & Hr & _)
        |(c & w1 & began & w2 & rq & w3 & rb & w4 & rc & w5
          & _ & _ & Hsql & _ & _ & Hr & _)]]; try discriminate Hr.
  destruct rq as [result|e]; [|discriminate Hr].
  injection Hr as ->.
  assert (Hbound : forall rs, rows result = Some rs -> (List.length rs <= 1000)%nat).
  { intros rs Hrs.
    pose proof (Hmax c (arg_sql a) [] (mkOpts (Some 1000) false) w2 result w3 1000 rs
                  eq_refl ltac:(lia) Hsql Hrs) as Hle.
    lia. }
  exists (rows result). split; [reflexivity|]. split; [exact Hbound|].
  intros items Hitems. cbn [content] in Hitems.
  destruct (rows result) as [rs|]; [|discriminate Hitems].
  injection Hitems as <-. rewrite length_map. now apply Hbound.
Qed.

(** ** Arguments that are read before the connection is borrowed *)

(** The three user tools start with [username.toUpperCase()]: an omitted
    username throws there, and the handler sees the username in upper case
    only. *)
Lemma username_is_read_first {W} (drv : Driver W) rt cfg (toolName : string) (a : Args) :
  takes_username toolName = true ->
  exists k : string -> M W Envelope,
    forall u : option string,
      CallTool drv rt cfg toolName
        (mkArgs (arg_sql a) u (arg_password a) (arg_tablespace a) (arg_tempTablespace a)
           (arg_privileges a) (arg_tableName a) (arg_limit a))
      = bind (eval (js_toUpperCase rt u)) k.
Proof.
  intros H. apply existsb_names in H.
  destruct H as [<-|[<-|[<-|[]]]]; eexists; intros u;
    [rewrite CallTool_check_user_exists; unfold tool_check_user_exists
    |rewrite CallTool_create_user; unfold tool_create_user
    |rewrite CallTool_grant_privileges; unfold tool_grant_privileges];
    cbn [arg_sql arg_username arg_password arg_tablespace arg_tempTablespace
         arg_privileges arg_tableName arg_limit];
    reflexivity.
Qed.

(** C2, as the code has it. A call of check_user_exists, create_user or
    grant_privileges without a username is rejected before any connection
    is borrowed: the TypeError of [undefined.toUpperCase()] is thrown and
    nothing has been asked of the driver. *)
Theorem missing_username_is_rejected_before_borrowing :
  forall {W} (drv : Driver W) (rt : JsRuntime) (cfg : Config) (toolName : string)
         (a : Args) (s : St W),
    takes_username toolName = true ->
    arg_username a = None ->
    CallTool drv rt cfg toolName a s = (Throw (TypeError_undefined "toUpperCase"), s).
Proof.
  intros W drv rt cfg toolName a s Htool Hmissing.
  destruct (username_is_read_first drv rt cfg toolName a Htool) as [k Hk].
  specialize (Hk None). destruct a; cbn in *. subst. rewrite Hk. reflexivity.
Qed.

(** ** [grant_privileges] *)

(** The loop over the requested privileges never throws: it issues one
    GRANT per privilege, in order, and appends one entry per privilege. *)
Lemma grant_each_runs {W} (drv : Driver W) (c : Conn) (username : string)
      (ps : list string) :
  forall (results : list GrantResult) (s : St W),
  exists (outcomes : list (Outcome ExecResult)) (w' : W),
    List.length outcomes = List.length ps /\
    grant_each drv c username ps results s
    = (Ret (results
            ++ map (fun pr => grant_result (fst pr) (snd pr)) (combine ps outcomes))%list,
       mkSt w'
         (events s
          ++ map (fun pr => grant_event c username (fst pr) (snd pr))
               (combine ps outcomes))%list).
Proof.
  induction ps as [|p ps IH]; intros results s.
  - exists [], (world s). split; [reflexivity|].
    cbn. rewrite !app_nil_r. destruct s; reflexivity.
  - cbn [grant_each]. run.
    destruct (connection_execute drv c (Some (grant_sql p username)) []
                (mkOpts None true) (world s)) as [r w1] eqn:Hgrant.
    destruct r as [done|err]; cbn [world events].
    + destruct (IH (results ++ [mkGrant p true None])%list
                  (mkSt w1 (events s ++ [EExecute c (Some (grant_sql p username)) []
                                           (mkOpts None true) (Ret done)])))
        as (outcomes & w' & Hlen & Hrun).
      exists (Ret done :: outcomes), w'. split; [cbn; lia|].
      rewrite Hrun. cbn [combine map fst snd grant_result grant_event events].
      rewrite <- !app_assoc. reflexivity.
    + destruct (IH (results ++ [mkGrant p false (Some (message err))])%list
                  (mkSt w1 (events s ++ [EExecute c (Some (grant_sql p username)) []
                                           (mkOpts None true) (Throw err)])))
        as (outcomes & w' & Hlen & Hrun).
      exists (Throw err :: outcomes), w'. split; [cbn; lia|].
      rewrite Hrun. cbn [combine map fst snd grant_result grant_event events].
      rewrite <- !app_assoc. reflexivity.
Qed.

Lemma map_fst_combine {A B} (xs : list A) (ys : list B) :
  List.length ys = List.length xs -> map fst (combine xs ys) = xs.
Proof.
  revert ys. induction xs as [|x xs IH]; intros [|y ys] H; cbn in *;
    try discriminate; [reflexivity|].
  f_equal. apply IH. lia.
Qed.

Lemma grant_json_result (p : string) (r : Outcome ExecResult) :
  grant_json (grant_result p r)
  = match r with
    | Ret _ => JObj [("privilege", JStr p); ("granted", JBool true)]
    | Throw err =>
        JObj [("privilege", JStr p); ("granted", JBool false);
              ("error", JStr (message err))]
    end.
Proof. destruct r; reflexivity. Qed.

(** C6. When the username is given, a connection is obtained and the
    existence check does not count zero users, [grant_privileges] sends
    the check and then one statement [GRANT privilege TO U] per requested
    privilege, in request order, each with [autoCommit], [U] being the
    upper-cased username; a GRANT that fails stops nothing.  The response is
    an envelope with [isError] false whose payload holds the message and,
    under [results], exactly one entry per requested privilege, in request
    order: [{privilege, granted: true}] when the GRANT of that privilege
    succeeded and [{privilege, granted: false, error}] with the message of
    the driver when it failed. *)
Theorem grant_privileges_reports_each_privilege :
  forall {W} (drv : Driver W) (rt : JsRuntime) (cfg : Config) (a : Args) (s : St W)
         (u : string) (requested : list string) (c : Conn) (w1 w2 : W)
         (check : ExecResult) (row : Row) (more : list Row),
    let U := toUpperCase rt u in
    let count_query :=
      Some "SELECT COUNT(*) AS EXIST_COUNT FROM dba_users WHERE username = :username" in
    arg_username a = Some u ->
    arg_privileges a = Some requested ->
    pool_getConnection drv (world s) = (Ret c, w1) ->
    connection_execute drv c count_query [BStr U] no_opts w1 = (Ret check, w2) ->
    rows check = Some (row :: more) ->
    row_get row "EXIST_COUNT" <> Some (CNum 0) ->
    exists (outcomes : list (Outcome ExecResult)) (rc : Outcome unit) (s' : St W),
      let entry (pr : string * Outcome ExecResult) :=
        match snd pr with
        | Ret _ => JObj [("privilege", JStr (fst pr)); ("granted", JBool true)]
        | Throw err =>
            JObj [("privilege", JStr (fst pr)); ("granted", JBool false);
                  ("error", JStr (message err))]
        end in
      let grant (pr : string * Outcome ExecResult) :=
        EExecute c (Some ("GRANT " ++ fst pr ++ " TO " ++ U)) [] (mkOpts None true)
          (snd pr) in
      List.length outcomes = List.length requested /\
      map fst (combine requested outcomes) = requested /\
      CallTool drv rt cfg "grant_privileges" a s
      = (Ret (mkEnvelope
                [mkItem "text"
                   (Some (JObj [("message", JStr ("Privileges processed for user " ++ U));
                                ("results",
                                 JArr (map entry (combine requested outcomes)))]))]
                false), s') /\
      events s'
      = (events s
         ++ EGetConnection (Ret c)
         :: EExecute c count_query [BStr U] no_opts (Ret check)
         :: map grant (combine requested outcomes)
         ++ EClose c rc
         :: logged "Error closing connection:" rc)%list.
Proof.
  intros W drv rt cfg a s u requested c w1 w2 check row more U count_query
         Hu Hps Hborrow Hcheck Hrows Hcount.
  assert (Hexists : cell_is_zero (row_get row "EXIST_COUNT") = false).
  { destruct (row_get row "EXIST_COUNT") as [[n| |]|]; cbn [cell_is_zero];
      try reflexivity.
    apply Z.eqb_neq. intros ->. now apply Hcount. }
  subst count_query.
  change "SELECT COUNT(*) AS EXIST_COUNT FROM dba_users WHERE username = :username"
    with user_count_sql in *.
  rewrite CallTool_grant_privileges. unfold tool_grant_privileges.
  rewrite Hu, Hps. cbn [js_toUpperCase]. unfold bind at 1, eval at 1. fold U.
  destruct (grant_each_runs drv c U requested []
              (mkSt w2 (events s ++ [EGetConnection (Ret c)]
                          ++ [EExecute c (Some user_count_sql) [BStr U] no_opts
                                (Ret check)])))
    as (outcomes & w3 & Hlen & Hloop).
  destruct (connection_close drv c w3) as [rc w4] eqn:Hclose.
  exists outcomes, rc.
  eexists. cbn zeta.
  split; [exact Hlen|]. split; [apply map_fst_combine, Hlen|]. split.
  - erewrite withConnection_borrowed; [ |exact Hborrow| | ].
    2:{ run. rewrite Hcheck. cbn [world events].
        unfold first_row. rewrite Hrows, Hexists.
        rewrite <- app_assoc. rewrite Hloop. cbn [app]. reflexivity. }
    2:{ cbn [world]. exact Hclose. }
    apply f_equal2; [|reflexivity].
    unfold grants_envelope, text_content, obj. cbn [defined_members].
    rewrite map_map.
    erewrite map_ext; [reflexivity|].
    intros [p r]. apply grant_json_result.
  - cbn [events logged]. rewrite <- !app_assoc. reflexivity.
Qed.

(** ** [create_user] *)

(** C5. When the existence check of [create_user], the count query over
    [dba_users] bound to the upper-cased username [U], finds a count above
    zero, the response is the envelope [{error: "User U already exists",
    suggestion}] with [isError] true, and the count query is the only
    statement the invocation sends: neither CREATE USER nor ALTER USER
    follows; the connection is closed afterwards. *)
Theorem create_user_stops_when_user_exists :
  forall {W} (drv : Driver W) (rt : JsRuntime) (cfg : Config) (a : Args) (s : St W)
         (u : string) (c : Conn) (w1 w2 : W)
         (check : ExecResult) (row : Row) (more : list Row),
    let U := toUpperCase rt u in
    let count_query :=
      Some "SELECT COUNT(*) AS EXIST_COUNT FROM dba_users WHERE username = :username" in
    arg_username a = Some u ->
    pool_getConnection drv (world s) = (Ret c, w1) ->
    connection_execute drv c count_query [BStr U] no_opts w1 = (Ret check, w2) ->
    rows check = Some (row :: more) ->
    (exists n, row_get row "EXIST_COUNT" = Some (CNum n) /\ 0 < n)
    \/ (exists t, row_get row "EXIST_COUNT" = Some (CStr t) /\ string_gt_zero rt t = true) ->
    exists (rc : Outcome unit) (s' : St W),
      CallTool drv rt cfg "create_user" a s
      = (Ret (mkEnvelope
                [mkItem "text"
                   (Some (JObj [("error", JStr ("User " ++ U ++ " already exists"));
                                ("suggestion",
                                 JStr "Use a different username or drop the existing user first")]))]
                true), s') /\
      events s'
      = (events s
         ++ [EGetConnection (Ret c);
             EExecute c count_query [BStr U] no_opts (Ret check);
             EClose c rc]
         ++ logged "Error closing connection:" rc)%list /\
      statements (events s') = (statements (events s) ++ [count_query])%list.
Proof.
  intros W drv rt cfg a s u c w1 w2 check row more U count_query
         Hu Hborrow Hcheck Hrows Hcount.
  assert (Hexists : cell_gt_zero rt (row_get row "EXIST_COUNT") = true).
  { destruct Hcount as [(n & -> & Hn)|(t & -> & Ht)]; cbn [cell_gt_zero];
      [now apply Z.ltb_lt|exact Ht]. }
  subst count_query.
  change "SELECT COUNT(*) AS EXIST_COUNT FROM dba_users WHERE username = :username"
    with user_count_sql in *.
  rewrite CallTool_create_user. unfold tool_create_user.
  rewrite Hu. cbn [js_toUpperCase]. unfold bind at 1, eval at 1. fold U.
  destruct (connection_close drv c w2) as [rc w3] eqn:Hclose.
  exists rc. eexists.
  erewrite withConnection_borrowed; [ |exact Hborrow| | ].
  2:{ run. rewrite Hcheck. cbn [world events].
      unfold first_row. rewrite Hrows, Hexists. reflexivity. }
  2:{ cbn [world]. exact Hclose. }
  split; [reflexivity|].
  cbn [events logged app]. split.
  - rewrite <- !app_assoc. reflexivity.
  - destruct rc as [[]|err]; cbn [logged app];
      rewrite !statements_app; cbn [statements app]; rewrite ?app_nil_r; reflexivity.
Qed.

(** ** Envelopes at the dispatcher boundary *)

Lemma try_catch_envelope {W} (body : M W Envelope) (suggestion : string) (s : St W) :
  exists envelope s',
    try_catch body (fun error => ret (error_envelope error suggestion)) s
    = (Ret envelope, s').
Proof.
  unfold try_catch, ret. destruct (body s) as [[envelope|err] s1]; eauto.
Qed.

Lemma rollback_logged_returns {W} (drv : Driver W) (c : Conn) (s : St W) :
  exists s', rollback_logged drv c s = (Ret tt, s').
Proof.
  unfold rollback_logged. run.
  destruct (connection_execute drv c (Some "ROLLBACK") [] no_opts (world s))
    as [[?|?] ?]; eauto.
Qed.

Lemma try_finally_rollback {W} (drv : Driver W) {A} (body : M W A) (c : Conn)
      (s : St W) (r : Outcome A) (s1 : St W) :
  body s = (r, s1) ->
  exists s2, try_finally body (rollback_logged drv c) s = (r, s2).
Proof.
  intros Hbody. unfold try_finally. rewrite Hbody.
  destruct (rollback_logged_returns drv c s1) as [s2 ->]. eauto.
Qed.

Lemma withConnection_returns {W} (drv : Driver W) {A} (callback : Conn -> M W A)
      (s : St W) (c : Conn) (w1 : W) :
  pool_getConnection drv (world s) = (Ret c, w1) ->
  (forall s1, exists a s2, callback c s1 = (Ret a, s2)) ->
  exists a, fst (withConnection drv callback s) = Ret a.
Proof.
  intros Hborrow Hcb.
  destruct (Hcb (mkSt w1 (events s ++ [EGetConnection (Ret c)]))) as (a & s2 & Hrun).
  destruct (connection_close drv c (world s2)) as [rc w3] eqn:Hclose.
  exists a.
  now rewrite (withConnection_borrowed drv callback s c w1 Hborrow _ _ _ _ Hrun Hclose).
Qed.

(** C1, as the code has it. For a known tool whose username, where the
    tool takes one, is present: when [pool.getConnection()] rejects, the
    rejection is logged with [console.error] and rethrown by the dispatcher
    as it is, and nothing else is asked of the driver; once a connection
    has been handed out, execute, create_user, grant_privileges and
    get_table_data answer with an envelope whatever the driver does
    afterwards; query answers with the envelope of the fetched rows when
    SET TRANSACTION READ ONLY and the caller's statement resolve, and
    check_user_exists with an envelope when its count query resolves with
    a row. *)
Theorem CallTool_envelope_once_connected :
  forall {W} (drv : Driver W) (rt : JsRuntime) (cfg : Config) (toolName : string)
         (a : Args) (s : St W),
    known_tool toolName = true ->
    (takes_username toolName = true -> arg_username a <> None) ->
    (forall e w1,
        pool_getConnection drv (world s) = (Throw e, w1) ->
        CallTool drv rt cfg toolName a s
        = (Throw e,
           mkSt w1 (events s ++ [EGetConnection (Throw e);
                                 EConsoleError "Database operation error:" e])))
    /\ (forall c w1,
           pool_getConnection drv (world s) = (Ret c, w1) ->
           catches_errors toolName = true ->
           exists envelope, fst (CallTool drv rt cfg toolName a s) = Ret envelope)
    /\ (forall c w1 began w2 result w3,
           toolName = "query" ->
           pool_getConnection drv (world s) = (Ret c, w1) ->
           connection_execute drv c (Some "SET TRANSACTION READ ONLY") [] no_opts w1
           = (Ret began, w2) ->
           connection_execute drv c (arg_sql a) [] (mkOpts (Some 1000) false) w2
           = (Ret result, w3) ->
           fst (CallTool drv rt cfg toolName a s)
           = Ret (mkEnvelope [mkItem "text" (option_map rows_json (rows result))] false))
    /\ (forall c w1 u check w2 row more,
           toolName = "check_user_exists" ->
           arg_username a = Some u ->
           pool_getConnection drv (world s) = (Ret c, w1) ->
           connection_execute drv c
             (Some "SELECT COUNT(*) AS EXIST_COUNT FROM dba_users WHERE username = :username")
             [BStr (toUpperCase rt u)] no_opts w1
           = (Ret check, w2) ->
           rows check = Some (row :: more) ->
           exists envelope,
             fst (CallTool drv rt cfg toolName a s) = Ret envelope
             /\ isError envelope = false).
Proof.
  intros W drv rt cfg toolName a s Hknown Hu.
  apply existsb_names in Hknown.
  assert (Huser : takes_username toolName = true -> exists u, arg_username a = Some u).
  { intros H. specialize (Hu H). destruct (arg_username a); [eauto|congruence]. }
  clear Hu. split; [|split; [|split]].
  - intros e w1 Hborrow.
    destruct Hknown as [<-|[<-|[<-|[<-|[<-|[<-|[]]]]]]].
    + rewrite CallTool_query. unfold tool_query.
      now rewrite (withConnection_rejected drv _ s e w1 Hborrow).
    + rewrite CallTool_execute. unfold tool_execute.
      now rewrite (withConnection_rejected drv _ s e w1 Hborrow).
    + destruct (Huser eq_refl) as [u Hsome].
      rewrite CallTool_check_user_exists. unfold tool_check_user_exists.
      rewrite Hsome. cbn [js_toUpperCase]. unfold bind at 1, eval at 1.
      now rewrite (withConnection_rejected drv _ s e w1 Hborrow).
    + destruct (Huser eq_refl) as [u Hsome].
      rewrite CallTool_create_user. unfold tool_create_user.
      rewrite Hsome. cbn [js_toUpperCase]. unfold bind at 1, eval at 1.
      now rewrite (withConnection_rejected drv _ s e w1 Hborrow).
    + destruct (Huser eq_refl) as [u Hsome].
      rewrite CallTool_grant_privileges. unfold tool_grant_privileges.
      rewrite Hsome. cbn [js_toUpperCase]. unfold bind at 1, eval at 1.
      now rewrite (withConnection_rejected drv _ s e w1 Hborrow).
    + rewrite CallTool_get_table_data. unfold tool_get_table_data.
      now rewrite (withConnection_rejected drv _ s e w1 Hborrow).
  - intros c w1 Hborrow Hcatch.
    apply existsb_names in Hcatch.
    destruct Hcatch as [<-|[<-|[<-|[<-|[]]]]].
    + rewrite CallTool_execute. unfold tool_execute.
      eapply withConnection_returns; [exact Hborrow|].
      intros s1. apply try_catch_envelope.
    + destruct (Huser eq_refl) as [u Hsome].
      rewrite CallTool_create_user. unfold tool_create_user.
      rewrite Hsome. cbn [js_toUpperCase]. unfold bind at 1, eval at 1.
      eapply withConnection_returns; [exact Hborrow|].
      intros s1. apply try_catch_envelope.
    + destruct (Huser eq_refl) as [u Hsome].
      rewrite CallTool_grant_privileges. unfold tool_grant_privileges.
      rewrite Hsome. cbn [js_toUpperCase]. unfold bind at 1, eval at 1.
      eapply withConnection_returns; [exact Hborrow|].
      intros s1. apply try_catch_envelope.
    + rewrite CallTool_get_table_data. unfold tool_get_table_data.
      eapply withConnection_returns; [exact Hborrow|].
      intros s1.
      match goal with
      | |- context [try_finally (try_catch ?body ?handler) _] =>
          destruct (try_catch_envelope body
                      "Verifique el nombre de la tabla y sus permisos de acceso" s1)
            as (envelope & s2 & Hbody)
      end.
      destruct (try_finally_rollback drv _ c s1 _ s2 Hbody) as [s3 Hfin].
      eauto.
  - intros c w1 began w2 result w3 -> Hborrow Hset Hsql.
    rewrite CallTool_query.
    destruct (tool_query drv a s) as [r s'] eqn:Hrun. cbn [fst].
    destruct (tool_query_runs drv a s r s' Hrun)
      as [(e & w1' & Hb & _)
         |[(c' & w1' & e & w2' & rb & w3' & rc & w4' & Hb & Hs & _)
          |(c' & w1' & began' & w2' & rq & w3' & rb & w4' & rc & w5'
            & Hb & Hs & Hq & _ & _ & -> & _)]];
      rewrite Hborrow in Hb; inversion Hb; subst;
      rewrite Hset in Hs; inversion Hs; subst.
    rewrite Hsql in Hq. inversion Hq; subst. reflexivity.
  - intros c w1 u check w2 row more -> Hu' Hborrow Hcheck Hrows.
    change "SELECT COUNT(*) AS EXIST_COUNT FROM dba_users WHERE username = :username"
      with user_count_sql in Hcheck.
    rewrite CallTool_check_user_exists. unfold tool_check_user_exists.
    rewrite Hu'. cbn [js_toUpperCase]. unfold bind at 1, eval at 1.
    destruct (connection_close drv c w2) as [rc w3] eqn:Hclose.
    eexists.
    erewrite withConnection_borrowed; [ |exact Hborrow| | ].
    2:{ run. rewrite Hcheck. cbn [world events].
        unfold first_row. rewrite Hrows. reflexivity. }
    2:{ cbn [world]. exact Hclose. }
    split; reflexivity.
Qed.

(** ** [get_table_data] *)

Lemma withConnection_inv {W} (drv : Driver W) {A} (callback : Conn -> M W A)
      (s : St W) (c : Conn) (w1 : W) (r : Outcome A) (s' : St W) :
  pool_getConnection drv (world s) = (Ret c, w1) ->
  withConnection drv callback s = (r, s') ->
  exists s2 rc w3,
    callback c (mkSt w1 (events s ++ [EGetConnection (Ret c)])) = (r, s2) /\
    connection_close drv c (world s2) = (rc, w3) /\
    s' = mkSt w3 (events s2 ++ logged "Database operation error:" r
                    ++ [EClose c rc] ++ logged "Error closing connection:" rc).
Proof.
  intros Hborrow Hrun.
  destruct (callback c (mkSt w1 (events s ++ [EGetConnection (Ret c)]))) as [r2 s2] eqn:Hcb.
  destruct (connection_close drv c (world s2)) as [rc w3] eqn:Hclose.
  rewrite (withConnection_borrowed drv callback s c w1 Hborrow _ _ _ _ Hcb Hclose) in Hrun.
  inversion Hrun; subst. exists s2, rc, w3. auto.
Qed.

Lemma try_finally_rollback_inv {W} (drv : Driver W) {A} (body : M W A) (c : Conn)
      (s : St W) (r : Outcome A) (s2 : St W) :
  try_finally body (rollback_logged drv c) s = (r, s2) ->
  exists s1 rb w,
    body s = (r, s1) /\
    connection_execute drv c (Some "ROLLBACK") [] no_opts (world s1) = (rb, w) /\
    s2 = mkSt w (events s1 ++ EExecute c (Some "ROLLBACK") [] no_opts rb
                   :: logged "Error during rollback:" rb).
Proof.
  unfold try_finally. destruct (body s) as [r1 s1] eqn:Hbody.
  run.
  destruct (connection_execute drv c (Some "ROLLBACK") [] no_opts (world s1))
    as [[done|err] w] eqn:Hrb; cbn [world events];
    intros Hrun; inversion Hrun; subst; clear Hrun;
    eexists; eexists; eexists; (split; [reflexivity|]); (split; [exact Hrb|]);
    cbn [logged]; rewrite <- ?app_assoc; reflexivity.
Qed.

(** The successful runs of [get_table_data], with the driver calls made. *)
Lemma tool_get_table_data_success {W} (drv : Driver W) (rt : JsRuntime) (cfg : Config)
      (a : Args)
      (s : St W) (envelope : Envelope) (s' : St W) :
  tool_get_table_data drv rt cfg a s = (Ret envelope, s') ->
  isError envelope = false ->
  exists t c w1 began w2 tableCheck w3 row more result w4 data rb rc,
    let TABLE := toUpperCase rt t in
    let owner := row_get row "OWNER" in
    let limit := or_default_number (arg_limit a) 10 in
    let statement := Some (table_data_sql (fullTableName rt cfg owner TABLE)) in
    arg_tableName a = Some t /\
    pool_getConnection drv (world s) = (Ret c, w1) /\
    connection_execute drv c (Some owner_sql) [BStr TABLE] no_opts w2
    = (Ret tableCheck, w3) /\
    rows tableCheck = Some (row :: more) /\
    connection_execute drv c statement [BNum limit] (mkOpts (Some limit) false) w3
    = (Ret result, w4) /\
    rows result = Some data /\
    envelope = table_data_envelope TABLE owner data /\
    events s'
    = (events s
       ++ [EGetConnection (Ret c);
           EExecute c (Some "SET TRANSACTION READ ONLY") [] no_opts (Ret began);
           EExecute c (Some owner_sql) [BStr TABLE] no_opts (Ret tableCheck);
           EExecute c statement [BNum limit] (mkOpts (Some limit) false) (Ret result);
           EExecute c (Some "ROLLBACK") [] no_opts rb]
       ++ logged "Error during rollback:" rb
       ++ EClose c rc
       :: logged "Error closing connection:" rc)%list.
Proof.
  intros Hrun Hok. unfold tool_get_table_data in Hrun.
  destruct (pool_getConnection drv (world s)) as [[c|e] w1] eqn:Hborrow.
  2:{ rewrite (withConnection_rejected drv _ s e w1 Hborrow) in Hrun. discriminate. }
  apply (withConnection_inv drv _ s c w1 _ s' Hborrow) in Hrun.
  destruct Hrun as (s2 & rc & w5 & Hcb & Hclose & ->).
  apply try_finally_rollback_inv in Hcb.
  destruct Hcb as (s1 & rb & w & Hbody & Hrb & ->).
  revert Hbody. run.
  destruct (connection_execute drv c (Some "SET TRANSACTION READ ONLY") [] no_opts w1)
    as [[began|e] w2] eqn:Hset; cbn [world events].
  2:{ intros H; inversion H; subst. (cbv [isError error_envelope no_such_table_envelope] in Hok; discriminate Hok). }
  destruct (arg_tableName a) as [t|] eqn:Ht; cbn [js_toUpperCase].
  2:{ intros H; inversion H; subst. (cbv [isError error_envelope no_such_table_envelope] in Hok; discriminate Hok). }
  destruct (connection_execute drv c (Some owner_sql) [BStr (toUpperCase rt t)] no_opts w2)
    as [[tableCheck|e] w3] eqn:Howner; cbn [world events].
  2:{ intros H; inversion H; subst. (cbv [isError error_envelope no_such_table_envelope] in Hok; discriminate Hok). }
  unfold rows_of.
  destruct (rows tableCheck) as [[|row more]|] eqn:Hrows;
    try (intros H; inversion H; subst; (cbv [isError error_envelope no_such_table_envelope] in Hok; discriminate Hok)).
  cbn [world events].
  destruct (connection_execute drv c
              (Some (table_data_sql (fullTableName rt cfg (row_get row "OWNER") (toUpperCase rt t))))
              [BNum (or_default_number (arg_limit a) 10)]
              (mkOpts (Some (or_default_number (arg_limit a) 10)) false) w3)
    as [[result|e] w4] eqn:Hdata; cbn [world events].
  2:{ intros H; inversion H; subst. (cbv [isError error_envelope no_such_table_envelope] in Hok; discriminate Hok). }
  destruct (rows result) as [data|] eqn:Hfetched;
    try (intros H; inversion H; subst; (cbv [isError error_envelope no_such_table_envelope] in Hok; discriminate Hok)).
  intros H; inversion H; subst; clear H.
  exists t, c, w1, began, w2, tableCheck, w3, row, more, result, w4, data, rb, rc.
  cbn zeta. repeat (split; [first [reflexivity | eassumption]|]).
  cbn [events world logged]. rewrite <- !app_assoc. reflexivity.
Qed.

(** C7, as the code has it. Over a driver that honours [maxRows], a
    successful [get_table_data] returns at most [limit] rows, where [limit]
    is the caller's limit when that is a number other than [0] and [10] when
    the limit is omitted or is [0]; the rows come from one query whose table
    reference is the upper-cased table name alone when the owner found for
    the table equals the upper-cased connecting user, and
    [OWNER.TABLE] otherwise. *)
Theorem get_table_data_is_bounded_and_qualified :
  forall {W} (drv : Driver W) (rt : JsRuntime) (cfg : Config) (a : Args) (s : St W)
         (envelope : Envelope) (s' : St W),
    respects_maxRows drv ->
    CallTool drv rt cfg "get_table_data" a s = (Ret envelope, s') ->
    isError envelope = false ->
    exists (t : string) (c : Conn) (tableCheck result : ExecResult)
           (row : Row) (more data : list Row),
      let TABLE := toUpperCase rt t in
      let owner := row_get row "OWNER" in
      let limit := match arg_limit a with
                   | Some n => if n =? 0 then 10 else n
                   | None => 10
                   end in
      let reference := if cell_is_string owner (toUpperCase rt (user cfg)) then TABLE
                       else cell_template owner ++ "." ++ TABLE in
      arg_tableName a = Some t /\
      envelope = table_data_envelope TABLE owner data /\
      Z.of_nat (List.length data) <= limit /\
      rows tableCheck = Some (row :: more) /\
      rows result = Some data /\
      In (EExecute c (Some owner_sql) [BStr TABLE] no_opts (Ret tableCheck)) (events s') /\
      In (EExecute c (Some ("SELECT * FROM " ++ reference ++ " WHERE ROWNUM <= :limit"))
            [BNum limit] (mkOpts (Some limit) false) (Ret result)) (events s').
Proof.
  intros W drv rt cfg a s envelope s' Hmax Hrun Hok.
  rewrite CallTool_get_table_data in Hrun.
  destruct (tool_get_table_data_success drv rt cfg a s envelope s' Hrun Hok)
    as (t & c & w1 & began & w2 & tableCheck & w3 & row & more & result & w4 & data
        & rb & rc & H).
  cbn zeta in H.
  destruct H as (Ht & Hborrow & Howner & Hrows & Hdata & Hfetched & Henv & Hevents).
  exists t, c, tableCheck, result, row, more, data. cbn zeta.
  change (match arg_limit a with
          | Some n => if n =? 0 then 10 else n
          | None => 10
          end) with (or_default_number (arg_limit a) 10).
  repeat (split; [first [reflexivity | eassumption]|]).
  split; [|split; [assumption|split; [assumption|split]]].
  - eapply (Hmax c _ _ (mkOpts (Some (or_default_number (arg_limit a) 10)) false));
      [reflexivity| |exact Hdata|exact Hfetched].
    unfold or_default_number. destruct (arg_limit a) as [n|]; [|lia].
    destruct (n =? 0) eqn:Hn; [lia|]. now apply Z.eqb_neq in Hn.
  - rewrite Hevents. apply in_or_app. right. cbn. auto.
  - rewrite Hevents. apply in_or_app. right. cbn. auto.
Qed.

(** ** Resource URIs *)

(** C9. Two start-ups whose connection strings parse to the same user,
    host, port and service name, and differ in the password only, either
    both fail or both succeed; when they succeed the base URL is the same,
    built from the text [oracle://user@host:port/service] in which the
    password has no part, and the list-resources handler behaves identically
    under both: same driver calls, same resources, same URIs. *)
Theorem resource_uris_do_not_depend_on_password :
  forall (rt : JsRuntime) (cs1 cs2 u p1 p2 h po sv : string),
    ConnectionString.connectionParts cs1 = Some [u; p1; h; po; sv] ->
    ConnectionString.connectionParts cs2 = Some [u; p2; h; po; sv] ->
    match startup rt [cs1], startup rt [cs2] with
    | Some cfg1, Some cfg2 =>
        URL_href rt ("oracle://" ++ u ++ "@" ++ h ++ ":" ++ po ++ "/" ++ sv) None
        = Ret (resourceBaseUrl cfg1) /\
        resourceBaseUrl cfg1 = resourceBaseUrl cfg2 /\
        forall W (drv : Driver W) (s : St W),
          ListResources drv rt cfg1 s = ListResources drv rt cfg2 s
    | None, None => True
    | _, _ => False
    end.
Proof.
  intros rt cs1 cs2 u p1 p2 h po sv H1 H2.
  unfold startup. rewrite H1, H2.
  destruct (URL_href rt ("oracle://" ++ u ++ "@" ++ h ++ ":" ++ po ++ "/" ++ sv) None)
    as [href|e]; [|exact I].
  repeat split.
Qed.

(** ** The in-memory database honours the driver contracts *)

Module TestDbFacts.

Import TestDb.

Ltac split_cases H :=
  repeat match type of H with
    | context [if ?b then _ else _] => destruct b eqn:?
    | context [match ?x with _ => _ end] => destruct x eqn:?
    end.

Lemma cap_length (m : Z) (rs : list Row) :
  0 < m -> Z.of_nat (List.length (cap (Some m) rs)) <= m.
Proof.
  intros Hm. unfold cap. apply Z.ltb_lt in Hm as Hb. rewrite Hb.
  rewrite length_firstn. lia.
Qed.

Lemma run_result q binds opts w result w' :
  run q binds opts w = (Ret result, w') ->
  result = done \/ exists rs, result = fetched opts rs.
Proof.
  unfold run. intros H. split_cases H; inversion H; subst; eauto.
Qed.

Lemma run_committed q binds opts w r w' :
  run q binds opts w = (r, w') ->
  in_read_only w = true \/ String.eqb q "SET TRANSACTION READ ONLY" = true
  \/ String.eqb q "ROLLBACK" = true ->
  committed w' = committed w.
Proof.
  unfold run. intros H Hro.
  split_cases H; inversion H; subst; try reflexivity.
  exfalso. destruct Hro as [Hro|[Hro|Hro]]; congruence.
Qed.

Lemma execute_committed c sql binds opts w r w' :
  execute c sql binds opts w = (r, w') ->
  in_read_only w = true \/ sql = Some "SET TRANSACTION READ ONLY"
  \/ sql = Some "ROLLBACK" ->
  committed w' = committed w.
Proof.
  unfold execute. intros H Hro.
  destruct sql as [q|]; [|now inversion H].
  assert (Hq : in_read_only w = true \/ String.eqb q "SET TRANSACTION READ ONLY" = true
               \/ String.eqb q "ROLLBACK" = true).
  { destruct Hro as [Hro|[Hro|Hro]]; auto; inversion Hro; subst; auto. }
  destruct (maxRows opts) as [m|]; [destruct (m <? 0)|];
    try (now inversion H); eapply run_committed; eauto.
Qed.

Lemma driver_respects_maxRows : respects_maxRows driver.
Proof.
  intros c sql binds opts w result w' m rs Hm Hnz Hrun Hrows.
  cbn in Hrun. unfold execute in Hrun.
  destruct sql as [q|]; [|discriminate Hrun].
  rewrite Hm in Hrun.
  destruct (m <? 0) eqn:Hneg; [discriminate Hrun|].
  apply Z.ltb_ge in Hneg.
  destruct (run_result _ _ _ _ _ _ Hrun) as [->|[rs0 ->]]; [discriminate Hrows|].
  cbn in Hrows. injection Hrows as <-. rewrite Hm.
  apply cap_length. lia.
Qed.

Lemma driver_read_only : ReadOnlyContract driver committed read_only (fun _ => True).
Proof.
  constructor.
  - intros w r w' H. cbn in H. unfold getConnection in H.
    destruct (free w); inversion H; reflexivity.
  - intros c w r w' H. cbn in H. unfold close in H.
    destruct (close_rejects w); inversion H; reflexivity.
  - intros c w r w' H. cbn [connection_execute driver] in H. split.
    + eapply execute_committed; eauto.
    + intros result ->. unfold execute, run in H. cbn [maxRows no_opts] in H.
      destruct (existsb (String.eqb "SET TRANSACTION READ ONLY") (failing w));
        [discriminate H|].
      cbn in H. inversion H. reflexivity.
  - intros c sql binds opts w r w' _ Hro _ H. cbn [connection_execute driver] in H.
    eapply execute_committed; eauto.
  - intros c w r w' H. cbn [connection_execute driver] in H.
    eapply execute_committed; eauto.
Qed.

End TestDbFacts.

(** The database whose DDL is not transactional honours read-only
    transactions for every other statement. *)
Module AutonomousDdlFacts.

Import TestDb.

Lemma execute_transactional c sql binds opts w :
  AutonomousDdl.transactional sql ->
  AutonomousDdl.execute c sql binds opts w = TestDb.execute c sql binds opts w.
Proof.
  destruct sql as [q|]; cbn [AutonomousDdl.transactional AutonomousDdl.execute];
    [intros ->|]; reflexivity.
Qed.

Lemma autonomous_ddl_read_only :
  ReadOnlyContract AutonomousDdl.driver committed read_only AutonomousDdl.transactional.
Proof.
  pose proof TestDbFacts.driver_read_only as C.
  constructor.
  - exact (ro_borrow _ _ _ _ C).
  - exact (ro_release _ _ _ _ C).
  - intros c w r w' H. cbn [connection_execute AutonomousDdl.driver] in H.
    rewrite execute_transactional in H by reflexivity.
    exact (ro_begin _ _ _ _ C c w r w' H).
  - intros c sql binds opts w r w' Hsql Hro Hauto H.
    cbn [connection_execute AutonomousDdl.driver] in H.
    rewrite (execute_transactional _ _ _ _ _ Hsql) in H.
    exact (ro_statement _ _ _ _ C c sql binds opts w r w' I Hro Hauto H).
  - intros c w r w' H. cbn [connection_execute AutonomousDdl.driver] in H.
    rewrite execute_transactional in H by reflexivity.
    exact (ro_rollback _ _ _ _ C c w r w' H).
Qed.

End AutonomousDdlFacts.

(** ** Concrete runs *)

(** Counterexample to C1 as stated: [execute] with its required argument present, on a
    pool that has no connection left, does not answer with an envelope; the
    driver's rejection is thrown past the dispatcher after the pool was
    asked. *)
Lemma execute_rethrows_pool_rejection :
  known_tool "execute" = true /\
  required_present "execute" (Runs.sql_args "DELETE FROM EMP") = true /\
  TestDb.call "execute" (Runs.sql_args "DELETE FROM EMP") (TestDb.start TestDb.exhausted)
  = (Throw Runs.pool_timeout,
     mkSt TestDb.exhausted
       [EGetConnection (Throw Runs.pool_timeout);
        EConsoleError "Database operation error:" Runs.pool_timeout]) /\
  forall envelope,
    fst (TestDb.call "execute" (Runs.sql_args "DELETE FROM EMP")
           (TestDb.start TestDb.exhausted)) <> Ret envelope.
Proof.
  repeat split; try reflexivity.
  intros envelope H. vm_compute in H. discriminate H.
Qed.

(** [query] has no catch of its own: a statement the database rejects is
    thrown past the dispatcher too, after ROLLBACK and the close. *)
Example query_statement_failure_is_thrown :
  fst (TestDb.call "query" (Runs.sql_args "SELECT * FROM NOPE") (TestDb.start TestDb.db))
  = Throw (TestDb.ora 900 "ORA-00900: invalid SQL statement").
Proof. reflexivity. Qed.

(** [execute] of a statement the sample database rejects: an envelope. *)
Lemma CallTool_envelope_once_connected_witness :
  known_tool "execute" = true /\
  (exists envelope,
      fst (TestDb.call "execute" (Runs.sql_args "DELETE FROM EMP") (TestDb.start TestDb.db))
      = Ret envelope).
Proof.
  split; [reflexivity|].
  refine (proj1 (proj2 (CallTool_envelope_once_connected TestDb.driver TestDb.runtime
                          TestDb.cfg "execute" (Runs.sql_args "DELETE FROM EMP")
                          (TestDb.start TestDb.db) eq_refl _))
            1%nat _ eq_refl eq_refl).
  intros H. discriminate H.
Defined.

(** Counterexample to C2 as stated: [query] without its required [sql] borrows a
    connection and sends three statements before it fails. *)
Lemma query_without_sql_borrows_a_connection :
  known_tool "query" = true /\
  required_present "query" no_args = false /\
  borrowed (events (snd (TestDb.call "query" no_args (TestDb.start TestDb.db)))) = true /\
  statements (events (snd (TestDb.call "query" no_args (TestDb.start TestDb.db))))
  = [Some "SET TRANSACTION READ ONLY"; None; Some "ROLLBACK"].
Proof. repeat split. Qed.

(** [check_user_exists] without arguments on the sample database. *)
Lemma missing_username_is_rejected_before_borrowing_witness :
  takes_username "check_user_exists" = true /\
  arg_username no_args = None /\
  TestDb.call "check_user_exists" no_args (TestDb.start TestDb.db)
  = (Throw (TypeError_undefined "toUpperCase"), TestDb.start TestDb.db).
Proof.
  split; [reflexivity|]. split; [reflexivity|].
  exact (missing_username_is_rejected_before_borrowing TestDb.driver TestDb.runtime
           TestDb.cfg "check_user_exists" no_args (TestDb.start TestDb.db)
           eq_refl eq_refl).
Defined.

(** A callback that throws, on the sample database. *)
Lemma withConnection_releases_exactly_once_witness :
  pool_getConnection TestDb.driver TestDb.db
  = (Ret 1%nat, snd (TestDb.getConnection TestDb.db)) /\
  exists r s2 rc w3,
    (fun _ : Conn => throw (Error "callback failed"))
      1%nat (mkSt (snd (TestDb.getConnection TestDb.db)) [EGetConnection (Ret 1%nat)])
    = (r, s2) /\
    connection_close TestDb.driver 1%nat (world s2) = (rc, w3) /\
    withConnection TestDb.driver (fun _ : Conn => throw (A:=unit) (Error "callback failed"))
      (TestDb.start TestDb.db)
    = (r, mkSt w3 (events s2 ++ logged "Database operation error:" r
                     ++ [EClose 1%nat rc] ++ logged "Error closing connection:" rc)%list) /\
    closes 1%nat
      (events (snd (withConnection TestDb.driver
                      (fun _ : Conn => throw (A:=unit) (Error "callback failed"))
                      (TestDb.start TestDb.db))))
    = S (closes 1%nat (events s2)).
Proof.
  split; [reflexivity|].
  exact (withConnection_releases_exactly_once TestDb.driver
           (fun _ : Conn => throw (A:=unit) (Error "callback failed"))
           (TestDb.start TestDb.db) 1%nat (snd (TestDb.getConnection TestDb.db)) eq_refl).
Defined.

(** Counterexample to C4 as stated: over a database whose DDL is not
    transactional, CREATE USER sent through [query] is executed after SET
    TRANSACTION READ ONLY has succeeded and is followed by a ROLLBACK that
    succeeds, and the user exists afterwards: the database is not as it
    was. *)
Lemma query_does_not_undo_ddl :
  let run := CallTool AutonomousDdl.driver TestDb.runtime TestDb.cfg "query"
               (Runs.sql_args "CREATE USER MALLORY IDENTIFIED BY x")
               (TestDb.start TestDb.db) in
  events (snd run)
  = [EGetConnection (Ret 1%nat);
     EExecute 1%nat (Some "SET TRANSACTION READ ONLY") [] no_opts (Ret TestDb.done);
     EExecute 1%nat (Some "CREATE USER MALLORY IDENTIFIED BY x") []
       (mkOpts (Some 1000) false) (Ret TestDb.done);
     EExecute 1%nat (Some "ROLLBACK") [] no_opts (Ret TestDb.done);
     EClose 1%nat (Ret tt)]
  /\ TestDb.users TestDb.db = ["SYS"; "SCOTT"]
  /\ TestDb.users (world (snd run)) = ["MALLORY"; "SYS"; "SCOTT"]
  /\ TestDb.committed (world (snd run)) <> TestDb.committed TestDb.db.
Proof.
  repeat split. intros H. vm_compute in H. discriminate H.
Qed.

(** On the same database a statement that is no DDL leaves the durable
    content as it was. *)
Example query_select_on_autonomous_ddl :
  TestDb.committed
    (world (snd (CallTool AutonomousDdl.driver TestDb.runtime TestDb.cfg "query"
                   (Runs.sql_args "SELECT * FROM EMP") (TestDb.start TestDb.db))))
  = TestDb.committed TestDb.db.
Proof. reflexivity. Qed.

(** CREATE USER sent through [query] leaves the sample database, which
    refuses the statement inside a read-only transaction, as it was. *)
Lemma query_is_read_only_and_rolled_back_witness :
  ReadOnlyContract TestDb.driver TestDb.committed TestDb.read_only (fun _ => True) /\
  TestDb.committed
    (world (snd (TestDb.call "query" (Runs.sql_args "CREATE USER BOB IDENTIFIED BY x")
                   (TestDb.start TestDb.db))))
  = TestDb.committed TestDb.db.
Proof.
  split; [exact TestDbFacts.driver_read_only|].
  exact (proj2 (query_is_read_only_and_rolled_back TestDb.driver TestDb.runtime TestDb.cfg
                  (Runs.sql_args "CREATE USER BOB IDENTIFIED BY x") (TestDb.start TestDb.db)
                  (fst (TestDb.call "query" (Runs.sql_args "CREATE USER BOB IDENTIFIED BY x")
                          (TestDb.start TestDb.db)))
                  (snd (TestDb.call "query" (Runs.sql_args "CREATE USER BOB IDENTIFIED BY x")
                          (TestDb.start TestDb.db)))
                  eq_refl)
           _ TestDb.committed TestDb.read_only (fun _ => True)
           TestDbFacts.driver_read_only I).
Defined.

(** [query] of all rows of EMP. *)
Lemma query_returns_at_most_1000_rows_witness :
  respects_maxRows TestDb.driver /\
  exists fetched : option (list Row),
    mkEnvelope (text_content (option_map rows_json (Some (TestDb.t_rows TestDb.emp)))) false
    = mkEnvelope (text_content (option_map rows_json fetched)) false /\
    (forall rs, fetched = Some rs -> (List.length rs <= 1000)%nat) /\
    (forall items,
        content
          (mkEnvelope
             (text_content (option_map rows_json (Some (TestDb.t_rows TestDb.emp)))) false)
        = text_content (Some (JArr items)) ->
        (List.length items <= 1000)%nat).
Proof.
  split; [exact TestDbFacts.driver_respects_maxRows|].
  exact (query_returns_at_most_1000_rows TestDb.driver TestDb.runtime TestDb.cfg
           (Runs.sql_args "SELECT * FROM EMP") (TestDb.start TestDb.db)
           (mkEnvelope
              (text_content (option_map rows_json (Some (TestDb.t_rows TestDb.emp))))
              false)
           (snd (TestDb.call "query" (Runs.sql_args "SELECT * FROM EMP")
                   (TestDb.start TestDb.db)))
           TestDbFacts.driver_respects_maxRows eq_refl).
Defined.

(** The second [create_user] for the same user, after the first created
    it: no CREATE USER and no ALTER USER is sent. *)
Lemma create_user_stops_when_user_exists_witness :
  arg_username (Runs.user_args "Alice") = Some "Alice" /\
  exists (rc : Outcome unit) (s' : St TestDb.World),
    TestDb.call "create_user" (Runs.user_args "Alice") Runs.with_alice
    = (Ret (mkEnvelope
              [mkItem "text"
                 (Some (JObj [("error", JStr "User ALICE already exists");
                              ("suggestion",
                               JStr "Use a different username or drop the existing user first")]))]
              true), s') /\
    events s'
    = (events Runs.with_alice
       ++ [EGetConnection (Ret 2%nat);
           EExecute 2%nat
             (Some "SELECT COUNT(*) AS EXIST_COUNT FROM dba_users WHERE username = :username")
             [BStr "ALICE"] no_opts
             (Ret (mkResult (Some [[("EXIST_COUNT", CNum 1)]]) None));
           EClose 2%nat rc]
       ++ logged "Error closing connection:" rc)%list /\
    statements (events s')
    = (statements (events Runs.with_alice)
       ++ [Some "SELECT COUNT(*) AS EXIST_COUNT FROM dba_users WHERE username = :username"])%list.
Proof.
  split; [reflexivity|].
  refine (create_user_stops_when_user_exists TestDb.driver TestDb.runtime TestDb.cfg
            (Runs.user_args "Alice") Runs.with_alice "Alice" 2%nat
            (snd (TestDb.getConnection (world Runs.with_alice)))
            (snd (TestDb.getConnection (world Runs.with_alice)))
            (mkResult (Some [[("EXIST_COUNT", CNum 1)]]) None)
            [("EXIST_COUNT", CNum 1)] []
            eq_refl eq_refl eq_refl eq_refl _).
  left. exists 1. split; [reflexivity|lia].
Defined.

(** One privilege the sample database knows and one it does not. *)
Lemma grant_privileges_reports_each_privilege_witness :
  arg_privileges (Runs.grant_args "scott" ["CREATE SESSION"; "FLY"])
  = Some ["CREATE SESSION"; "FLY"] /\
  exists (outcomes : list (Outcome ExecResult)) (rc : Outcome unit) (s' : St TestDb.World),
    let entry (pr : string * Outcome ExecResult) :=
      match snd pr with
      | Ret _ => JObj [("privilege", JStr (fst pr)); ("granted", JBool true)]
      | Throw err =>
          JObj [("privilege", JStr (fst pr)); ("granted", JBool false);
                ("error", JStr (message err))]
      end in
    let grant (pr : string * Outcome ExecResult) :=
      EExecute 1%nat (Some ("GRANT " ++ fst pr ++ " TO " ++ "SCOTT")) [] (mkOpts None true)
        (snd pr) in
    List.length outcomes = 2%nat /\
    map fst (combine ["CREATE SESSION"; "FLY"] outcomes) = ["CREATE SESSION"; "FLY"] /\
    TestDb.call "grant_privileges" (Runs.grant_args "scott" ["CREATE SESSION"; "FLY"])
      (TestDb.start TestDb.db)
    = (Ret (mkEnvelope
              [mkItem "text"
                 (Some (JObj [("message", JStr "Privileges processed for user SCOTT");
                              ("results",
                               JArr (map entry
                                       (combine ["CREATE SESSION"; "FLY"] outcomes)))]))]
              false), s') /\
    events s'
    = ([]
       ++ EGetConnection (Ret 1%nat)
       :: EExecute 1%nat
            (Some "SELECT COUNT(*) AS EXIST_COUNT FROM dba_users WHERE username = :username")
            [BStr "SCOTT"] no_opts
            (Ret (mkResult (Some [[("EXIST_COUNT", CNum 1)]]) None))
       :: map grant (combine ["CREATE SESSION"; "FLY"] outcomes)
       ++ EClose 1%nat rc
       :: logged "Error closing connection:" rc)%list.
Proof.
  split; [reflexivity|].
  refine (grant_privileges_reports_each_privilege TestDb.driver TestDb.runtime TestDb.cfg
            (Runs.grant_args "scott" ["CREATE SESSION"; "FLY"]) (TestDb.start TestDb.db)
            "scott" ["CREATE SESSION"; "FLY"] 1%nat
            (snd (TestDb.getConnection TestDb.db))
            (snd (TestDb.getConnection TestDb.db))
            (mkResult (Some [[("EXIST_COUNT", CNum 1)]]) None)
            [("EXIST_COUNT", CNum 1)] []
            eq_refl eq_refl eq_refl eq_refl eq_refl _).
  discriminate.
Defined.

(** The mixed run of the specification: one privilege granted, one
    refused, and an envelope that is not an error. *)
Example grant_privileges_mixed_run :
  let run := TestDb.call "grant_privileges"
               (Runs.grant_args "scott" ["CREATE SESSION"; "FLY"])
               (TestDb.start TestDb.db) in
  (fst run, events (snd run))
  = (Ret (mkEnvelope
            [mkItem "text"
               (Some (JObj [("message", JStr "Privileges processed for user SCOTT");
                            ("results",
                             JArr [JObj [("privilege", JStr "CREATE SESSION");
                                         ("granted", JBool true)];
                                   JObj [("privilege", JStr "FLY");
                                         ("granted", JBool false);
                                         ("error",
                                          JStr "ORA-00900: invalid SQL statement")]])]))]
            false),
     [EGetConnection (Ret 1%nat);
        EExecute 1%nat
          (Some "SELECT COUNT(*) AS EXIST_COUNT FROM dba_users WHERE username = :username")
          [BStr "SCOTT"] no_opts (Ret (mkResult (Some [[("EXIST_COUNT", CNum 1)]]) None));
        EExecute 1%nat (Some "GRANT CREATE SESSION TO SCOTT") [] (mkOpts None true)
          (Ret TestDb.done);
        EExecute 1%nat (Some "GRANT FLY TO SCOTT") [] (mkOpts None true)
          (Throw (TestDb.ora 900 "ORA-00900: invalid SQL statement"));
        EClose 1%nat (Ret tt)]).
Proof. reflexivity. Qed.

(** Counterexample to C7 as stated: with the limit [0] supplied by the caller,
    [get_table_data] returns the three rows of EMP. *)
Lemma get_table_data_limit_zero_returns_rows :
  arg_limit (Runs.table_args "emp" (Some 0)) = Some 0 /\
  fst (TestDb.call "get_table_data" (Runs.table_args "emp" (Some 0)) (TestDb.start TestDb.db))
  = Ret (table_data_envelope "EMP" (Some (CStr "SCOTT")) (TestDb.t_rows TestDb.emp)) /\
  ~ (Z.of_nat (List.length (TestDb.t_rows TestDb.emp)) <= 0).
Proof.
  split; [reflexivity|]. split; [reflexivity|]. cbn. lia.
Qed.

(** One row of DEPT, a table of another schema. *)
Lemma get_table_data_is_bounded_and_qualified_witness :
  respects_maxRows TestDb.driver /\
  isError (table_data_envelope "DEPT" (Some (CStr "HR")) [[("DNAME", CStr "SALES")]]) = false /\
  exists (t : string) (c : Conn) (tableCheck result : ExecResult)
         (row : Row) (more data : list Row),
    let TABLE := toUpperCase TestDb.runtime t in
    let owner := row_get row "OWNER" in
    let limit := 1 in
    let reference := if cell_is_string owner (toUpperCase TestDb.runtime (user TestDb.cfg)) then TABLE
                     else cell_template owner ++ "." ++ TABLE in
    arg_tableName (Runs.table_args "dept" (Some 1)) = Some t /\
    table_data_envelope "DEPT" (Some (CStr "HR")) [[("DNAME", CStr "SALES")]]
    = table_data_envelope TABLE owner data /\
    Z.of_nat (List.length data) <= limit /\
    rows tableCheck = Some (row :: more) /\
    rows result = Some data /\
    In (EExecute c (Some owner_sql) [BStr TABLE] no_opts (Ret tableCheck))
      (events (snd (TestDb.call "get_table_data" (Runs.table_args "dept" (Some 1))
                      (TestDb.start TestDb.db)))) /\
    In (EExecute c (Some ("SELECT * FROM " ++ reference ++ " WHERE ROWNUM <= :limit"))
          [BNum limit] (mkOpts (Some limit) false) (Ret result))
      (events (snd (TestDb.call "get_table_data" (Runs.table_args "dept" (Some 1))
                      (TestDb.start TestDb.db)))).
Proof.
  split; [exact TestDbFacts.driver_respects_maxRows|]. split; [reflexivity|].
  exact (get_table_data_is_bounded_and_qualified TestDb.driver TestDb.runtime TestDb.cfg
           (Runs.table_args "dept" (Some 1)) (TestDb.start TestDb.db)
           (table_data_envelope "DEPT" (Some (CStr "HR")) [[("DNAME", CStr "SALES")]])
           (snd (TestDb.call "get_table_data" (Runs.table_args "dept" (Some 1))
                   (TestDb.start TestDb.db)))
           TestDbFacts.driver_respects_maxRows eq_refl eq_refl).
Defined.

(** The owner-qualified reference of the run above, and the bare one for a
    table of the connecting user. *)
Example get_table_data_references :
  statements (events (snd (TestDb.call "get_table_data" (Runs.table_args "dept" (Some 1))
                             (TestDb.start TestDb.db))))
  = [Some "SET TRANSACTION READ ONLY"; Some owner_sql;
     Some "SELECT * FROM HR.DEPT WHERE ROWNUM <= :limit"; Some "ROLLBACK"]
  /\ statements (events (snd (TestDb.call "get_table_data" (Runs.table_args "emp" None)
                                (TestDb.start TestDb.db))))
     = [Some "SET TRANSACTION READ ONLY"; Some owner_sql;
        Some "SELECT * FROM EMP WHERE ROWNUM <= :limit"; Some "ROLLBACK"].
Proof. split; reflexivity. Qed.

(** Two connection strings with different passwords. *)
Lemma resource_uris_do_not_depend_on_password_witness :
  ConnectionString.connectionParts "scott/tiger@localhost:1521/XE"
  = Some ["scott"; "tiger"; "localhost"; "1521"; "XE"] /\
  ConnectionString.connectionParts "scott/lion@localhost:1521/XE"
  = Some ["scott"; "lion"; "localhost"; "1521"; "XE"] /\
  match startup TestDb.runtime ["scott/tiger@localhost:1521/XE"],
        startup TestDb.runtime ["scott/lion@localhost:1521/XE"] with
  | Some cfg1, Some cfg2 =>
      URL_href TestDb.runtime
        ("oracle://" ++ "scott" ++ "@" ++ "localhost" ++ ":" ++ "1521" ++ "/" ++ "XE") None
      = Ret (resourceBaseUrl cfg1) /\
      resourceBaseUrl cfg1 = resourceBaseUrl cfg2 /\
      forall W (drv : Driver W) (s : St W),
        ListResources drv TestDb.runtime cfg1 s = ListResources drv TestDb.runtime cfg2 s
  | None, None => True
  | _, _ => False
  end.
Proof.
  split; [reflexivity|]. split; [reflexivity|].
  exact (resource_uris_do_not_depend_on_password TestDb.runtime
           "scott/tiger@localhost:1521/XE" "scott/lion@localhost:1521/XE"
           "scott" "tiger" "lion" "localhost" "1521" "XE" eq_refl eq_refl).
Defined.

(** The resources listed for the sample database. *)
Example list_resources_run :
  fst (ListResources TestDb.driver TestDb.runtime TestDb.cfg (TestDb.start TestDb.db))
  = Ret [mkResource "oracle://scott@localhost:1521/EMP/schema" "application/json"
           (String (ascii_of_nat 34) "EMP" ++ String (ascii_of_nat 34) " database schema");
         mkResource "oracle://scott@localhost:1521/DEPT/schema" "application/json"
           (String (ascii_of_nat 34) "DEPT" ++ String (ascii_of_nat 34) " database schema")].
Proof. reflexivity. Qed.

(** ** What a run appends to the event list *)

Lemma appends_weaken {W A} (P Q : list Event -> Prop) (m : M W A) :
  (forall new, P new -> Q new) -> appends P m -> appends Q m.
Proof.
  intros HPQ Hm s r s' Hrun.
  destruct (Hm s r s' Hrun) as (new & Hev & HP). eauto.
Qed.

Section Appends.

Context {W : Type} (drv : Driver W) (Q : Event -> Prop).

Lemma appends_ret {A} (a : A) : appends (W:=W) (Forall Q) (ret a).
Proof.
  intros s r s' H. inversion H; subst. exists []. now rewrite app_nil_r.
Qed.

Lemma appends_throw {A} (e : JsError) : appends (W:=W) (A:=A) (Forall Q) (throw e).
Proof.
  intros s r s' H. inversion H; subst. exists []. now rewrite app_nil_r.
Qed.

Lemma appends_eval {A} (o : Outcome A) : appends (W:=W) (Forall Q) (eval o).
Proof.
  intros s r s' H. inversion H; subst. exists []. now rewrite app_nil_r.
Qed.

Lemma appends_bind {A B} (m : M W A) (k : A -> M W B) :
  appends (Forall Q) m ->
  (forall a, appends (Forall Q) (k a)) ->
  appends (Forall Q) (bind m k).
Proof.
  intros Hm Hk s r s' Hrun. unfold bind in Hrun.
  destruct (m s) as [[a|e] s1] eqn:Hms.
  - destruct (Hm s _ _ Hms) as (n1 & E1 & F1).
    destruct (Hk a s1 _ _ Hrun) as (n2 & E2 & F2).
    exists (n1 ++ n2)%list. rewrite E2, E1, app_assoc. split; [reflexivity|].
    apply Forall_app; auto.
  - inversion Hrun; subst. eauto.
Qed.

Lemma appends_try_catch {A} (body : M W A) (handler : JsError -> M W A) :
  appends (Forall Q) body ->
  (forall e, appends (Forall Q) (handler e)) ->
  appends (Forall Q) (try_catch body handler).
Proof.
  intros Hm Hk s r s' Hrun. unfold try_catch in Hrun.
  destruct (body s) as [[a|e] s1] eqn:Hms.
  - inversion Hrun; subst. eauto.
  - destruct (Hm s _ _ Hms) as (n1 & E1 & F1).
    destruct (Hk e s1 _ _ Hrun) as (n2 & E2 & F2).
    exists (n1 ++ n2)%list. rewrite E2, E1, app_assoc. split; [reflexivity|].
    apply Forall_app; auto.
Qed.

Lemma appends_try_finally {A} (body : M W A) (fin : M W unit) :
  appends (Forall Q) body ->
  appends (Forall Q) fin ->
  appends (Forall Q) (try_finally body fin).
Proof.
  intros Hm Hf s r s' Hrun. unfold try_finally in Hrun.
  destruct (body s) as [r1 s1] eqn:Hms.
  destruct (fin s1) as [rf s2] eqn:Hfs.
  destruct (Hm s _ _ Hms) as (n1 & E1 & F1).
  destruct (Hf s1 _ _ Hfs) as (n2 & E2 & F2).
  exists (n1 ++ n2)%list.
  destruct rf; inversion Hrun; subst; rewrite E2, E1, app_assoc;
    (split; [reflexivity|apply Forall_app; auto]).
Qed.

Lemma appends_execute (c : Conn) (sql : option string) (binds : list Bind)
      (opts : ExecOpts) :
  (forall r, Q (EExecute c sql binds opts r)) ->
  appends (Forall Q) (execute drv c sql binds opts).
Proof.
  intros HQ s r s' Hrun. unfold execute in Hrun.
  destruct (connection_execute drv c sql binds opts (world s)) as [r1 w1].
  inversion Hrun; subst. cbn [events]. eauto.
Qed.

Lemma appends_console_error (label : string) (err : JsError) :
  Q (EConsoleError label err) ->
  appends (W:=W) (Forall Q) (console_error label err).
Proof.
  intros HQ s r s' Hrun. inversion Hrun; subst. cbn [events emit]. eauto.
Qed.

End Appends.

(** One step of the proof that a handler body appends events of one kind:
    the rule of the outermost construct, or a case analysis. *)
Ltac appends_step :=
  first
    [ apply appends_ret
    | apply appends_throw
    | apply appends_eval
    | apply appends_console_error; repeat split
    | apply appends_execute; intros ?; repeat split
    | apply appends_bind; [|intros ?]
    | apply appends_try_catch; [|intros ?]
    | apply appends_try_finally
    | match goal with
      | |- appends _ (match ?x with _ => _ end) => destruct x
      end ].

Lemma grant_each_appends {W} (drv : Driver W) (Q : Event -> Prop) (c : Conn)
      (username : string) (ps : list string) :
  (forall sql r, Q (EExecute c sql [] (mkOpts None true) r)) ->
  forall results, appends (Forall Q) (grant_each drv c username ps results).
Proof.
  intros HQ. induction ps as [|p ps IH]; intros results; cbn [grant_each].
  - apply appends_ret.
  - apply appends_bind; [|intros ?; apply IH].
    apply appends_try_catch; [|intros ?; apply appends_ret].
    apply appends_bind; [|intros ?; apply appends_ret].
    apply appends_execute. intros r. apply HQ.
Qed.

(** [withConnection] around a callback that only sends statements on the
    connection it was given is one use of the pool. *)
Lemma withConnection_one_session {W} (drv : Driver W) {A} (callback : Conn -> M W A) :
  (forall c, appends (Forall (uses_only c)) (callback c)) ->
  appends one_session (withConnection drv callback).
Proof.
  intros Hcb s r s' Hrun.
  destruct (pool_getConnection drv (world s)) as [[c|e] w1] eqn:Hborrow.
  - destruct (withConnection_inv drv callback s c w1 r s' Hborrow Hrun)
      as (s2 & rc & w3 & Hrun2 & Hclose & ->).
    destruct (Hcb c _ _ _ Hrun2) as (mid & Hev & Hmid). cbn [events] in Hev.
    exists (EGetConnection (Ret c)
            :: (mid ++ logged "Database operation error:" r)
            ++ EClose c rc :: logged "Error closing connection:" rc)%list.
    split.
    + cbn [events]. rewrite Hev, <- !app_assoc. reflexivity.
    + right. exists c, (mid ++ logged "Database operation error:" r)%list, rc.
      split; [reflexivity|]. apply Forall_app. split; [exact Hmid|].
      destruct r; cbn [logged]; repeat constructor.
  - rewrite (withConnection_rejected drv callback s e w1 Hborrow) in Hrun.
    inversion Hrun; subst. cbn [events]. eexists; split; [reflexivity|].
    left. eauto.
Qed.

Section ToolSessions.

Context {W : Type} (drv : Driver W) (rt : JsRuntime) (cfg : Config).

Lemma rollback_logged_appends (Q : Event -> Prop) (c : Conn) :
  (forall r, Q (EExecute c (Some "ROLLBACK") [] no_opts r)) ->
  (forall label err, Q (EConsoleError label err)) ->
  appends (Forall Q) (rollback_logged drv c).
Proof.
  intros HQ HL. unfold rollback_logged.
  apply appends_try_catch; [|intros e; apply appends_console_error, HL].
  apply appends_bind; [|intros ?; apply appends_ret].
  apply appends_execute, HQ.
Qed.

Lemma tool_query_session a : appends one_session (tool_query drv a).
Proof.
  unfold tool_query. cbv zeta. apply withConnection_one_session. intros c.
  apply appends_try_finally;
    [|apply rollback_logged_appends; [intros ?; reflexivity|intros ? ?; exact I]].
  repeat appends_step.
Qed.

Lemma tool_execute_session a : appends one_session (tool_execute drv a).
Proof.
  unfold tool_execute. cbv zeta. apply withConnection_one_session. intros c.
  repeat appends_step.
Qed.

Lemma tool_get_table_data_session a : appends one_session (tool_get_table_data drv rt cfg a).
Proof.
  unfold tool_get_table_data. cbv zeta. apply withConnection_one_session. intros c.
  apply appends_try_finally;
    [|apply rollback_logged_appends; [intros ?; reflexivity|intros ? ?; exact I]].
  repeat appends_step.
Qed.

(** A handler that reads the username first: nothing is appended when the
    username is missing. *)
Lemma username_then_session (u : option string) (k : string -> M W Envelope) :
  (forall username, appends one_session (k username)) ->
  appends (fun new => new = [] \/ one_session new) (bind (eval (js_toUpperCase rt u)) k).
Proof.
  intros Hk s r s' Hrun. unfold bind, eval in Hrun.
  destruct u as [u|]; cbn [js_toUpperCase] in Hrun.
  - destruct (Hk _ _ _ _ Hrun) as (new & Hev & Hs). eauto.
  - inversion Hrun; subst. exists []. rewrite app_nil_r. auto.
Qed.

Lemma tool_check_user_exists_session a :
  appends (fun new => new = [] \/ one_session new) (tool_check_user_exists drv rt a).
Proof.
  unfold tool_check_user_exists. apply username_then_session. intros username.
  apply withConnection_one_session. intros c.
  repeat appends_step.
Qed.

Lemma tool_create_user_session a :
  appends (fun new => new = [] \/ one_session new) (tool_create_user drv rt a).
Proof.
  unfold tool_create_user. apply username_then_session. intros username. cbv zeta.
  apply withConnection_one_session. intros c.
  repeat appends_step.
Qed.

Lemma tool_grant_privileges_session a :
  appends (fun new => new = [] \/ one_session new) (tool_grant_privileges drv rt a).
Proof.
  unfold tool_grant_privileges. apply username_then_session. intros username. cbv zeta.
  apply withConnection_one_session. intros c.
  apply appends_try_catch; [|intros ?; apply appends_ret].
  apply appends_bind; [appends_step|intros checkResult].
  apply appends_bind; [appends_step|intros row].
  destruct (cell_is_zero (row_get row "EXIST_COUNT")); [apply appends_ret|].
  destruct (arg_privileges a) as [requested|]; [|apply appends_throw].
  apply appends_bind; [|intros ?; apply appends_ret].
  apply grant_each_appends. intros sql r. reflexivity.
Qed.

End ToolSessions.

(** ** The username in upper case *)

Section FirstStatement.

Context {W : Type} (drv : Driver W) (Q : Event -> Prop).

(** A body that starts with a statement: the statement is the first event
    it appends. *)
Lemma starts_with_execute {A} (c : Conn) (sql : option string) (binds : list Bind)
      (opts : ExecOpts) (k : ExecResult -> M W A) :
  (forall rq, Q (EExecute c sql binds opts rq)) ->
  (forall x, appends (Forall Q) (k x)) ->
  forall s r s',
    bind (execute drv c sql binds opts) k s = (r, s') ->
    exists rq rest,
      events s' = (events s ++ EExecute c sql binds opts rq :: rest)%list
      /\ Forall Q (EExecute c sql binds opts rq :: rest).
Proof.
  intros HQ Hk s r s'. unfold bind, execute.
  destruct (connection_execute drv c sql binds opts (world s)) as [[x|e] w] eqn:Hexec.
  - intros Hrun. destruct (Hk x _ _ _ Hrun) as (rest & Hev & Hrest).
    cbn [events] in Hev. exists (Ret x), rest.
    rewrite Hev, <- app_assoc. split; [reflexivity|]. constructor; auto.
  - intros Hrun. inversion Hrun; subst. exists (Throw e), []. cbn [events].
    split; [reflexivity|]. constructor; auto.
Qed.

(** The same under a [catch] that answers with a value. *)
Lemma starts_with_execute_caught {A} (c : Conn) (sql : option string) (binds : list Bind)
      (opts : ExecOpts) (k : ExecResult -> M W A) (answer : JsError -> A) :
  (forall rq, Q (EExecute c sql binds opts rq)) ->
  (forall x, appends (Forall Q) (k x)) ->
  forall s r s',
    try_catch (bind (execute drv c sql binds opts) k) (fun e => ret (answer e)) s
    = (r, s') ->
    exists rq rest,
      events s' = (events s ++ EExecute c sql binds opts rq :: rest)%list
      /\ Forall Q (EExecute c sql binds opts rq :: rest).
Proof.
  intros HQ Hk s r s'. unfold try_catch, ret.
  destruct (bind (execute drv c sql binds opts) k s) as [[x|e] s1] eqn:Hbody;
    intros Hrun; inversion Hrun; subst;
    eapply starts_with_execute; eauto.
Qed.

(** [withConnection] around a callback that starts with a statement. *)
Lemma withConnection_first_statement {A} (callback : Conn -> M W A)
      (sql : option string) (binds : list Bind) (opts : ExecOpts) (s : St W) :
  (forall r, Q (EGetConnection r)) ->
  (forall c r, Q (EClose c r)) ->
  (forall label e, Q (EConsoleError label e)) ->
  (forall c s1 r s2,
      callback c s1 = (r, s2) ->
      exists rq rest,
        events s2 = (events s1 ++ EExecute c sql binds opts rq :: rest)%list
        /\ Forall Q (EExecute c sql binds opts rq :: rest)) ->
  exists new,
    events (snd (withConnection drv callback s)) = (events s ++ new)%list
    /\ Forall Q new
    /\ (forall c w1,
           pool_getConnection drv (world s) = (Ret c, w1) ->
           exists rq rest,
             new = EGetConnection (Ret c) :: EExecute c sql binds opts rq :: rest).
Proof.
  intros Hget Hclosed Hlog Hcb.
  destruct (withConnection drv callback s) as [r s'] eqn:Hrun. cbn [snd].
  destruct (pool_getConnection drv (world s)) as [[c|e] w1] eqn:Hborrow.
  - destruct (withConnection_inv drv callback s c w1 r s' Hborrow Hrun)
      as (s2 & rc & w3 & Hrun2 & Hclose & ->).
    destruct (Hcb c _ _ _ Hrun2) as (rq & rest & Hev & Hall). cbn [events] in Hev.
    exists (EGetConnection (Ret c) :: EExecute c sql binds opts rq
            :: rest ++ logged "Database operation error:" r
            ++ EClose c rc :: logged "Error closing connection:" rc)%list.
    split; [|split].
    + cbn [events]. rewrite Hev, <- !app_assoc. reflexivity.
    + inversion Hall; subst.
      constructor; [apply Hget|]. constructor; [assumption|].
      apply Forall_app. split; [assumption|].
      apply Forall_app. split; [destruct r; cbn [logged]; repeat constructor; apply Hlog|].
      constructor; [apply Hclosed|].
      destruct rc; cbn [logged]; repeat constructor; apply Hlog.
    + intros c' w1' H. inversion H; subst. eauto.
  - rewrite (withConnection_rejected drv callback s e w1 Hborrow) in Hrun.
    inversion Hrun; subst. cbn [events]. eexists. split; [reflexivity|]. split.
    + repeat constructor; [apply Hget|apply Hlog].
    + intros c' w1' H. discriminate H.
Qed.

End FirstStatement.

Lemma grant_each_names_user {W} (drv : Driver W) (c : Conn) (U : string)
      (ps : list string) :
  forall results, appends (Forall (names_user U)) (grant_each drv c U ps results).
Proof.
  induction ps as [|p ps IH]; intros results; cbn [grant_each].
  - apply appends_ret.
  - apply appends_bind; [|intros ?; apply IH].
    apply appends_try_catch; [|intros ?; apply appends_ret].
    apply appends_bind; [|intros ?; apply appends_ret].
    apply appends_execute. intros r. cbn [names_user].
    right; right; right. exists p. reflexivity.
Qed.

(** The run of a user tool: the count query bound to the upper-cased
    username is the first statement on the borrowed connection, and every
    statement names that user. *)
Lemma user_tool_run {W} (drv : Driver W) (rt : JsRuntime) (cfg : Config)
      (toolName : string) (a : Args) (u : string) (s : St W) :
  takes_username toolName = true ->
  exists new,
    events (snd (CallTool drv rt cfg toolName (with_username a u) s))
    = (events s ++ new)%list
    /\ Forall (names_user (toUpperCase rt u)) new
    /\ (forall c w1,
           pool_getConnection drv (world s) = (Ret c, w1) ->
           exists rq rest,
             new = EGetConnection (Ret c)
                   :: EExecute c (Some user_count_sql) [BStr (toUpperCase rt u)] no_opts rq
                   :: rest).
Proof.
  intros Htool. apply existsb_names in Htool.
  set (U := toUpperCase rt u).
  assert (Hcount : forall c rq,
             names_user U (EExecute c (Some user_count_sql) [BStr U] no_opts rq)).
  { intros c rq. cbn [names_user]. left. split; reflexivity. }
  destruct Htool as [<-|[<-|[<-|[]]]].
  - rewrite CallTool_check_user_exists. unfold tool_check_user_exists, with_username.
    cbn [arg_username js_toUpperCase]. unfold bind at 1, eval at 1. fold U.
    apply withConnection_first_statement; try (intros; exact I).
    intros c. apply starts_with_execute; [apply Hcount|].
    intros result. repeat appends_step.
  - rewrite CallTool_create_user. unfold tool_create_user, with_username.
    cbn [arg_username arg_password arg_tablespace arg_tempTablespace js_toUpperCase].
    unfold bind at 1, eval at 1. fold U. cbv zeta.
    apply withConnection_first_statement; try (intros; exact I).
    intros c. apply starts_with_execute_caught; [apply Hcount|].
    intros checkResult.
    apply appends_bind; [apply appends_eval|intros row].
    destruct (cell_gt_zero rt (row_get row "EXIST_COUNT")); [apply appends_ret|].
    apply appends_bind; [|intros _].
    { apply appends_execute. intros r. cbn [names_user]. right; left.
      unfold create_user_sql. eexists. reflexivity. }
    apply appends_bind; [|intros _; apply appends_ret].
    apply appends_execute. intros r. cbn [names_user]. right; right; left.
    unfold alter_user_sql. eexists. reflexivity.
  - rewrite CallTool_grant_privileges. unfold tool_grant_privileges, with_username.
    cbn [arg_username arg_privileges js_toUpperCase].
    unfold bind at 1, eval at 1. fold U. cbv zeta.
    apply withConnection_first_statement; try (intros; exact I).
    intros c. apply starts_with_execute_caught; [apply Hcount|].
    intros checkResult.
    apply appends_bind; [apply appends_eval|intros row].
    destruct (cell_is_zero (row_get row "EXIST_COUNT")); [apply appends_ret|].
    destruct (arg_privileges a) as [requested|]; [|apply appends_throw].
    apply appends_bind; [|intros ?; apply appends_ret].
    apply grant_each_names_user.
Qed.

(** C10. check_user_exists, create_user and grant_privileges convert the
    username to upper case with [toUpperCase()] before anything else
    happens, and use the converted value [U] only: the count query over the
    user catalogue, which is the first statement on the borrowed
    connection, is bound to [U], and every other statement they send is a
    CREATE USER, ALTER USER or GRANT whose text names [U].  So two calls
    whose usernames differ in letter case only, that is, have the same
    upper-case form, all else equal, run identically: same response, same
    driver calls, same final state.  Usernames with different upper-case
    forms are told apart as soon as a connection is handed out. *)
Theorem username_case_is_irrelevant :
  forall {W} (drv : Driver W) (rt : JsRuntime) (cfg : Config) (toolName : string)
         (a : Args) (u1 u2 : string) (s : St W),
    takes_username toolName = true ->
    let U1 := toUpperCase rt u1 in
    let U2 := toUpperCase rt u2 in
    let run1 := CallTool drv rt cfg toolName (with_username a u1) s in
    let run2 := CallTool drv rt cfg toolName (with_username a u2) s in
    (exists new,
        events (snd run1) = (events s ++ new)%list
        /\ (forall c w1,
               pool_getConnection drv (world s) = (Ret c, w1) ->
               exists rq rest,
                 new = EGetConnection (Ret c)
                       :: EExecute c
                            (Some "SELECT COUNT(*) AS EXIST_COUNT FROM dba_users WHERE username = :username")
                            [BStr U1] no_opts rq
                       :: rest)
        /\ (forall c sql binds opts r,
               In (EExecute c sql binds opts r) new ->
               (sql = Some "SELECT COUNT(*) AS EXIST_COUNT FROM dba_users WHERE username = :username"
                /\ binds = [BStr U1])
               \/ (exists rest,
                      sql = Some ("CREATE USER " ++ U1 ++ " IDENTIFIED BY " ++ rest))
               \/ (exists rest,
                      sql = Some ("ALTER USER " ++ U1 ++ " DEFAULT TABLESPACE " ++ rest))
               \/ (exists privilege,
                      sql = Some ("GRANT " ++ privilege ++ " TO " ++ U1))))
    /\ (U1 = U2 -> run1 = run2)
    /\ (forall c w1,
           pool_getConnection drv (world s) = (Ret c, w1) ->
           U1 <> U2 ->
           events (snd run1) <> events (snd run2)).
Proof.
  intros W drv rt cfg toolName a u1 u2 s Htool U1 U2 run1 run2.
  destruct (user_tool_run drv rt cfg toolName a u1 s Htool) as (new1 & Hev1 & Hall1 & Hfirst1).
  destruct (user_tool_run drv rt cfg toolName a u2 s Htool) as (new2 & Hev2 & Hall2 & Hfirst2).
  split; [|split].
  - exists new1. split; [exact Hev1|]. split; [exact Hfirst1|].
    intros c sql binds opts r Hin.
    rewrite Forall_forall in Hall1. exact (Hall1 _ Hin).
  - intros Hsame. subst run1 run2.
    destruct (username_is_read_first drv rt cfg toolName a Htool) as [k Hk].
    unfold with_username. rewrite !Hk.
    unfold bind, eval, js_toUpperCase. fold U1 U2. now rewrite Hsame.
  - intros c w1 Hborrow Hdiffer Hsame. subst run1 run2.
    rewrite Hev1, Hev2 in Hsame. apply app_inv_head in Hsame.
    destruct (Hfirst1 c w1 Hborrow) as (rq1 & rest1 & ->).
    destruct (Hfirst2 c w1 Hborrow) as (rq2 & rest2 & ->).
    inversion Hsame. contradiction.
Qed.

(** ** The dispatcher and the pool *)

(** X1. Whatever the tool name, the arguments and the driver do, a tool
    call either asks nothing of the pool, or asks it once: when the pool
    rejects, that is logged and nothing else happens; when it hands out a
    connection, every statement of the call goes to that connection and
    the connection is closed once, after the last statement.  The same
    holds for the list-resources handler. *)
Theorem handlers_use_the_pool_at_most_once :
  forall {W} (drv : Driver W) (rt : JsRuntime) (cfg : Config) (toolName : string)
         (a : Args) (s : St W),
    (exists new,
        events (snd (CallTool drv rt cfg toolName a s)) = (events s ++ new)%list /\
        (new = [] \/ one_session new))
    /\ (exists new,
           events (snd (ListResources drv rt cfg s)) = (events s ++ new)%list /\
           one_session new).
Proof.
  intros W drv rt cfg toolName a s. split.
  - assert (H : appends (fun new => new = [] \/ one_session new)
                  (CallTool drv rt cfg toolName a)).
    { unfold CallTool.
      repeat match goal with
             | |- context [if ?b then _ else _] => destruct b
             end.
      - eapply appends_weaken; [|apply tool_query_session]. auto.
      - eapply appends_weaken; [|apply tool_execute_session]. auto.
      - apply tool_check_user_exists_session.
      - apply tool_create_user_session.
      - apply tool_grant_privileges_session.
      - eapply appends_weaken; [|apply tool_get_table_data_session]. auto.
      - intros s0 r s' Hrun. inversion Hrun; subst. exists [].
        rewrite app_nil_r. auto. }
    apply (H s (fst (CallTool drv rt cfg toolName a s))). apply surjective_pairing.
  - assert (H : appends one_session (ListResources drv rt cfg)).
    { unfold ListResources. apply withConnection_one_session. intros c.
      repeat appends_step. }
    apply (H s (fst (ListResources drv rt cfg s))). apply surjective_pairing.
Qed.

Lemma withConnection_ret_inv {W} (drv : Driver W) {A} (callback : Conn -> M W A)
      (s : St W) (a : A) (s' : St W) :
  withConnection drv callback s = (Ret a, s') ->
  exists c w1 s2 rc w3,
    pool_getConnection drv (world s) = (Ret c, w1) /\
    callback c (mkSt w1 (events s ++ [EGetConnection (Ret c)])) = (Ret a, s2) /\
    connection_close drv c (world s2) = (rc, w3) /\
    s' = mkSt w3 (events s2 ++ EClose c rc :: logged "Error closing connection:" rc).
Proof.
  intros Hrun.
  destruct (pool_getConnection drv (world s)) as [[c|e] w1] eqn:Hborrow.
  - destruct (withConnection_inv drv callback s c w1 _ s' Hborrow Hrun)
      as (s2 & rc & w3 & Hcb & Hclose & ->).
    exists c, w1, s2, rc, w3. cbn [logged app]. auto.
  - rewrite (withConnection_rejected drv callback s e w1 Hborrow) in Hrun. discriminate.
Qed.

Lemma map_outcome_Forall2 {A B} (f : A -> Outcome B) (l : list A) (bs : list B) :
  map_outcome f l = Ret bs -> Forall2 (fun a b => f a = Ret b) l bs.
Proof.
  revert bs. induction l as [|a l IH]; intros bs H; cbn in H.
  - inversion H. constructor.
  - destruct (f a) as [b|e] eqn:Hfa; [|discriminate].
    destruct (map_outcome f l) as [bs'|e]; [|discriminate].
    inversion H; subst. constructor; auto.
Qed.

(** X3. When the list-resources handler answers, it has sent the one
    table query, without binds, and closed the connection; the answer has
    exactly one resource per fetched row, in the order of the rows, whose
    URI is the href of [TABLE_NAME/schema] resolved against the base URL,
    whose MIME type is [application/json] and whose name quotes the table
    name. *)
Theorem ListResources_lists_one_resource_per_row :
  forall {W} (drv : Driver W) (rt : JsRuntime) (cfg : Config) (s : St W)
         (resources : list Resource) (s' : St W),
    ListResources drv rt cfg s = (Ret resources, s') ->
    exists (c : Conn) (listing : ExecResult) (table_rows : list Row) (rc : Outcome unit),
      rows listing = Some table_rows /\
      events s'
      = (events s
         ++ [EGetConnection (Ret c);
             EExecute c (Some list_tables_sql) [] no_opts (Ret listing);
             EClose c rc]
         ++ logged "Error closing connection:" rc)%list /\
      Forall2
        (fun row resource =>
           let TABLE_NAME := cell_template (row_get row "TABLE_NAME") in
           URL_href rt (TABLE_NAME ++ "/schema") (Some (resourceBaseUrl cfg))
           = Ret (uri resource) /\
           mimeType resource = "application/json" /\
           name resource
           = String (ascii_of_nat 34) TABLE_NAME
             ++ String (ascii_of_nat 34) " database schema")
        table_rows resources.
Proof.
  intros W drv rt cfg s resources s' Hrun. unfold ListResources in Hrun.
  apply withConnection_ret_inv in Hrun.
  destruct Hrun as (c & w1 & s2 & rc & w3 & Hborrow & Hcb & Hclose & ->).
  revert Hcb. run.
  destruct (connection_execute drv c (Some list_tables_sql) [] no_opts w1)
    as [[listing|e] w2] eqn:Hlist; cbn [world events]; [|discriminate].
  unfold rows_of. destruct (rows listing) as [table_rows|] eqn:Hrows; [|discriminate].
  destruct (map_outcome (resource_of_row rt cfg) table_rows) as [rs|e] eqn:Hmap;
    [|discriminate].
  intros H; inversion H; subst; clear H.
  exists c, listing, table_rows, rc. split; [exact Hrows|]. split.
  - cbn [events]. rewrite <- !app_assoc. reflexivity.
  - apply map_outcome_Forall2 in Hmap.
    eapply Forall2_impl; [|exact Hmap].
    intros row resource Hres. unfold resource_of_row in Hres. cbv zeta in Hres.
    destruct (URL_href rt _ _) as [href|e] eqn:Hhref; [|discriminate].
    inversion Hres; subst. cbn. auto.
Qed.

(** ** [execute] *)

(** X4. Once connected, [execute] sends exactly one statement, the
    caller's SQL with [autoCommit], and closes the connection; no SET
    TRANSACTION and no ROLLBACK is sent.  A statement that succeeds is
    answered with the message of [handleNonQueryResult], which carries
    [rowsAffected] when the driver reports it; a statement that fails is
    answered with an error envelope holding the driver's message, its code
    and the fixed suggestion. *)
Theorem execute_sends_one_autocommit_statement :
  forall {W} (drv : Driver W) (rt : JsRuntime) (cfg : Config) (a : Args) (s : St W)
         (c : Conn) (w1 w2 w3 : W) (rq : Outcome ExecResult) (rc : Outcome unit),
    pool_getConnection drv (world s) = (Ret c, w1) ->
    connection_execute drv c (arg_sql a) [] (mkOpts None true) w1 = (rq, w2) ->
    connection_close drv c w2 = (rc, w3) ->
    CallTool drv rt cfg "execute" a s
    = (Ret match rq with
           | Ret result =>
               mkEnvelope (text_content (Some (handleNonQueryResult result))) false
           | Throw e =>
               mkEnvelope
                 (text_content
                    (Some (obj [("error", Some (JStr (message e)));
                                ("errorCode", option_map JNum (errorNum e));
                                ("suggestion",
                                 Some (JStr "Verifique la sintaxis SQL y los permisos"))])))
                 true
           end,
       mkSt w3
         (events s
          ++ [EGetConnection (Ret c);
              EExecute c (arg_sql a) [] (mkOpts None true) rq;
              EClose c rc]
          ++ logged "Error closing connection:" rc))
    /\ (forall result n,
           rq = Ret result ->
           rowsAffected result = Some n ->
           handleNonQueryResult result
           = JObj [("message",
                    JStr ("Operation completed successfully. Rows affected: "
                          ++ number_to_string n));
                   ("rowsAffected", JNum n)]).
Proof.
  intros W drv rt cfg a s c w1 w2 w3 rq rc Hborrow Hsql Hclose. split.
  - rewrite CallTool_execute. unfold tool_execute. cbv zeta.
    destruct rq as [result|e];
      (erewrite withConnection_borrowed;
       [ |exact Hborrow
         |run; rewrite Hsql; cbn [world events]; reflexivity
         |cbn [world]; exact Hclose]);
      cbn [events logged app error_envelope]; rewrite <- !app_assoc; reflexivity.
  - intros result n _ Hn. unfold handleNonQueryResult. rewrite Hn. reflexivity.
Qed.

(** ** [check_user_exists] *)

(** X5. Once connected, [check_user_exists] sends the one count query,
    bound to the upper-cased username, and closes the connection.  When the
    query answers with a row, the response names the upper-cased username
    and says that it exists exactly when the count of the row is above
    zero.  When the query is rejected, the error is logged and thrown
    after the close: this handler builds no error envelope. *)
Theorem check_user_exists_reports_the_count :
  forall {W} (drv : Driver W) (rt : JsRuntime) (cfg : Config) (a : Args) (s : St W)
         (u : string) (c : Conn) (w1 w2 w3 : W) (rq : Outcome ExecResult)
         (rc : Outcome unit),
    arg_username a = Some u ->
    pool_getConnection drv (world s) = (Ret c, w1) ->
    connection_execute drv c
      (Some "SELECT COUNT(*) AS EXIST_COUNT FROM dba_users WHERE username = :username")
      [BStr (toUpperCase rt u)] no_opts w1
    = (rq, w2) ->
    connection_close drv c w2 = (rc, w3) ->
    (forall check row more n,
        rq = Ret check ->
        rows check = Some (row :: more) ->
        row_get row "EXIST_COUNT" = Some (CNum n) ->
        CallTool drv rt cfg "check_user_exists" a s
        = (Ret (mkEnvelope
                  (text_content
                     (Some (JObj [("username", JStr (toUpperCase rt u));
                                  ("exists", JBool (0 <? n))])))
                  false),
           mkSt w3
             (events s
              ++ [EGetConnection (Ret c);
                  EExecute c
                    (Some "SELECT COUNT(*) AS EXIST_COUNT FROM dba_users WHERE username = :username")
                    [BStr (toUpperCase rt u)] no_opts rq;
                  EClose c rc]
              ++ logged "Error closing connection:" rc)))
    /\ (forall e,
           rq = Throw e ->
           CallTool drv rt cfg "check_user_exists" a s
           = (Throw e,
              mkSt w3
                (events s
                 ++ [EGetConnection (Ret c);
                     EExecute c
                       (Some "SELECT COUNT(*) AS EXIST_COUNT FROM dba_users WHERE username = :username")
                       [BStr (toUpperCase rt u)] no_opts rq;
                     EConsoleError "Database operation error:" e;
                     EClose c rc]
                 ++ logged "Error closing connection:" rc))).
Proof.
  intros W drv rt cfg a s u c w1 w2 w3 rq rc Hu Hborrow Hcount Hclose.
  change "SELECT COUNT(*) AS EXIST_COUNT FROM dba_users WHERE username = :username"
    with user_count_sql in *.
  split.
  - intros check row more n -> Hrows Hn.
    rewrite CallTool_check_user_exists. unfold tool_check_user_exists.
    rewrite Hu. cbn [js_toUpperCase]. unfold bind at 1, eval at 1.
    erewrite withConnection_borrowed; [ |exact Hborrow| | ].
    2:{ run. rewrite Hcount. cbn [world events].
        unfold first_row. rewrite Hrows, Hn. reflexivity. }
    2:{ cbn [world]. exact Hclose. }
    cbn [events logged app cell_gt_zero]. rewrite <- !app_assoc. reflexivity.
  - intros e ->.
    rewrite CallTool_check_user_exists. unfold tool_check_user_exists.
    rewrite Hu. cbn [js_toUpperCase]. unfold bind at 1, eval at 1.
    erewrite withConnection_borrowed; [ |exact Hborrow| | ].
    2:{ run. rewrite Hcount. cbn [world events]. reflexivity. }
    2:{ cbn [world]. exact Hclose. }
    cbn [events logged app]. rewrite <- !app_assoc. reflexivity.
Qed.

(** ** [create_user]: the two statements *)

(** X6. When the existence check does not count the user and both
    statements succeed, [create_user] has sent, in this order and each
    with [autoCommit], CREATE USER with the upper-cased name and the quoted
    password and ALTER USER with the tablespaces, where an omitted or empty
    tablespace stands for USERS and an omitted or empty temporary
    tablespace for TEMP; the response is the success message. *)
Theorem create_user_creates_then_alters :
  forall {W} (drv : Driver W) (rt : JsRuntime) (cfg : Config) (a : Args) (s : St W)
         (u : string) (c : Conn) (w1 w2 w3 w4 w5 : W)
         (check created altered : ExecResult) (row : Row) (more : list Row)
         (rc : Outcome unit),
    let U := toUpperCase rt u in
    let create := Some ("CREATE USER " ++ U ++ " IDENTIFIED BY "
                        ++ String (ascii_of_nat 34) (template (arg_password a))
                        ++ String (ascii_of_nat 34) EmptyString) in
    let alter := Some ("ALTER USER " ++ U ++ " DEFAULT TABLESPACE "
                       ++ or_default_string (arg_tablespace a) "USERS" ++ " " ++ nl
                       ++ "           TEMPORARY TABLESPACE "
                       ++ or_default_string (arg_tempTablespace a) "TEMP" ++ " " ++ nl
                       ++ "           QUOTA UNLIMITED ON "
                       ++ or_default_string (arg_tablespace a) "USERS") in
    arg_username a = Some u ->
    pool_getConnection drv (world s) = (Ret c, w1) ->
    connection_execute drv c
      (Some "SELECT COUNT(*) AS EXIST_COUNT FROM dba_users WHERE username = :username")
      [BStr U] no_opts w1
    = (Ret check, w2) ->
    rows check = Some (row :: more) ->
    cell_gt_zero rt (row_get row "EXIST_COUNT") = false ->
    connection_execute drv c create [] (mkOpts None true) w2 = (Ret created, w3) ->
    connection_execute drv c alter [] (mkOpts None true) w3 = (Ret altered, w4) ->
    connection_close drv c w4 = (rc, w5) ->
    CallTool drv rt cfg "create_user" a s
    = (Ret (mkEnvelope
              [mkItem "text"
                 (Some (JObj [("message", JStr ("User " ++ U ++ " created successfully"));
                              ("nextStep",
                               JStr "Use grant_privileges tool to assign permissions to the user")]))]
              false),
       mkSt w5
         (events s
          ++ [EGetConnection (Ret c);
              EExecute c
                (Some "SELECT COUNT(*) AS EXIST_COUNT FROM dba_users WHERE username = :username")
                [BStr U] no_opts (Ret check);
              EExecute c create [] (mkOpts None true) (Ret created);
              EExecute c alter [] (mkOpts None true) (Ret altered);
              EClose c rc]
          ++ logged "Error closing connection:" rc)).
Proof.
  intros W drv rt cfg a s u c w1 w2 w3 w4 w5 check created altered row more rc U
         create alter Hu Hborrow Hcheck Hrows Hnew Hcreate Halter Hclose.
  subst create alter.
  change "SELECT COUNT(*) AS EXIST_COUNT FROM dba_users WHERE username = :username"
    with user_count_sql in *.
  rewrite CallTool_create_user. unfold tool_create_user.
  rewrite Hu. cbn [js_toUpperCase]. unfold bind at 1, eval at 1. cbv zeta. fold U.
  erewrite withConnection_borrowed; [ |exact Hborrow| | ].
  2:{ run. rewrite Hcheck. cbn [world events].
      unfold first_row. rewrite Hrows, Hnew. cbn [world events].
      unfold create_user_sql. rewrite Hcreate. cbn [world events].
      unfold alter_user_sql. rewrite Halter. cbn [world events]. reflexivity. }
  2:{ cbn [world]. exact Hclose. }
  cbn [events logged app]. rewrite <- !app_assoc. reflexivity.
Qed.

(** X7. When CREATE USER succeeded and ALTER USER is rejected,
    [create_user] answers with an error envelope that holds the error of
    ALTER USER, and sends nothing after ALTER USER: the user that was just
    created is neither dropped nor rolled back. *)
Theorem create_user_does_not_compensate :
  forall {W} (drv : Driver W) (rt : JsRuntime) (cfg : Config) (a : Args) (s : St W)
         (u : string) (c : Conn) (w1 w2 w3 w4 w5 : W)
         (check created : ExecResult) (e : JsError) (row : Row) (more : list Row)
         (rc : Outcome unit),
    let U := toUpperCase rt u in
    let create := Some ("CREATE USER " ++ U ++ " IDENTIFIED BY "
                        ++ String (ascii_of_nat 34) (template (arg_password a))
                        ++ String (ascii_of_nat 34) EmptyString) in
    let alter := Some ("ALTER USER " ++ U ++ " DEFAULT TABLESPACE "
                       ++ or_default_string (arg_tablespace a) "USERS" ++ " " ++ nl
                       ++ "           TEMPORARY TABLESPACE "
                       ++ or_default_string (arg_tempTablespace a) "TEMP" ++ " " ++ nl
                       ++ "           QUOTA UNLIMITED ON "
                       ++ or_default_string (arg_tablespace a) "USERS") in
    arg_username a = Some u ->
    pool_getConnection drv (world s) = (Ret c, w1) ->
    connection_execute drv c
      (Some "SELECT COUNT(*) AS EXIST_COUNT FROM dba_users WHERE username = :username")
      [BStr U] no_opts w1
    = (Ret check, w2) ->
    rows check = Some (row :: more) ->
    cell_gt_zero rt (row_get row "EXIST_COUNT") = false ->
    connection_execute drv c create [] (mkOpts None true) w2 = (Ret created, w3) ->
    connection_execute drv c alter [] (mkOpts None true) w3 = (Throw e, w4) ->
    connection_close drv c w4 = (rc, w5) ->
    CallTool drv rt cfg "create_user" a s
    = (Ret (mkEnvelope
              [mkItem "text"
                 (Some (obj [("error", Some (JStr (message e)));
                             ("errorCode", option_map JNum (errorNum e));
                             ("suggestion",
                              Some (JStr "Verifique la sintaxis y los permisos para crear usuarios"))]))]
              true),
       mkSt w5
         (events s
          ++ [EGetConnection (Ret c);
              EExecute c
                (Some "SELECT COUNT(*) AS EXIST_COUNT FROM dba_users WHERE username = :username")
                [BStr U] no_opts (Ret check);
              EExecute c create [] (mkOpts None true) (Ret created);
              EExecute c alter [] (mkOpts None true) (Throw e);
              EClose c rc]
          ++ logged "Error closing connection:" rc)).
Proof.
  intros W drv rt cfg a s u c w1 w2 w3 w4 w5 check created e row more rc U
         create alter Hu Hborrow Hcheck Hrows Hnew Hcreate Halter Hclose.
  subst create alter.
  change "SELECT COUNT(*) AS EXIST_COUNT FROM dba_users WHERE username = :username"
    with user_count_sql in *.
  rewrite CallTool_create_user. unfold tool_create_user.
  rewrite Hu. cbn [js_toUpperCase]. unfold bind at 1, eval at 1. cbv zeta. fold U.
  erewrite withConnection_borrowed; [ |exact Hborrow| | ].
  2:{ run. rewrite Hcheck. cbn [world events].
      unfold first_row. rewrite Hrows, Hnew. cbn [world events].
      unfold create_user_sql. rewrite Hcreate. cbn [world events].
      unfold alter_user_sql. rewrite Halter. cbn [world events]. reflexivity. }
  2:{ cbn [world]. exact Hclose. }
  cbn [events logged app]. rewrite <- !app_assoc. reflexivity.
Qed.

(** X8. When CREATE USER is rejected, [create_user] answers with an
    error envelope that holds that error, and ALTER USER is never sent. *)
Theorem create_user_stops_when_create_fails :
  forall {W} (drv : Driver W) (rt : JsRuntime) (cfg : Config) (a : Args) (s : St W)
         (u : string) (c : Conn) (w1 w2 w3 w4 : W)
         (check : ExecResult) (e : JsError) (row : Row) (more : list Row)
         (rc : Outcome unit),
    let U := toUpperCase rt u in
    let create := Some ("CREATE USER " ++ U ++ " IDENTIFIED BY "
                        ++ String (ascii_of_nat 34) (template (arg_password a))
                        ++ String (ascii_of_nat 34) EmptyString) in
    arg_username a = Some u ->
    pool_getConnection drv (world s) = (Ret c, w1) ->
    connection_execute drv c
      (Some "SELECT COUNT(*) AS EXIST_COUNT FROM dba_users WHERE username = :username")
      [BStr U] no_opts w1
    = (Ret check, w2) ->
    rows check = Some (row :: more) ->
    cell_gt_zero rt (row_get row "EXIST_COUNT") = false ->
    connection_execute drv c create [] (mkOpts None true) w2 = (Throw e, w3) ->
    connection_close drv c w3 = (rc, w4) ->
    CallTool drv rt cfg "create_user" a s
    = (Ret (mkEnvelope
              [mkItem "text"
                 (Some (obj [("error", Some (JStr (message e)));
                             ("errorCode", option_map JNum (errorNum e));
                             ("suggestion",
                              Some (JStr "Verifique la sintaxis y los permisos para crear usuarios"))]))]
              true),
       mkSt w4
         (events s
          ++ [EGetConnection (Ret c);
              EExecute c
                (Some "SELECT COUNT(*) AS EXIST_COUNT FROM dba_users WHERE username = :username")
                [BStr U] no_opts (Ret check);
              EExecute c create [] (mkOpts None true) (Throw e);
              EClose c rc]
          ++ logged "Error closing connection:" rc)).
Proof.
  intros W drv rt cfg a s u c w1 w2 w3 w4 check e row more rc U
         create Hu Hborrow Hcheck Hrows Hnew Hcreate Hclose.
  subst create.
  change "SELECT COUNT(*) AS EXIST_COUNT FROM dba_users WHERE username = :username"
    with user_count_sql in *.
  rewrite CallTool_create_user. unfold tool_create_user.
  rewrite Hu. cbn [js_toUpperCase]. unfold bind at 1, eval at 1. cbv zeta. fold U.
  erewrite withConnection_borrowed; [ |exact Hborrow| | ].
  2:{ run. rewrite Hcheck. cbn [world events].
      unfold first_row. rewrite Hrows, Hnew. cbn [world events].
      unfold create_user_sql. rewrite Hcreate. cbn [world events]. reflexivity. }
  2:{ cbn [world]. exact Hclose. }
  cbn [events logged app]. rewrite <- !app_assoc. reflexivity.
Qed.

(** ** Defaults of optional arguments *)

Lemma or_default_string_applied (x : option string) (dflt : string) :
  dflt <> "" ->
  or_default_string (Some (or_default_string x dflt)) dflt = or_default_string x dflt.
Proof.
  intros Hd. unfold or_default_string.
  destruct x as [t|].
  - destruct (String.eqb t "") eqn:Ht.
    + destruct (String.eqb dflt ""); reflexivity.
    + now rewrite Ht.
  - destruct (String.eqb dflt "") eqn:Hdflt; [|reflexivity].
    apply String.eqb_eq in Hdflt. contradiction.
Qed.

Lemma or_default_number_applied (x : option Z) (dflt : Z) :
  or_default_number (Some (or_default_number x dflt)) dflt = or_default_number x dflt.
Proof.
  unfold or_default_number.
  destruct x as [n|].
  - destruct (n =? 0) eqn:Hn; [|now rewrite Hn].
    destruct (dflt =? 0); reflexivity.
  - destruct (dflt =? 0); reflexivity.
Qed.

(** X9. The optional arguments act through their defaulted value only:
    [create_user] runs the same with a tablespace omitted, empty or given
    as USERS, and with a temporary tablespace omitted, empty or given as
    TEMP; [get_table_data] runs the same with a limit omitted, [0] or
    [10]. *)
Theorem optional_arguments_act_as_their_defaults :
  forall {W} (drv : Driver W) (rt : JsRuntime) (cfg : Config) (a : Args) (s : St W)
         (tablespace tempTablespace : option string) (limit : option Z),
    CallTool drv rt cfg "create_user" (with_tablespaces a tablespace tempTablespace) s
    = CallTool drv rt cfg "create_user"
        (with_tablespaces a
           (Some (match tablespace with
                  | Some t => if String.eqb t "" then "USERS" else t
                  | None => "USERS"
                  end))
           (Some (match tempTablespace with
                  | Some t => if String.eqb t "" then "TEMP" else t
                  | None => "TEMP"
                  end))) s
    /\ CallTool drv rt cfg "get_table_data" (with_limit a limit) s
       = CallTool drv rt cfg "get_table_data"
           (with_limit a
              (Some (match limit with
                     | Some n => if n =? 0 then 10 else n
                     | None => 10
                     end))) s.
Proof.
  intros W drv rt cfg a s tablespace tempTablespace limit. split.
  - change (match tablespace with
            | Some t => if String.eqb t "" then "USERS" else t
            | None => "USERS"
            end) with (or_default_string tablespace "USERS").
    change (match tempTablespace with
            | Some t => if String.eqb t "" then "TEMP" else t
            | None => "TEMP"
            end) with (or_default_string tempTablespace "TEMP").
    rewrite !CallTool_create_user. unfold tool_create_user, with_tablespaces.
    cbn [arg_sql arg_username arg_password arg_tablespace arg_tempTablespace
         arg_privileges arg_tableName arg_limit].
    rewrite !or_default_string_applied by discriminate. reflexivity.
  - change (match limit with
            | Some n => if n =? 0 then 10 else n
            | None => 10
            end) with (or_default_number limit 10).
    rewrite !CallTool_get_table_data. unfold tool_get_table_data, with_limit.
    cbn [arg_sql arg_username arg_password arg_tablespace arg_tempTablespace
         arg_privileges arg_tableName arg_limit].
    rewrite !or_default_number_applied. reflexivity.
Qed.

(** ** [grant_privileges]: the paths without a GRANT *)

(** X10. When the existence check of [grant_privileges] counts zero
    users, the response is the envelope [{error: "User U does not exist",
    suggestion}] with [isError] true, [U] being the upper-cased username,
    and no GRANT is sent, whatever privileges were requested. *)
Theorem grant_privileges_stops_when_user_is_missing :
  forall {W} (drv : Driver W) (rt : JsRuntime) (cfg : Config) (a : Args) (s : St W)
         (u : string) (c : Conn) (w1 w2 w3 : W)
         (check : ExecResult) (row : Row) (more : list Row) (rc : Outcome unit),
    let U := toUpperCase rt u in
    let count_query :=
      Some "SELECT COUNT(*) AS EXIST_COUNT FROM dba_users WHERE username = :username" in
    arg_username a = Some u ->
    pool_getConnection drv (world s) = (Ret c, w1) ->
    connection_execute drv c count_query [BStr U] no_opts w1 = (Ret check, w2) ->
    rows check = Some (row :: more) ->
    row_get row "EXIST_COUNT" = Some (CNum 0) ->
    connection_close drv c w2 = (rc, w3) ->
    CallTool drv rt cfg "grant_privileges" a s
    = (Ret (mkEnvelope
              [mkItem "text"
                 (Some (JObj [("error", JStr ("User " ++ U ++ " does not exist"));
                              ("suggestion",
                               JStr "Create the user first using create_user tool")]))]
              true),
       mkSt w3
         (events s
          ++ [EGetConnection (Ret c);
              EExecute c count_query [BStr U] no_opts (Ret check);
              EClose c rc]
          ++ logged "Error closing connection:" rc)).
Proof.
  intros W drv rt cfg a s u c w1 w2 w3 check row more rc U count_query
         Hu Hborrow Hcheck Hrows Hzero Hclose.
  subst U count_query.
  change "SELECT COUNT(*) AS EXIST_COUNT FROM dba_users WHERE username = :username"
    with user_count_sql in *.
  rewrite CallTool_grant_privileges. unfold tool_grant_privileges.
  rewrite Hu. cbn [js_toUpperCase]. unfold bind at 1, eval at 1. cbv zeta.
  erewrite withConnection_borrowed; [ |exact Hborrow| | ].
  2:{ run. rewrite Hcheck. cbn [world events].
      unfold first_row. rewrite Hrows, Hzero. cbn [cell_is_zero Z.eqb]. reflexivity. }
  2:{ cbn [world]. exact Hclose. }
  cbn [events logged app]. rewrite <- !app_assoc. reflexivity.
Qed.

(** X11. When the user exists but the [privileges] argument is omitted,
    [grant_privileges] answers with an error envelope that holds the
    TypeError of the loop over the undefined [privileges], whose message is
    [privileges is not iterable], and the suggestion of the handler; no
    GRANT is sent. *)
Theorem grant_privileges_without_privileges_is_an_error :
  forall {W} (drv : Driver W) (rt : JsRuntime) (cfg : Config) (a : Args) (s : St W)
         (u : string) (c : Conn) (w1 w2 w3 : W)
         (check : ExecResult) (row : Row) (more : list Row) (rc : Outcome unit),
    let U := toUpperCase rt u in
    let count_query :=
      Some "SELECT COUNT(*) AS EXIST_COUNT FROM dba_users WHERE username = :username" in
    arg_username a = Some u ->
    arg_privileges a = None ->
    pool_getConnection drv (world s) = (Ret c, w1) ->
    connection_execute drv c count_query [BStr U] no_opts w1 = (Ret check, w2) ->
    rows check = Some (row :: more) ->
    cell_is_zero (row_get row "EXIST_COUNT") = false ->
    connection_close drv c w2 = (rc, w3) ->
    CallTool drv rt cfg "grant_privileges" a s
    = (Ret (mkEnvelope
              [mkItem "text"
                 (Some (JObj [("error", JStr "privileges is not iterable");
                              ("suggestion",
                               JStr "Verifique los permisos y la sintaxis de los privilegios")]))]
              true),
       mkSt w3
         (events s
          ++ [EGetConnection (Ret c);
              EExecute c count_query [BStr U] no_opts (Ret check);
              EClose c rc]
          ++ logged "Error closing connection:" rc)).
Proof.
  intros W drv rt cfg a s u c w1 w2 w3 check row more rc U count_query
         Hu Hps Hborrow Hcheck Hrows Hexists Hclose.
  subst U count_query.
  change "SELECT COUNT(*) AS EXIST_COUNT FROM dba_users WHERE username = :username"
    with user_count_sql in *.
  rewrite CallTool_grant_privileges. unfold tool_grant_privileges.
  rewrite Hu, Hps. cbn [js_toUpperCase]. unfold bind at 1, eval at 1. cbv zeta.
  erewrite withConnection_borrowed; [ |exact Hborrow| | ].
  2:{ run. rewrite Hcheck. cbn [world events].
      unfold first_row. rewrite Hrows, Hexists. reflexivity. }
  2:{ cbn [world]. exact Hclose. }
  cbn [events logged app]. rewrite <- !app_assoc. reflexivity.
Qed.

(** ** [get_table_data]: the paths without data *)

(** X12. When the owner query of [get_table_data] finds no table of that
    name, the response is an error envelope whose only member is the
    message naming the table as the caller wrote it; the data query is not
    sent, and ROLLBACK is. *)
Theorem get_table_data_reports_a_missing_table :
  forall {W} (drv : Driver W) (rt : JsRuntime) (cfg : Config) (a : Args) (s : St W)
         (t : string) (c : Conn) (w1 w2 w3 w4 w5 : W)
         (began tableCheck : ExecResult) (rb : Outcome ExecResult) (rc : Outcome unit),
    arg_tableName a = Some t ->
    pool_getConnection drv (world s) = (Ret c, w1) ->
    connection_execute drv c (Some "SET TRANSACTION READ ONLY") [] no_opts w1
    = (Ret began, w2) ->
    connection_execute drv c (Some owner_sql) [BStr (toUpperCase rt t)] no_opts w2
    = (Ret tableCheck, w3) ->
    rows tableCheck = Some [] ->
    connection_execute drv c (Some "ROLLBACK") [] no_opts w3 = (rb, w4) ->
    connection_close drv c w4 = (rc, w5) ->
    CallTool drv rt cfg "get_table_data" a s
    = (Ret (mkEnvelope
              (text_content
                 (Some (JObj [("error",
                               JStr ("Table " ++ t
                                     ++ " does not exist or you don't have access to it"))])))
              true),
       mkSt w5
         (events s
          ++ [EGetConnection (Ret c);
              EExecute c (Some "SET TRANSACTION READ ONLY") [] no_opts (Ret began);
              EExecute c (Some owner_sql) [BStr (toUpperCase rt t)] no_opts (Ret tableCheck);
              EExecute c (Some "ROLLBACK") [] no_opts rb]
          ++ logged "Error during rollback:" rb
          ++ EClose c rc
          :: logged "Error closing connection:" rc)).
Proof.
  intros W drv rt cfg a s t c w1 w2 w3 w4 w5 began tableCheck rb rc
         Ht Hborrow Hset Howner Hrows Hrb Hclose.
  rewrite CallTool_get_table_data. unfold tool_get_table_data. cbv zeta.
  rewrite Ht.
  destruct rb as [done|eb];
    (erewrite withConnection_borrowed;
     [ |exact Hborrow
       |run; rewrite Hset; cbn [world events js_toUpperCase];
        rewrite Howner; cbn [world events];
        unfold rows_of; rewrite Hrows; cbn [world events];
        rewrite Hrb; cbn [world events]; reflexivity
       |cbn [world]; exact Hclose]);
    cbn [events logged app no_such_table_envelope template];
    rewrite <- !app_assoc; reflexivity.
Qed.

(** X13. [get_table_data] without a table name answers with an error
    envelope that holds the TypeError of [undefined.toUpperCase()]; SET
    TRANSACTION READ ONLY and ROLLBACK were sent, the owner query and the
    data query were not. *)
Theorem get_table_data_without_table_name_is_an_error :
  forall {W} (drv : Driver W) (rt : JsRuntime) (cfg : Config) (a : Args) (s : St W)
         (c : Conn) (w1 w2 w3 w4 : W)
         (began : ExecResult) (rb : Outcome ExecResult) (rc : Outcome unit),
    arg_tableName a = None ->
    pool_getConnection drv (world s) = (Ret c, w1) ->
    connection_execute drv c (Some "SET TRANSACTION READ ONLY") [] no_opts w1
    = (Ret began, w2) ->
    connection_execute drv c (Some "ROLLBACK") [] no_opts w2 = (rb, w3) ->
    connection_close drv c w3 = (rc, w4) ->
    CallTool drv rt cfg "get_table_data" a s
    = (Ret (mkEnvelope
              [mkItem "text"
                 (Some (JObj [("error",
                               JStr "Cannot read properties of undefined (reading 'toUpperCase')");
                              ("suggestion",
                               JStr "Verifique el nombre de la tabla y sus permisos de acceso")]))]
              true),
       mkSt w4
         (events s
          ++ [EGetConnection (Ret c);
              EExecute c (Some "SET TRANSACTION READ ONLY") [] no_opts (Ret began);
              EExecute c (Some "ROLLBACK") [] no_opts rb]
          ++ logged "Error during rollback:" rb
          ++ EClose c rc
          :: logged "Error closing connection:" rc)).
Proof.
  intros W drv rt cfg a s c w1 w2 w3 w4 began rb rc Ht Hborrow Hset Hrb Hclose.
  rewrite CallTool_get_table_data. unfold tool_get_table_data. cbv zeta.
  rewrite Ht.
  destruct rb as [done|eb];
    (erewrite withConnection_borrowed;
     [ |exact Hborrow
       |run; rewrite Hset; cbn [world events js_toUpperCase];
        rewrite Hrb; cbn [world events]; reflexivity
       |cbn [world]; exact Hclose]);
    cbn [events logged app]; rewrite <- !app_assoc; reflexivity.
Qed.

(** X14. Once connected, [get_table_data] always answers with an
    envelope, and on every path it sends SET TRANSACTION READ ONLY first
    and ROLLBACK last, with a failing ROLLBACK only logged.  Between the
    two it sends nothing, or the owner query, or the owner query and then
    the one data query with the limit as bind and as [maxRows]; no
    statement is sent with [autoCommit]. *)
Theorem get_table_data_is_read_only_and_rolled_back :
  forall {W} (drv : Driver W) (rt : JsRuntime) (cfg : Config) (a : Args) (s : St W)
         (c : Conn) (w1 : W),
    pool_getConnection drv (world s) = (Ret c, w1) ->
    exists (envelope : Envelope) (began rb : Outcome ExecResult) (mid : list Event)
           (rc : Outcome unit) (s' : St W),
      let limit := or_default_number (arg_limit a) 10 in
      CallTool drv rt cfg "get_table_data" a s = (Ret envelope, s') /\
      events s'
      = (events s
         ++ EGetConnection (Ret c)
         :: EExecute c (Some "SET TRANSACTION READ ONLY") [] no_opts began
         :: mid
         ++ EExecute c (Some "ROLLBACK") [] no_opts rb
         :: logged "Error during rollback:" rb
         ++ EClose c rc
         :: logged "Error closing connection:" rc)%list /\
      (mid = []
       \/ (exists T ro, mid = [EExecute c (Some owner_sql) [BStr T] no_opts ro])
       \/ (exists T tableCheck reference rd,
              mid = [EExecute c (Some owner_sql) [BStr T] no_opts (Ret tableCheck);
                     EExecute c (Some (table_data_sql reference)) [BNum limit]
                       (mkOpts (Some limit) false) rd])).
Proof.
  intros W drv rt cfg a s c w1 Hborrow.
  rewrite CallTool_get_table_data.
  destruct (tool_get_table_data drv rt cfg a s) as [r s'] eqn:Hrun.
  unfold tool_get_table_data in Hrun. cbv zeta in Hrun.
  apply (withConnection_inv drv _ s c w1 _ s' Hborrow) in Hrun.
  destruct Hrun as (s2 & rc & w5 & Hcb & Hclose & ->).
  apply try_finally_rollback_inv in Hcb.
  destruct Hcb as (s1 & rb & w & Hbody & Hrb & ->).
  set (limit := or_default_number (arg_limit a) 10) in *.
  assert (Hshape :
            exists envelope began mid,
              r = Ret envelope /\
              events s1
              = ((events s ++ [EGetConnection (Ret c)])
                 ++ EExecute c (Some "SET TRANSACTION READ ONLY") [] no_opts began
                 :: mid)%list /\
              (mid = []
               \/ (exists T ro, mid = [EExecute c (Some owner_sql) [BStr T] no_opts ro])
               \/ (exists T tableCheck reference rd,
                      mid = [EExecute c (Some owner_sql) [BStr T] no_opts (Ret tableCheck);
                             EExecute c (Some (table_data_sql reference)) [BNum limit]
                               (mkOpts (Some limit) false) rd]))).
  { clear Hrb Hclose. revert Hbody. run.
    destruct (connection_execute drv c (Some "SET TRANSACTION READ ONLY") [] no_opts w1)
      as [[began|e] w2]; cbn [world events].
    2:{ intros H; inversion H; subst. eexists; eexists; exists [].
        split; [reflexivity|]. cbn [events]. split; [reflexivity|left; reflexivity]. }
    destruct (arg_tableName a) as [t|]; cbn [js_toUpperCase].
    2:{ intros H; inversion H; subst. eexists; eexists; exists [].
        split; [reflexivity|]. cbn [events]. split; [reflexivity|left; reflexivity]. }
    destruct (connection_execute drv c (Some owner_sql) [BStr (toUpperCase rt t)] no_opts w2)
      as [[tableCheck|e] w3]; cbn [world events].
    2:{ intros H; inversion H; subst. eexists; eexists; eexists.
        split; [reflexivity|]. cbn [events]. split;
          [rewrite <- !app_assoc; reflexivity|]. right; left. do 2 eexists; reflexivity. }
    unfold rows_of.
    destruct (rows tableCheck) as [[|row more]|]; cbn [world events].
    1,3: intros H; inversion H; subst; eexists; eexists; eexists;
      (split; [reflexivity|]); cbn [events];
      (split; [rewrite <- !app_assoc; reflexivity|]); right; left; do 2 eexists; reflexivity.
    destruct (connection_execute drv c
                (Some (table_data_sql (fullTableName rt cfg (row_get row "OWNER")
                                         (toUpperCase rt t))))
                [BNum limit] (mkOpts (Some limit) false) w3)
      as [[result|e] w4]; cbn [world events].
    2:{ intros H; inversion H; subst. eexists; eexists; eexists.
        split; [reflexivity|]. cbn [events]. split;
          [rewrite <- !app_assoc; reflexivity|]. right; right. do 4 eexists; reflexivity. }
    destruct (rows result) as [data|];
      intros H; inversion H; subst; eexists; eexists; eexists;
      (split; [reflexivity|]); cbn [events];
      (split; [rewrite <- !app_assoc; reflexivity|]); right; right; do 4 eexists; reflexivity. }
  destruct Hshape as (envelope & began & mid & -> & Hev & Hmid).
  exists envelope, began, rb, mid, rc. eexists. cbv zeta.
  split; [reflexivity|]. split; [|exact Hmid].
  cbn [events logged]. rewrite Hev, <- !app_assoc. reflexivity.
Qed.

(** ** The connection string *)

Lemma string_app_assoc (a b c : string) : ((a ++ b) ++ c = a ++ (b ++ c))%string.
Proof. induction a as [|x a IH]; cbn; [reflexivity|now rewrite IH]. Qed.

Lemma string_app_nil_r (a : string) : (a ++ "" = a)%string.
Proof. induction a as [|x a IH]; cbn; [reflexivity|now rewrite IH]. Qed.

Lemma all_chars_app (f : ascii -> bool) (a b : string) :
  all_chars f (a ++ b) = all_chars f a && all_chars f b.
Proof.
  induction a as [|x a IH]; cbn; [reflexivity|]. now rewrite IH, andb_assoc.
Qed.

Lemma all_chars_impl (f g : ascii -> bool) (s : string) :
  (forall c, f c = true -> g c = true) -> all_chars f s = true -> all_chars g s = true.
Proof.
  intros Hfg. induction s as [|x s IH]; cbn; [reflexivity|].
  rewrite !andb_true_iff. intros [Hx Hs]. auto.
Qed.

Module ConnectionStringFacts.

Import ConnectionString.

(** What a successful greedy [+] has done. *)
Lemma plus_greedy_sound (cls : ascii -> bool) (k : string -> option (list string))
      (s : string) :
  forall taken caps,
    plus_greedy cls k taken s = Some caps ->
    exists more rest tail_caps,
      s = (more ++ rest)%string /\
      nonempty more = true /\
      all_chars cls more = true /\
      k rest = Some tail_caps /\
      caps = (taken ++ more)%string :: tail_caps.
Proof.
  induction s as [|c s IH]; intros taken caps H; cbn in H; [discriminate|].
  destruct (cls c) eqn:Hc; [|discriminate].
  destruct (plus_greedy cls k (taken ++ String c "") s) as [caps'|] eqn:Hlong.
  - inversion H; subst caps'.
    destruct (IH _ _ Hlong) as (more & rest & tail_caps & -> & _ & Hall & Hk & ->).
    exists (String c more), rest, tail_caps. cbn. rewrite Hc, Hall.
    repeat split; auto. now rewrite string_app_assoc.
  - destruct (k s) as [caps0|] eqn:Hk; [|discriminate].
    inversion H; subst.
    exists (String c ""), s, caps0. cbn. rewrite Hc. repeat split; auto.
Qed.

(** A match rebuilds the text from its captures. *)
Lemma regex_match_sound (p : list Atom) :
  forall s caps, regex_match p s = Some caps -> rebuild p caps = Some s.
Proof.
  induction p as [|a p IH]; intros s caps H; cbn in H.
  - destruct s; [|discriminate]. now inversion H.
  - destruct a.
    + destruct s as [|x s]; [discriminate|].
      destruct (Ascii.eqb x c) eqn:Hx; [|discriminate].
      apply Ascii.eqb_eq in Hx. subst x. cbn. now rewrite (IH _ _ H).
    + apply plus_greedy_sound in H.
      destruct H as (more & rest & tail_caps & -> & Hne & Hall & Hk & ->).
      cbn. rewrite Hne, Hall, (IH _ _ Hk). reflexivity.
    + apply plus_greedy_sound in H.
      destruct H as (more & rest & tail_caps & -> & Hne & Hall & Hk & ->).
      cbn. rewrite Hne, Hall, (IH _ _ Hk). reflexivity.
Qed.

(** A greedy [+] fails when the rest of the pattern fails after every
    non-empty run. *)
Lemma plus_greedy_none (cls : ascii -> bool) (k : string -> option (list string))
      (s : string) :
  forall taken,
    (forall x y, nonempty x = true -> s = (x ++ y)%string -> all_chars cls x = true ->
                 k y = None) ->
    plus_greedy cls k taken s = None.
Proof.
  induction s as [|c s IH]; intros taken Hk; cbn; [reflexivity|].
  destruct (cls c) eqn:Hc; [|reflexivity].
  rewrite IH.
  - rewrite (Hk (String c "") s); cbn; auto. now rewrite Hc.
  - intros x y Hx -> Hall. apply (Hk (String c x) y); cbn; auto. now rewrite Hc.
Qed.

(** A greedy [+] stops after [more] when the rest of the pattern accepts
    there and after no longer run. *)
Lemma plus_greedy_first (cls : ascii -> bool) (k : string -> option (list string))
      (more : string) :
  forall taken rest caps,
    nonempty more = true ->
    all_chars cls more = true ->
    k rest = Some caps ->
    (forall x y, nonempty x = true -> rest = (x ++ y)%string -> all_chars cls x = true ->
                 k y = None) ->
    plus_greedy cls k taken (more ++ rest) = Some ((taken ++ more)%string :: caps).
Proof.
  induction more as [|c more IH]; intros taken rest caps Hne Hall Hk Hlong;
    [discriminate|].
  cbn in Hall. apply andb_true_iff in Hall as [Hc Hall].
  cbn. rewrite Hc.
  destruct more as [|d more].
  - cbn. rewrite plus_greedy_none by exact Hlong. now rewrite Hk.
  - rewrite (IH (taken ++ String c "")%string rest caps eq_refl Hall Hk Hlong).
    now rewrite string_app_assoc.
Qed.

(** A literal does not match where the character does not occur. *)
Lemma literal_absent (c : ascii) (p : list Atom) (s x y : string) :
  all_chars (is_not c) s = true ->
  s = (x ++ y)%string ->
  regex_match (Lit c :: p) y = None.
Proof.
  intros Hs ->. rewrite all_chars_app in Hs. apply andb_true_iff in Hs as [_ Hy].
  destruct y as [|d y]; cbn; [reflexivity|].
  cbn in Hy. apply andb_true_iff in Hy as [Hd _].
  unfold is_not in Hd. apply negb_true_iff in Hd. now rewrite Hd.
Qed.

(** Where a character occurs once, the text splits around it in one way. *)
Lemma app_char_inv (c : ascii) (x : string) :
  forall a y b,
    (x ++ String c y = a ++ String c b)%string ->
    all_chars (is_not c) a = true ->
    all_chars (is_not c) b = true ->
    x = a /\ y = b.
Proof.
  assert (Hcc : is_not c c = false).
  { unfold is_not. now rewrite Ascii.eqb_refl. }
  induction x as [|e x IH]; intros a y b H Ha Hb; destruct a as [|d a]; cbn in *.
  - now inversion H.
  - inversion H; subst. now rewrite Hcc in Ha.
  - inversion H; subst. rewrite all_chars_app in Hb. cbn in Hb.
    rewrite Hcc, andb_false_r in Hb. discriminate.
  - inversion H; subst. apply andb_true_iff in Ha as [_ Ha].
    destruct (IH _ _ _ H2 Ha Hb) as [-> ->]. auto.
Qed.

Lemma digit_is_plain (c : ascii) :
  is_digit c = true -> dot_without ["/"; "@"; ":"]%char c = true.
Proof. destruct c as [[] [] [] [] [] [] [] []]; intros H; try discriminate H; reflexivity. Qed.

Lemma dot_without_is_dot (excluded : list ascii) (c : ascii) :
  dot_without excluded c = true -> is_dot c = true.
Proof. unfold dot_without. now intros [H _]%andb_true_iff. Qed.

Lemma dot_without_is_not (excluded : list ascii) (e c : ascii) :
  In e excluded -> dot_without excluded c = true -> is_not e c = true.
Proof.
  unfold dot_without. intros Hin [_ H]%andb_true_iff.
  rewrite forallb_forall in H. now apply H.
Qed.

End ConnectionStringFacts.

(** X15. When start-up accepts a connection string, the string is
    exactly [user/password@host:port/service] for the five parts it has
    stored: every part is non-empty, the port is made of digits, the
    string holds no line terminator, and the base URL of the resources is
    the URL of [oracle://user@host:port/service]. *)
Theorem startup_splits_the_connection_string :
  forall (rt : JsRuntime) (connectionString : string) (others : list string)
         (cfg : Config),
    startup rt (connectionString :: others) = Some cfg ->
    connectionString
    = (user cfg ++ "/" ++ password cfg ++ "@" ++ host cfg ++ ":" ++ port cfg
       ++ "/" ++ serviceName cfg)%string /\
    nonempty (user cfg) = true /\
    nonempty (password cfg) = true /\
    nonempty (host cfg) = true /\
    nonempty (port cfg) = true /\
    nonempty (serviceName cfg) = true /\
    all_chars ConnectionString.is_digit (port cfg) = true /\
    all_chars ConnectionString.is_dot connectionString = true /\
    URL_href rt
      ("oracle://" ++ user cfg ++ "@" ++ host cfg ++ ":" ++ port cfg ++ "/"
       ++ serviceName cfg) None
    = Ret (resourceBaseUrl cfg).
Proof.
  intros rt cs others cfg H. unfold startup in H.
  destruct (ConnectionString.connectionParts cs) as [parts|] eqn:Hparts; [|discriminate].
  destruct parts as [|u [|p [|h [|po [|sv [|extra parts]]]]]]; try discriminate.
  destruct (URL_href rt _ None) as [href|e] eqn:Hurl; [|discriminate].
  inversion H; subst; clear H. cbn [user password host port serviceName resourceBaseUrl].
  apply ConnectionStringFacts.regex_match_sound in Hparts.
  unfold ConnectionString.pattern in Hparts. cbn [rebuild atom_class] in Hparts.
  destruct (nonempty u) eqn:Nu; [|discriminate].
  destruct (all_chars ConnectionString.is_dot u) eqn:Du; [|discriminate].
  destruct (nonempty p) eqn:Np; [|discriminate].
  destruct (all_chars ConnectionString.is_dot p) eqn:Dp; [|discriminate].
  destruct (nonempty h) eqn:Nh; [|discriminate].
  destruct (all_chars ConnectionString.is_dot h) eqn:Dh; [|discriminate].
  destruct (nonempty po) eqn:Npo; [|discriminate].
  destruct (all_chars ConnectionString.is_digit po) eqn:Dpo; [|discriminate].
  destruct (nonempty sv) eqn:Nsv; [|discriminate].
  destruct (all_chars ConnectionString.is_dot sv) eqn:Dsv; [|discriminate].
  cbn in Hparts. rewrite string_app_nil_r in Hparts.
  inversion Hparts as [Hcs]. clear Hparts.
  repeat (split; [reflexivity|]).
  split; [|exact Hurl].
  repeat (rewrite all_chars_app; cbn [all_chars]).
  rewrite Du, Dp, Dh, Dsv.
  rewrite (all_chars_impl _ _ po
             (fun c Hc => ConnectionStringFacts.dot_without_is_dot _ c
                            (ConnectionStringFacts.digit_is_plain c Hc)) Dpo).
  reflexivity.
Qed.

Lemma regex_match_literal (c : ascii) (p : list ConnectionString.Atom) (s : string) :
  ConnectionString.regex_match (ConnectionString.Lit c :: p) (String c s)
  = ConnectionString.regex_match p s.
Proof. cbn. now rewrite Ascii.eqb_refl. Qed.

Lemma all_chars_is_not (excluded : list ascii) (e : ascii) (s : string) :
  In e excluded ->
  all_chars (dot_without excluded) s = true ->
  all_chars (is_not e) s = true.
Proof.
  intros Hin. apply all_chars_impl. intros c.
  now apply ConnectionStringFacts.dot_without_is_not.
Qed.

Lemma digits_are_not (e : ascii) (s : string) :
  In e ["/"; "@"; ":"]%char ->
  all_chars ConnectionString.is_digit s = true ->
  all_chars (is_not e) s = true.
Proof.
  intros Hin. apply all_chars_impl. intros c Hc.
  apply (ConnectionStringFacts.dot_without_is_not _ e c Hin).
  now apply ConnectionStringFacts.digit_is_plain.
Qed.

(** X16. A connection string put together from a user, a password
    without [/], a host without [/] and [@], a port of digits and a service
    name without [/], [@] and [:], all non-empty and free of line
    terminators, is split into exactly these five parts; the user may hold
    any of the separators, the password may hold [@] and [:]. *)
Theorem connectionParts_reads_back_its_parts :
  forall (u p h po sv : string),
    nonempty u = true -> all_chars ConnectionString.is_dot u = true ->
    nonempty p = true -> all_chars (dot_without ["/"]%char) p = true ->
    nonempty h = true -> all_chars (dot_without ["/"; "@"]%char) h = true ->
    nonempty po = true -> all_chars ConnectionString.is_digit po = true ->
    nonempty sv = true -> all_chars (dot_without ["/"; "@"; ":"]%char) sv = true ->
    ConnectionString.connectionParts (u ++ "/" ++ p ++ "@" ++ h ++ ":" ++ po ++ "/" ++ sv)
    = Some [u; p; h; po; sv].
Proof.
  intros u p h po sv Nu Du Np Dp Nh Dh Npo Dpo Nsv Dsv.
  pose proof (all_chars_impl _ _ p (ConnectionStringFacts.dot_without_is_dot _) Dp) as Dp'.
  pose proof (all_chars_impl _ _ h (ConnectionStringFacts.dot_without_is_dot _) Dh) as Dh'.
  pose proof (all_chars_impl _ _ sv (ConnectionStringFacts.dot_without_is_dot _) Dsv) as Dsv'.
  (* the service name, up to the end *)
  assert (L5 : ConnectionString.regex_match [ConnectionString.DotPlus] sv = Some [sv]).
  { pose proof (ConnectionStringFacts.plus_greedy_first ConnectionString.is_dot
                  (ConnectionString.regex_match []) sv EmptyString EmptyString []
                  Nsv Dsv' eq_refl) as H.
    rewrite string_app_nil_r in H. apply H.
    intros [|c x] y Hx Hxy _; [discriminate Hx|discriminate Hxy]. }
  (* the port *)
  assert (L4 : ConnectionString.regex_match
                 [ConnectionString.DigitPlus; ConnectionString.Lit "/";
                  ConnectionString.DotPlus] (po ++ String "/" sv)
               = Some [po; sv]).
  { apply (ConnectionStringFacts.plus_greedy_first ConnectionString.is_digit
             (ConnectionString.regex_match
                [ConnectionString.Lit "/"; ConnectionString.DotPlus])
             po EmptyString (String "/" sv) [sv] Npo Dpo).
    - rewrite regex_match_literal. exact L5.
    - intros [|c x] y Hx Hxy Hall; [discriminate Hx|].
      cbn in Hxy. inversion Hxy; subst c. cbn in Hall. discriminate Hall. }
  (* the host *)
  assert (L3 : ConnectionString.regex_match
                 [ConnectionString.DotPlus; ConnectionString.Lit ":";
                  ConnectionString.DigitPlus; ConnectionString.Lit "/";
                  ConnectionString.DotPlus]
                 (h ++ String ":" (po ++ String "/" sv))
               = Some [h; po; sv]).
  { apply (ConnectionStringFacts.plus_greedy_first ConnectionString.is_dot
             (ConnectionString.regex_match
                [ConnectionString.Lit ":"; ConnectionString.DigitPlus;
                 ConnectionString.Lit "/"; ConnectionString.DotPlus])
             h EmptyString (String ":" (po ++ String "/" sv)) [po; sv] Nh Dh').
    - rewrite regex_match_literal. exact L4.
    - intros [|c x] y Hx Hxy _; [discriminate Hx|].
      cbn in Hxy. inversion Hxy as [[Hc Hrest]].
      apply (ConnectionStringFacts.literal_absent ":"%char _ (po ++ String "/" sv) x y);
        [|exact Hrest].
      rewrite all_chars_app. cbn [all_chars].
      rewrite (digits_are_not ":"%char po ltac:(cbn; auto) Dpo).
      rewrite (all_chars_is_not ["/"%char; "@"%char; ":"%char] ":"%char sv ltac:(cbn; auto) Dsv).
      reflexivity. }
  (* the password *)
  assert (L2 : ConnectionString.regex_match
                 [ConnectionString.DotPlus; ConnectionString.Lit "@";
                  ConnectionString.DotPlus; ConnectionString.Lit ":";
                  ConnectionString.DigitPlus; ConnectionString.Lit "/";
                  ConnectionString.DotPlus]
                 (p ++ String "@" (h ++ String ":" (po ++ String "/" sv)))
               = Some [p; h; po; sv]).
  { apply (ConnectionStringFacts.plus_greedy_first ConnectionString.is_dot
             (ConnectionString.regex_match
                [ConnectionString.Lit "@"; ConnectionString.DotPlus;
                 ConnectionString.Lit ":"; ConnectionString.DigitPlus;
                 ConnectionString.Lit "/"; ConnectionString.DotPlus])
             p EmptyString (String "@" (h ++ String ":" (po ++ String "/" sv)))
             [h; po; sv] Np Dp').
    - rewrite regex_match_literal. exact L3.
    - intros [|c x] y Hx Hxy _; [discriminate Hx|].
      cbn in Hxy. inversion Hxy as [[Hc Hrest]].
      apply (ConnectionStringFacts.literal_absent "@"%char _
               (h ++ String ":" (po ++ String "/" sv)) x y); [|exact Hrest].
      repeat (rewrite all_chars_app; cbn [all_chars]).
      rewrite (all_chars_is_not ["/"%char; "@"%char] "@"%char h ltac:(cbn; auto) Dh).
      rewrite (digits_are_not "@"%char po ltac:(cbn; auto) Dpo).
      rewrite (all_chars_is_not ["/"%char; "@"%char; ":"%char] "@"%char sv ltac:(cbn; auto) Dsv).
      reflexivity. }
  (* the user: after a longer run only the service name would be left *)
  unfold ConnectionString.connectionParts, ConnectionString.pattern.
  change (u ++ "/" ++ p ++ "@" ++ h ++ ":" ++ po ++ "/" ++ sv)%string
    with (u ++ String "/" (p ++ String "@" (h ++ String ":" (po ++ String "/" sv))))%string.
  apply (ConnectionStringFacts.plus_greedy_first ConnectionString.is_dot
           (ConnectionString.regex_match
              [ConnectionString.Lit "/"; ConnectionString.DotPlus;
               ConnectionString.Lit "@"; ConnectionString.DotPlus;
               ConnectionString.Lit ":"; ConnectionString.DigitPlus;
               ConnectionString.Lit "/"; ConnectionString.DotPlus])
           u EmptyString
           (String "/" (p ++ String "@" (h ++ String ":" (po ++ String "/" sv))))
           [p; h; po; sv] Nu Du).
  - rewrite regex_match_literal. exact L2.
  - intros [|c x] y Hx Hxy _; [discriminate Hx|].
    cbn in Hxy. inversion Hxy as [[Hc Hrest]]. clear Hxy.
    destruct y as [|d y]; [reflexivity|].
    destruct (Ascii.eqb d "/") eqn:Hd; [|cbn; now rewrite Hd].
    apply Ascii.eqb_eq in Hd. subst d. rewrite regex_match_literal.
    assert (Hsplit :
              ((p ++ String "@" (h ++ String ":" po)) ++ String "/" sv
               = x ++ String "/" y)%string).
    { rewrite <- Hrest. rewrite string_app_assoc. cbn [append].
      rewrite string_app_assoc. reflexivity. }
    symmetry in Hsplit.
    apply ConnectionStringFacts.app_char_inv in Hsplit.
    + destruct Hsplit as [_ ->].
      apply (ConnectionStringFacts.plus_greedy_none ConnectionString.is_dot
               (ConnectionString.regex_match
                  [ConnectionString.Lit "@"; ConnectionString.DotPlus;
                   ConnectionString.Lit ":"; ConnectionString.DigitPlus;
                   ConnectionString.Lit "/"; ConnectionString.DotPlus])
               sv EmptyString).
      intros x2 y2 _ Hsv _.
      apply (ConnectionStringFacts.literal_absent "@"%char _ sv x2 y2); [|exact Hsv].
      apply (all_chars_is_not ["/"%char; "@"%char; ":"%char] "@"%char sv); [cbn; auto|exact Dsv].
    + repeat (rewrite all_chars_app; cbn [all_chars]).
      rewrite (all_chars_is_not ["/"%char] "/"%char p ltac:(cbn; auto) Dp).
      rewrite (all_chars_is_not ["/"%char; "@"%char] "/"%char h ltac:(cbn; auto) Dh).
      rewrite (digits_are_not "/"%char po ltac:(cbn; auto) Dpo).
      reflexivity.
    + apply (all_chars_is_not ["/"%char; "@"%char; ":"%char] "/"%char sv); [cbn; auto|exact Dsv].
Qed.

(** ** The resource URI read back *)

Module ResourceUriFacts.

Import ResourceUri.

Lemma split_from_app (a : string) :
  forall cur b,
    split_from cur (a ++ String "/" b) = (split_from cur a ++ split_from EmptyString b)%list.
Proof.
  induction a as [|c a IH]; intros cur b; cbn; [reflexivity|].
  destruct (Ascii.eqb c "/"); cbn; now rewrite IH.
Qed.

Lemma split_from_no_slash (t : string) :
  forall cur, has_slash t = false -> split_from cur t = [(cur ++ t)%string].
Proof.
  induction t as [|c t IH]; intros cur H; cbn in *.
  - now rewrite string_app_nil_r.
  - apply orb_false_iff in H as [Hc Ht]. rewrite Hc, (IH _ Ht).
    now rewrite string_app_assoc.
Qed.

Lemma pop_last (l : list string) (x : string) : pop (l ++ [x]) = (Some x, l).
Proof. unfold pop. rewrite rev_app_distr. cbn. now rewrite rev_involutive. Qed.

End ResourceUriFacts.

(** X17. The read-resource handler takes the last two components of the
    path.  A path that ends in [/TABLE/schema], or is [TABLE/schema], names
    the table [TABLE]; the table name then bound in the owner query and in
    the column and key queries is the same, [TABLE] in upper case.  The path
    [schema] alone passes the check with no table name.  A path whose last
    component is anything but [schema] fails the check with the error
    [Invalid resource URI]. *)
Theorem resource_path_names_its_table :
  forall (rt : JsRuntime) (dir TABLE last : string),
    ResourceUri.has_slash TABLE = false ->
    ResourceUri.has_slash last = false ->
    ResourceUri.target (dir ++ "/" ++ TABLE ++ "/schema") = Ret (Some TABLE)
    /\ ResourceUri.target (TABLE ++ "/schema") = Ret (Some TABLE)
    /\ ResourceUri.owner_bind rt (Some TABLE) = toUpperCase rt TABLE
    /\ ResourceUri.table_bind rt (Some TABLE) = toUpperCase rt TABLE
    /\ ResourceUri.target "schema" = Ret None
    /\ (last <> "schema" ->
        ResourceUri.target (dir ++ "/" ++ last) = Throw (Error "Invalid resource URI")
        /\ ResourceUri.target last = Throw (Error "Invalid resource URI")).
Proof.
  intros rt dir TABLE last HT Hlast.
  assert (Hschema : ResourceUri.split_from EmptyString "schema" = ["schema"])
    by reflexivity.
  repeat split.
  - unfold ResourceUri.target, ResourceUri.split.
    change (dir ++ "/" ++ TABLE ++ "/schema")%string
      with (dir ++ String "/" (TABLE ++ String "/" "schema"))%string.
    rewrite !ResourceUriFacts.split_from_app, Hschema.
    rewrite (ResourceUriFacts.split_from_no_slash TABLE EmptyString HT). cbn [append].
    rewrite app_assoc, ResourceUriFacts.pop_last, ResourceUriFacts.pop_last.
    reflexivity.
  - unfold ResourceUri.target, ResourceUri.split.
    change (TABLE ++ "/schema")%string with (TABLE ++ String "/" "schema")%string.
    rewrite ResourceUriFacts.split_from_app, Hschema.
    rewrite (ResourceUriFacts.split_from_no_slash TABLE EmptyString HT). cbn [append].
    rewrite (ResourceUriFacts.pop_last [TABLE] "schema").
    change [TABLE] with ([] ++ [TABLE])%list. rewrite ResourceUriFacts.pop_last.
    reflexivity.
  - unfold ResourceUri.owner_bind, or_default_string. cbn [option_map].
    destruct (String.eqb (toUpperCase rt TABLE) "") eqn:He; [|reflexivity].
    apply String.eqb_eq in He. now rewrite He.
  - unfold ResourceUri.target, ResourceUri.split.
    change (dir ++ "/" ++ last)%string with (dir ++ String "/" last)%string.
    rewrite ResourceUriFacts.split_from_app.
    rewrite (ResourceUriFacts.split_from_no_slash last EmptyString Hlast). cbn [append].
    rewrite ResourceUriFacts.pop_last.
    destruct (ResourceUri.pop (ResourceUri.split_from "" dir)) as [tableName left].
    destruct (String.eqb last SCHEMA_PATH) eqn:He; [|reflexivity].
    apply String.eqb_eq in He. contradiction.
  - unfold ResourceUri.target, ResourceUri.split.
    rewrite (ResourceUriFacts.split_from_no_slash last EmptyString Hlast). cbn [append].
    change [last] with ([] ++ [last])%list. rewrite ResourceUriFacts.pop_last.
    cbn [ResourceUri.pop rev].
    destruct (String.eqb last SCHEMA_PATH) eqn:He; [|reflexivity].
    apply String.eqb_eq in He. contradiction.
Qed.

(** ** The catalogue and the dispatcher *)

Lemma one_session_appends_something (l new : list Event) :
  one_session new -> l <> (l ++ new)%list.
Proof.
  intros Hs H. rewrite <- (app_nil_r l) in H at 1. apply app_inv_head in H.
  destruct Hs as [(e & ->)|(c & mid & rc & -> & _)]; discriminate H.
Qed.

Lemma session_is_not_a_rejection {W A} (m : M W A) (s : St W) (e : JsError) :
  appends one_session m -> m s <> (Throw e, s).
Proof.
  intros Hm H. destruct (Hm s _ _ H) as (new & Hev & Hs).
  exact (one_session_appends_something _ _ Hs Hev).
Qed.

Lemma CallTool_unknown_name {W} (drv : Driver W) (rt : JsRuntime) (cfg : Config)
      (toolName : string) (a : Args) (s : St W) :
  known_tool toolName = false ->
  CallTool drv rt cfg toolName a s = (Throw (Error ("Unknown tool: " ++ toolName)), s).
Proof.
  intros H. unfold known_tool in H. cbn [existsb] in H.
  repeat (apply orb_false_iff in H; destruct H as [? H]).
  unfold CallTool.
  repeat match goal with
         | E : String.eqb toolName _ = false |- _ => rewrite E; clear E
         end.
  reflexivity.
Qed.

(** X2. The dispatcher answers [Unknown tool] without touching the
    driver exactly for the names that the tool catalogue does not
    advertise: each of the six advertised tools is dispatched to its
    handler, whatever its arguments. *)
Theorem unknown_tool_exactly_for_unadvertised_names :
  forall {W} (drv : Driver W) (rt : JsRuntime) (cfg : Config) (toolName : string)
         (a : Args) (s : St W),
    CallTool drv rt cfg toolName a s = (Throw (Error ("Unknown tool: " ++ toolName)), s)
    <-> ~ In toolName (Catalogue.advertised Catalogue.ListTools).
Proof.
  intros W drv rt cfg toolName a s.
  change (Catalogue.advertised Catalogue.ListTools)
    with ["query"; "execute"; "check_user_exists"; "create_user"; "grant_privileges";
          "get_table_data"].
  split.
  - intros H Hin.
    destruct Hin as [<-|[<-|[<-|[<-|[<-|[<-|[]]]]]]].
    + rewrite CallTool_query in H.
      exact (session_is_not_a_rejection _ s _ (tool_query_session drv _) H).
    + rewrite CallTool_execute in H.
      exact (session_is_not_a_rejection _ s _ (tool_execute_session drv _) H).
    + rewrite CallTool_check_user_exists in H. unfold tool_check_user_exists in H.
      destruct (arg_username a) as [u|]; cbn [js_toUpperCase] in H;
        unfold bind at 1, eval at 1 in H; [|discriminate H].
      revert H. apply session_is_not_a_rejection.
      apply withConnection_one_session. intros c. repeat appends_step.
    + rewrite CallTool_create_user in H. unfold tool_create_user in H.
      destruct (arg_username a) as [u|]; cbn [js_toUpperCase] in H;
        unfold bind at 1, eval at 1 in H; [|discriminate H].
      revert H. apply session_is_not_a_rejection. cbv zeta.
      apply withConnection_one_session. intros c. repeat appends_step.
    + rewrite CallTool_grant_privileges in H. unfold tool_grant_privileges in H.
      destruct (arg_username a) as [u|]; cbn [js_toUpperCase] in H;
        unfold bind at 1, eval at 1 in H; [|discriminate H].
      revert H. apply session_is_not_a_rejection. cbv zeta.
      apply withConnection_one_session. intros c.
      apply appends_try_catch; [|intros ?; apply appends_ret].
      apply appends_bind; [appends_step|intros checkResult].
      apply appends_bind; [appends_step|intros row].
      destruct (cell_is_zero (row_get row "EXIST_COUNT")); [apply appends_ret|].
      destruct (arg_privileges a) as [requested|]; [|apply appends_throw].
      apply appends_bind; [|intros ?; apply appends_ret].
      apply grant_each_appends. intros sql r. reflexivity.
    + rewrite CallTool_get_table_data in H.
      exact (session_is_not_a_rejection _ s _ (tool_get_table_data_session drv rt cfg _) H).
  - intros Hnot. apply CallTool_unknown_name.
    unfold known_tool. apply not_true_is_false. intros Hin.
    apply Hnot. now apply existsb_names.
Qed.

(** X18. The defaults that the catalogue declares are the defaults that
    the handlers apply: [create_user] without tablespaces runs as with the
    declared [tablespace] and [tempTablespace], and [get_table_data]
    without a limit runs as with the declared [limit]. *)
Theorem declared_defaults_are_the_defaults_applied :
  forall {W} (drv : Driver W) (rt : JsRuntime) (cfg : Config) (a : Args) (s : St W),
    let declared := Catalogue.declared_default Catalogue.ListTools in
    CallTool drv rt cfg "create_user" (with_tablespaces a None None) s
    = CallTool drv rt cfg "create_user"
        (with_tablespaces a
           (Catalogue.as_string (declared "create_user" "tablespace"))
           (Catalogue.as_string (declared "create_user" "tempTablespace"))) s
    /\ CallTool drv rt cfg "get_table_data" (with_limit a None) s
       = CallTool drv rt cfg "get_table_data"
           (with_limit a (Catalogue.as_number (declared "get_table_data" "limit"))) s
    /\ declared "create_user" "tablespace" <> None
    /\ declared "create_user" "tempTablespace" <> None
    /\ declared "get_table_data" "limit" <> None.
Proof.
  intros W drv rt cfg a s declared. subst declared.
  repeat split; try discriminate.
Qed.

(** ** More concrete runs *)

(** [create_user] for alice and for Alice on the sample database, whose
    runtime upper-cases the ASCII letters. *)
Lemma username_case_is_irrelevant_witness :
  takes_username "create_user" = true /\
  differ_only_in_case "alice" "Alice" = true /\
  toUpperCase TestDb.runtime "alice" = toUpperCase TestDb.runtime "Alice" /\
  TestDb.call "create_user" (with_username (Runs.user_args "x") "alice")
    (TestDb.start TestDb.db)
  = TestDb.call "create_user" (with_username (Runs.user_args "x") "Alice")
      (TestDb.start TestDb.db).
Proof.
  split; [reflexivity|]. split; [reflexivity|]. split; [reflexivity|].
  exact (proj1 (proj2 (username_case_is_irrelevant TestDb.driver TestDb.runtime
                         TestDb.cfg "create_user" (Runs.user_args "x") "alice" "Alice"
                         (TestDb.start TestDb.db) eq_refl))
           eq_refl).
Defined.

(** The statements of that run: all of them name ALICE. *)
Example create_user_statements_name_the_user :
  statements (events (snd (TestDb.call "create_user" (Runs.user_args "alice")
                             (TestDb.start TestDb.db))))
  = [Some "SELECT COUNT(*) AS EXIST_COUNT FROM dba_users WHERE username = :username";
     Some ("CREATE USER ALICE IDENTIFIED BY " ++ String (ascii_of_nat 34) "secret"
           ++ String (ascii_of_nat 34) "");
     Some ("ALTER USER ALICE DEFAULT TABLESPACE USERS " ++ nl
           ++ "           TEMPORARY TABLESPACE TEMP " ++ nl
           ++ "           QUOTA UNLIMITED ON USERS")].
Proof. reflexivity. Qed.

(** The two tables of the sample database, listed. *)
Lemma ListResources_lists_one_resource_per_row_witness :
  exists (c : Conn) (listing : ExecResult) (table_rows : list Row) (rc : Outcome unit),
    rows listing = Some table_rows /\
    events (snd (ListResources TestDb.driver TestDb.runtime TestDb.cfg
                   (TestDb.start TestDb.db)))
    = ([]
       ++ [EGetConnection (Ret c);
           EExecute c (Some list_tables_sql) [] no_opts (Ret listing);
           EClose c rc]
       ++ logged "Error closing connection:" rc)%list /\
    Forall2
      (fun row resource =>
         let TABLE_NAME := cell_template (row_get row "TABLE_NAME") in
         URL_href TestDb.runtime (TABLE_NAME ++ "/schema")
           (Some (resourceBaseUrl TestDb.cfg))
         = Ret (uri resource) /\
         mimeType resource = "application/json" /\
         name resource
         = String (ascii_of_nat 34) TABLE_NAME
           ++ String (ascii_of_nat 34) " database schema")
      table_rows
      [mkResource "oracle://scott@localhost:1521/EMP/schema" "application/json"
         (String (ascii_of_nat 34) "EMP" ++ String (ascii_of_nat 34) " database schema");
       mkResource "oracle://scott@localhost:1521/DEPT/schema" "application/json"
         (String (ascii_of_nat 34) "DEPT" ++ String (ascii_of_nat 34) " database schema")].
Proof.
  exact (ListResources_lists_one_resource_per_row TestDb.driver TestDb.runtime TestDb.cfg
           (TestDb.start TestDb.db) _
           (snd (ListResources TestDb.driver TestDb.runtime TestDb.cfg
                   (TestDb.start TestDb.db)))
           eq_refl).
Defined.

(** A DELETE the sample database does not know: an error envelope with
    the code of the driver. *)
Lemma execute_sends_one_autocommit_statement_witness :
  exists s',
    TestDb.call "execute" (Runs.sql_args "DELETE FROM EMP") (TestDb.start TestDb.db)
    = (Ret (error_envelope (TestDb.ora 900 "ORA-00900: invalid SQL statement")
              "Verifique la sintaxis SQL y los permisos"), s').
Proof.
  eexists.
  eapply (proj1 (execute_sends_one_autocommit_statement TestDb.driver TestDb.runtime
                   TestDb.cfg (Runs.sql_args "DELETE FROM EMP") (TestDb.start TestDb.db)
                   1%nat _ _ _ (Throw (TestDb.ora 900 "ORA-00900: invalid SQL statement"))
                   (Ret tt) eq_refl eq_refl eq_refl)).
Defined.

(** SCOTT exists; and a rejected count query is thrown. *)
Lemma check_user_exists_reports_the_count_witness :
  (exists s',
      TestDb.call "check_user_exists" (Runs.user_args "scott") (TestDb.start TestDb.db)
      = (Ret (mkEnvelope
                (text_content
                   (Some (JObj [("username", JStr "SCOTT"); ("exists", JBool true)])))
                false), s'))
  /\ (exists s',
         TestDb.call "check_user_exists" (Runs.user_args "scott")
           (TestDb.start MoreRuns.count_rejected)
         = (Throw (TestDb.ora 942 "ORA-00942: table or view does not exist"), s')).
Proof.
  split; eexists.
  - eapply (proj1 (check_user_exists_reports_the_count TestDb.driver TestDb.runtime
                     TestDb.cfg (Runs.user_args "scott") (TestDb.start TestDb.db)
                     "scott" 1%nat _ _ _ _ (Ret tt) eq_refl eq_refl eq_refl eq_refl)
              _ [("EXIST_COUNT", CNum 1)] [] 1 eq_refl eq_refl eq_refl).
  - eapply (proj2 (check_user_exists_reports_the_count TestDb.driver TestDb.runtime
                     TestDb.cfg (Runs.user_args "scott")
                     (TestDb.start MoreRuns.count_rejected)
                     "scott" 1%nat _ _ _ _ (Ret tt) eq_refl eq_refl eq_refl eq_refl)
              _ eq_refl).
Defined.

(** ALICE is created on the sample database. *)
Lemma create_user_creates_then_alters_witness :
  exists s',
    TestDb.call "create_user" (Runs.user_args "alice") (TestDb.start TestDb.db)
    = (Ret (mkEnvelope
              [mkItem "text"
                 (Some (JObj [("message", JStr "User ALICE created successfully");
                              ("nextStep",
                               JStr "Use grant_privileges tool to assign permissions to the user")]))]
              false), s')
    /\ TestDb.users (world s') = ["ALICE"; "SYS"; "SCOTT"].
Proof.
  eexists. split.
  - eapply (create_user_creates_then_alters TestDb.driver TestDb.runtime TestDb.cfg
              (Runs.user_args "alice") (TestDb.start TestDb.db) "alice");
      reflexivity.
  - reflexivity.
Defined.

(** ALTER USER is rejected: ALICE stays created. *)
Lemma create_user_does_not_compensate_witness :
  exists s',
    TestDb.call "create_user" (Runs.user_args "alice")
      (TestDb.start MoreRuns.alter_rejected)
    = (Ret (mkEnvelope
              [mkItem "text"
                 (Some (JObj [("error", JStr "ORA-00942: table or view does not exist");
                              ("errorCode", JNum 942);
                              ("suggestion",
                               JStr "Verifique la sintaxis y los permisos para crear usuarios")]))]
              true), s')
    /\ TestDb.users (world s') = ["ALICE"; "SYS"; "SCOTT"].
Proof.
  eexists. split.
  - eapply (create_user_does_not_compensate TestDb.driver TestDb.runtime TestDb.cfg
              (Runs.user_args "alice") (TestDb.start MoreRuns.alter_rejected)
              "alice" _ _ _ _ _ _ _ _ _ _ _ _
              eq_refl eq_refl eq_refl eq_refl eq_refl eq_refl eq_refl eq_refl).
  - reflexivity.
Defined.

(** CREATE USER is rejected. *)
Lemma create_user_stops_when_create_fails_witness :
  exists s',
    TestDb.call "create_user" (Runs.user_args "alice")
      (TestDb.start MoreRuns.create_rejected)
    = (Ret (mkEnvelope
              [mkItem "text"
                 (Some (JObj [("error", JStr "ORA-00942: table or view does not exist");
                              ("errorCode", JNum 942);
                              ("suggestion",
                               JStr "Verifique la sintaxis y los permisos para crear usuarios")]))]
              true), s')
    /\ statements (events s')
       = [Some "SELECT COUNT(*) AS EXIST_COUNT FROM dba_users WHERE username = :username";
          Some ("CREATE USER ALICE IDENTIFIED BY " ++ String (ascii_of_nat 34) "secret"
                ++ String (ascii_of_nat 34) "")].
Proof.
  eexists. split.
  - eapply (create_user_stops_when_create_fails TestDb.driver TestDb.runtime TestDb.cfg
              (Runs.user_args "alice") (TestDb.start MoreRuns.create_rejected) "alice"
              _ _ _ _ _ _ _ _ _ _
              eq_refl eq_refl eq_refl eq_refl eq_refl eq_refl eq_refl).
  - reflexivity.
Defined.

(** Privileges for a user the sample database does not have. *)
Lemma grant_privileges_stops_when_user_is_missing_witness :
  exists s',
    TestDb.call "grant_privileges" (Runs.grant_args "nobody" ["CREATE SESSION"])
      (TestDb.start TestDb.db)
    = (Ret (mkEnvelope
              [mkItem "text"
                 (Some (JObj [("error", JStr "User NOBODY does not exist");
                              ("suggestion",
                               JStr "Create the user first using create_user tool")]))]
              true), s')
    /\ statements (events s')
       = [Some "SELECT COUNT(*) AS EXIST_COUNT FROM dba_users WHERE username = :username"].
Proof.
  eexists. split.
  - eapply (grant_privileges_stops_when_user_is_missing TestDb.driver
              TestDb.runtime TestDb.cfg
              (Runs.grant_args "nobody" ["CREATE SESSION"]) (TestDb.start TestDb.db)
              "nobody" _ _ _ _ _ _ _ _
              eq_refl eq_refl eq_refl eq_refl eq_refl eq_refl).
  - reflexivity.
Defined.

(** SCOTT exists, and no privileges are given. *)
Lemma grant_privileges_without_privileges_is_an_error_witness :
  exists s',
    TestDb.call "grant_privileges" (Runs.user_args "scott") (TestDb.start TestDb.db)
    = (Ret (mkEnvelope
              [mkItem "text"
                 (Some (JObj [("error", JStr "privileges is not iterable");
                              ("suggestion",
                               JStr "Verifique los permisos y la sintaxis de los privilegios")]))]
              true), s')
    /\ statements (events s')
       = [Some "SELECT COUNT(*) AS EXIST_COUNT FROM dba_users WHERE username = :username"].
Proof.
  eexists. split.
  - eapply (grant_privileges_without_privileges_is_an_error TestDb.driver TestDb.runtime
              TestDb.cfg (Runs.user_args "scott") (TestDb.start TestDb.db) "scott");
      reflexivity.
  - reflexivity.
Defined.

(** A table the sample database does not have. *)
Lemma get_table_data_reports_a_missing_table_witness :
  exists s',
    TestDb.call "get_table_data" (Runs.table_args "bonus" None) (TestDb.start TestDb.db)
    = (Ret (mkEnvelope
              (text_content
                 (Some (JObj [("error",
                               JStr "Table bonus does not exist or you don't have access to it")])))
              true), s')
    /\ statements (events s')
       = [Some "SET TRANSACTION READ ONLY"; Some owner_sql; Some "ROLLBACK"].
Proof.
  eexists. split.
  - eapply (get_table_data_reports_a_missing_table TestDb.driver TestDb.runtime TestDb.cfg
              (Runs.table_args "bonus" None) (TestDb.start TestDb.db) "bonus");
      reflexivity.
  - reflexivity.
Defined.

(** No arguments at all. *)
Lemma get_table_data_without_table_name_is_an_error_witness :
  exists s',
    TestDb.call "get_table_data" no_args (TestDb.start TestDb.db)
    = (Ret (mkEnvelope
              [mkItem "text"
                 (Some (JObj [("error",
                               JStr "Cannot read properties of undefined (reading 'toUpperCase')");
                              ("suggestion",
                               JStr "Verifique el nombre de la tabla y sus permisos de acceso")]))]
              true), s')
    /\ statements (events s') = [Some "SET TRANSACTION READ ONLY"; Some "ROLLBACK"].
Proof.
  eexists. split.
  - eapply (get_table_data_without_table_name_is_an_error TestDb.driver TestDb.runtime
              TestDb.cfg no_args (TestDb.start TestDb.db));
      reflexivity.
  - reflexivity.
Defined.

(** Two rows of EMP. *)
Lemma get_table_data_is_read_only_and_rolled_back_witness :
  pool_getConnection TestDb.driver TestDb.db
  = (Ret 1%nat, snd (TestDb.getConnection TestDb.db)) /\
  exists (envelope : Envelope) (began rb : Outcome ExecResult) (mid : list Event)
         (rc : Outcome unit) (s' : St TestDb.World),
    TestDb.call "get_table_data" (Runs.table_args "emp" (Some 2)) (TestDb.start TestDb.db)
    = (Ret envelope, s') /\
    events s'
    = ([]
       ++ EGetConnection (Ret 1%nat)
       :: EExecute 1%nat (Some "SET TRANSACTION READ ONLY") [] no_opts began
       :: mid
       ++ EExecute 1%nat (Some "ROLLBACK") [] no_opts rb
       :: logged "Error during rollback:" rb
       ++ EClose 1%nat rc
       :: logged "Error closing connection:" rc)%list /\
    (mid = []
     \/ (exists T ro, mid = [EExecute 1%nat (Some owner_sql) [BStr T] no_opts ro])
     \/ (exists T tableCheck reference rd,
            mid = [EExecute 1%nat (Some owner_sql) [BStr T] no_opts (Ret tableCheck);
                   EExecute 1%nat (Some (table_data_sql reference)) [BNum 2]
                     (mkOpts (Some 2) false) rd])).
Proof.
  split; [reflexivity|].
  exact (get_table_data_is_read_only_and_rolled_back TestDb.driver TestDb.runtime
           TestDb.cfg (Runs.table_args "emp" (Some 2)) (TestDb.start TestDb.db)
           1%nat (snd (TestDb.getConnection TestDb.db)) eq_refl).
Defined.

(** The connection string of the sample configuration. *)
Lemma startup_splits_the_connection_string_witness :
  startup TestDb.runtime ["scott/tiger@localhost:1521/XE"] = Some TestDb.cfg /\
  "scott/tiger@localhost:1521/XE"
  = (user TestDb.cfg ++ "/" ++ password TestDb.cfg ++ "@" ++ host TestDb.cfg ++ ":"
     ++ port TestDb.cfg ++ "/" ++ serviceName TestDb.cfg)%string.
Proof.
  split; [reflexivity|].
  exact (proj1 (startup_splits_the_connection_string TestDb.runtime
                  "scott/tiger@localhost:1521/XE" [] TestDb.cfg eq_refl)).
Defined.

(** A user with a slash and a password with [@] and [:]. *)
Lemma connectionParts_reads_back_its_parts_witness :
  ConnectionString.connectionParts "ops/scott/t@g:r@db.example:1521/XE"
  = Some ["ops/scott"; "t@g:r"; "db.example"; "1521"; "XE"].
Proof.
  exact (connectionParts_reads_back_its_parts "ops/scott" "t@g:r" "db.example" "1521" "XE"
           eq_refl eq_refl eq_refl eq_refl eq_refl eq_refl eq_refl eq_refl eq_refl eq_refl).
Defined.

(** The path of a listed resource, and a path that does not end in
    [schema]. *)
Lemma resource_path_names_its_table_witness :
  ResourceUri.target "/EMP/schema" = Ret (Some "EMP")
  /\ ResourceUri.target "/EMP/columns" = Throw (Error "Invalid resource URI").
Proof.
  split.
  - exact (proj1 (resource_path_names_its_table TestDb.runtime "" "EMP" "columns"
                    eq_refl eq_refl)).
  - refine (proj1 (proj2 (proj2 (proj2 (proj2 (proj2
             (resource_path_names_its_table TestDb.runtime "/EMP" "EMP" "columns"
                eq_refl eq_refl)))))
             _)).
    discriminate.
Defined.
